(** * Spreadsheet structural inference: a shallow embedding of
    [spreadsheet_agent.py] and [spreadsheet_agent_schemas.py].

    The agent loads a workbook with pandas, sanitises the column labels of
    every sheet, detects date columns, infers column types, classifies
    columns into identifier / description / metric roles, extracts a
    metric dictionary and writes a YAML profile next to the workbook.

    Conventions of the embedding.
    - Python [str] is [string]: the bytes of its UTF-8 encoding.
    - A Python exception is the [Raise] constructor of [exc].
    - A Python [dict] is an association list in insertion order; assigning
      to an existing key keeps the key's position ([dict_set]).
    - A Python [set] of strings is the list of its distinct elements in
      insertion order; [list(s)] enumerates it in the order fixed by the
      interpreter's string hashing, which is a parameter ([HashSeed]).
    - A float ratio is an exact rational; the float NaN that pandas returns
      for the mean of an empty column is [None].  Float division and the
      float literals 0.4 and 0.9 are correctly rounded and rounding is
      monotone, so a float test [x > 0.4] that succeeds implies the exact
      inequality.
    - pandas itself is not part of the repository: how a scalar prints
      ([py_str]), whether a text parses under a [strptime] format
      ([strptime_ok]) and the coercion [pd.to_datetime(.., errors='coerce')]
      ([to_datetime_coerce]) are fields of the interface [Pandas]. *)

From Stdlib Require Import List String Ascii Bool Arith ZArith QArith Lia.
From Stdlib Require Import DecimalString.
From Stdlib Require Import Permutation.
Import ListNotations.
Local Close Scope Q_scope.
Local Open Scope string_scope.
Local Open Scope list_scope.
Local Open Scope nat_scope.

(* ================================================================== *)
(** ** Exceptions *)

Inductive exn : Type :=
  | FileNotFoundError
  | ReadError          (* pd.read_excel could not read or decode the file *)
  | KeyError
  | ValueError
  | AttributeError
  | ValidationError.

Inductive exc (A : Type) : Type :=
  | Ok (a : A)
  | Raise (e : exn).
Arguments Ok {A} a.
Arguments Raise {A} e.

Definition bind {A B : Type} (m : exc A) (k : A -> exc B) : exc B :=
  match m with
  | Ok a => k a
  | Raise e => Raise e
  end.

Notation "'let*' x ':=' m 'in' k" := (bind m (fun x => k))
  (at level 10, x pattern, m at level 100, k at level 200).

(* ================================================================== *)
(** ** Python strings *)

Module PyStr.

(** [str.isspace] on the ASCII range: TAB, LF, VT, FF, CR, FS, GS, RS, US
    and the space. *)
Definition is_space (c : ascii) : bool :=
  let n := nat_of_ascii c in
  ((9 <=? n) && (n <=? 13)) || ((28 <=? n) && (n <=? 32)).

(** The whitespace code points beyond ASCII, by their UTF-8 encoding:
    U+0085 and U+00A0 take two bytes, ... *)
Definition space2 (a b : ascii) : bool :=
  (nat_of_ascii a =? 194)
  && ((nat_of_ascii b =? 133) || (nat_of_ascii b =? 160)).

(** ... and U+1680, U+2000 to U+200A, U+2028, U+2029, U+202F, U+205F and
    U+3000 take three. *)
Definition space3 (a b c : ascii) : bool :=
  let x := nat_of_ascii a in
  let y := nat_of_ascii b in
  let z := nat_of_ascii c in
  ((x =? 225) && (y =? 154) && (z =? 128))
  || ((x =? 226) && (y =? 128)
      && (((128 <=? z) && (z <=? 138)) || (z =? 168) || (z =? 169) || (z =? 175)))
  || ((x =? 226) && (y =? 129) && (z =? 159))
  || ((x =? 227) && (y =? 128) && (z =? 128)).

(** Whether the bytes begin with a whitespace character; [t2] and [t3]
    recognise the characters of two and of three bytes. *)
Definition starts_with_space (t2 : ascii -> ascii -> bool)
    (t3 : ascii -> ascii -> ascii -> bool) (l : list ascii) : bool :=
  match l with
  | [] => false
  | a :: t =>
      is_space a
      || match t with
         | [] => false
         | b :: u =>
             t2 a b
             || match u with
                | [] => false
                | c :: _ => t3 a b c
                end
         end
  end.

(** The bytes without the whitespace characters they begin with. *)
Fixpoint strip_with (t2 : ascii -> ascii -> bool)
    (t3 : ascii -> ascii -> ascii -> bool) (l : list ascii) : list ascii :=
  match l with
  | [] => []
  | a :: t =>
      if is_space a then strip_with t2 t3 t
      else
        match t with
        | [] => l
        | b :: u =>
            if t2 a b then strip_with t2 t3 u
            else
              match u with
              | [] => l
              | c :: v => if t3 a b c then strip_with t2 t3 v else l
              end
        end
  end.

(** Read from the end of the text the bytes of a character come last byte
    first. *)
Definition space2_rev (b a : ascii) : bool := space2 a b.
Definition space3_rev (c b a : ascii) : bool := space3 a b c.

Definition lstrip_chars (l : list ascii) : list ascii :=
  strip_with space2 space3 l.

Definition rstrip_chars (l : list ascii) : list ascii :=
  List.rev (strip_with space2_rev space3_rev (List.rev l)).

(** [s.strip()]: the text without the whitespace characters, ASCII or not,
    at either end. *)
Definition strip (s : string) : string :=
  string_of_list_ascii (rstrip_chars (lstrip_chars (list_ascii_of_string s))).

Definition rev (s : string) : string :=
  string_of_list_ascii (List.rev (list_ascii_of_string s)).

Definition lower_char (c : ascii) : ascii :=
  let n := nat_of_ascii c in
  if (65 <=? n) && (n <=? 90) then ascii_of_nat (n + 32) else c.

(** [s.lower()] as far as the code uses it, to compare with the ASCII
    words nan, date, year and month: the letters A to Z are lowered, and
    no other character lowers to one of the letters of these words. *)
Fixpoint lower (s : string) : string :=
  match s with
  | EmptyString => EmptyString
  | String c t => String (lower_char c) (lower t)
  end.

(** Truth value of a string: [bool(s)]. *)
Definition truthy (s : string) : bool :=
  match s with
  | EmptyString => false
  | String _ _ => true
  end.

(** A string is trimmed when it neither begins nor ends with a whitespace
    character. *)
Definition trimmed (s : string) : Prop :=
  starts_with_space space2 space3 (list_ascii_of_string s) = false
  /\ starts_with_space space2_rev space3_rev
       (List.rev (list_ascii_of_string s)) = false.

(** [x in l] *)
Definition mem (x : string) (l : list string) : bool :=
  if in_dec string_dec x l then true else false.

End PyStr.

(* ================================================================== *)
(** ** pandas values *)

Inductive Dtype : Type :=
  | int64 | float64 | bool_ | datetime64 | object_.

(** A cell of a column.  [NaN] is the float marker of an empty cell, [NaT]
    the missing timestamp; [Text] is a Python string; any other scalar
    (number, boolean, timestamp) is a [Val]. *)
Inductive cell (A : Type) : Type :=
  | NaN
  | NaT
  | Text (s : string)
  | Val (v : A).
Arguments NaN {A}.
Arguments NaT {A}.
Arguments Text {A} s.
Arguments Val {A} v.

Record Series (A : Type) : Type := mkSeries {
  dtype : Dtype;
  values : list (cell A)
}.
Arguments mkSeries {A} dtype values.
Arguments dtype {A} s.
Arguments values {A} s.

Class Pandas : Type := {
  scalar : Type;
  scalar_eq_dec : forall x y : scalar, {x = y} + {x <> y};
  (** [str(v)] of a scalar that is neither missing nor already text *)
  py_str : scalar -> string;
  (** [strptime_ok fmt s]: [pd.to_datetime(s, format=fmt, errors='raise')]
      does not raise on the text [s] *)
  strptime_ok : string -> string -> bool;
  (** [pd.to_datetime(series, errors='coerce', dayfirst=True)];
      [None] when the call raises *)
  to_datetime_coerce : Series scalar -> option (Series scalar)
}.

(** What [df[col]] evaluates to: a Series when exactly one column carries
    the label, a DataFrame when several do, a [KeyError] when none does. *)
Inductive selection (A : Type) : Type :=
  | OneSeries (s : Series A)
  | Frame (l : list (Series A))
  | Missing.
Arguments OneSeries {A} s.
Arguments Frame {A} l.
Arguments Missing {A}.

(** A table: [index_len] rows ([len(df)]) and labelled columns in order.
    pandas keeps every column at [index_len] values ([wf_df]). *)
Record DataFrame (A : Type) : Type := mkDF {
  index_len : nat;
  cols : list (string * Series A)
}.
Arguments mkDF {A} index_len cols.
Arguments index_len {A} d.
Arguments cols {A} d.

Section Frames.
Context {P : Pandas}.

Definition cell_eq_dec (x y : cell scalar) : {x = y} + {x <> y}.
Proof.
  decide equality.
  - apply string_dec.
  - apply scalar_eq_dec.
Defined.

Definition isnull (c : cell scalar) : bool :=
  match c with
  | NaN | NaT => true
  | _ => false
  end.

Definition notnull (c : cell scalar) : bool := negb (isnull c).

(** [str(c)]: the text [astype(str)] puts in place of a cell. *)
Definition str_of_cell (c : cell scalar) : string :=
  match c with
  | NaN => "nan"
  | NaT => "NaT"
  | Text s => s
  | Val v => py_str v
  end.

(** [series.astype(str)] *)
Definition astype_str (s : Series scalar) : Series scalar :=
  mkSeries object_ (map (fun c => Text (str_of_cell c)) (values s)).

(** [series.dropna()] *)
Definition dropna (l : list (cell scalar)) : list (cell scalar) :=
  filter notnull l.

(** [series.unique()]: distinct values in order of first appearance. *)
Fixpoint unique_from (seen l : list (cell scalar)) : list (cell scalar) :=
  match l with
  | [] => []
  | x :: t =>
      if in_dec cell_eq_dec x seen then unique_from seen t
      else x :: unique_from (x :: seen) t
  end.

Definition unique (l : list (cell scalar)) : list (cell scalar) :=
  unique_from [] l.

(** [mask.sum()] *)
Definition count_true (mask : list bool) : nat :=
  List.length (filter (fun b => b) mask).

(** [mask.mean()]; NaN ([None]) on an empty mask. *)
Definition mean (mask : list bool) : option Q :=
  match mask with
  | [] => None
  | _ :: _ => Some (Z.of_nat (count_true mask) # Pos.of_nat (List.length mask))%Q
  end.

(** [x > c] and [x < c] on floats: false when [x] is NaN. *)
Definition float_gt (x : option Q) (c : Q) : bool :=
  match x with
  | Some q => negb (Qle_bool q c)
  | None => false
  end.

Definition float_lt (x : option Q) (c : Q) : bool :=
  match x with
  | Some q => negb (Qle_bool c q)
  | None => false
  end.

Definition columns (df : DataFrame scalar) : list string :=
  map fst (cols df).

Definition getitem (df : DataFrame scalar) (col : string) : selection scalar :=
  match filter (fun c => String.eqb (fst c) col) (cols df) with
  | [] => Missing
  | [c] => OneSeries (snd c)
  | l => Frame (map snd l)
  end.

(** [df[col] = s] for a label carried by one column. *)
Definition setitem (df : DataFrame scalar) (col : string) (s : Series scalar)
  : DataFrame scalar :=
  mkDF (index_len df)
       (map (fun c => if String.eqb (fst c) col then (fst c, s) else c) (cols df)).

Definition wf_df (df : DataFrame scalar) : Prop :=
  Forall (fun c => List.length (values (snd c)) = index_len df) (cols df).

(* ---------------------------------------------------------------- *)
(** ** Role classifier *)

(** [len(unique_values) / total_rows if total_rows > 0 else 0] *)
Definition uniqueness_ratio (n_unique total_rows : nat) : Q :=
  if 0 <? total_rows then (Z.of_nat n_unique # Pos.of_nat total_rows)%Q else 0%Q.

Definition non_null_ratio (s : Series scalar) : option Q :=
  mean (map notnull (values s)).

Definition is_identifier (total_rows : nat) (s : Series scalar) : bool :=
  let unique_values := unique (dropna (values s)) in
  float_gt (non_null_ratio s) (4 # 10)%Q
  && float_lt (Some (uniqueness_ratio (List.length unique_values) total_rows)) (9 # 10)%Q.

Fixpoint identifier_loop (df : DataFrame scalar) (total_rows : nat)
    (todo identifier_columns : list string) : exc (list string) :=
  match todo with
  | [] => Ok identifier_columns
  | col :: rest =>
      match getitem df col with
      | OneSeries s =>
          if is_identifier total_rows s
          then identifier_loop df total_rows rest (identifier_columns ++ [col])
          else identifier_loop df total_rows rest identifier_columns
      | Frame _ => Raise AttributeError   (* a DataFrame has no [unique] *)
      | Missing => Raise KeyError
      end
  end.

Definition _identify_identifier_columns (df : DataFrame scalar)
  : exc (list string) :=
  identifier_loop df (index_len df) (columns df) [].

(** [non_null_ratio > 0.4] for a column that is not an identifier. *)
Fixpoint description_loop (df : DataFrame scalar)
    (exclude_columns todo description_columns : list string)
  : exc (list string) :=
  match todo with
  | [] => Ok description_columns
  | col :: rest =>
      if PyStr.mem col exclude_columns
      then description_loop df exclude_columns rest description_columns
      else
        match getitem df col with
        | OneSeries s =>
            if float_gt (non_null_ratio s) (4 # 10)%Q
            then description_loop df exclude_columns rest (description_columns ++ [col])
            else description_loop df exclude_columns rest description_columns
        | Frame _ => Raise ValueError   (* truth value of a Series is ambiguous *)
        | Missing => Raise KeyError
        end
  end.

Definition _identify_description_columns (df : DataFrame scalar)
    (exclude_columns : list string) : exc (list string) :=
  description_loop df exclude_columns (columns df) [].

(** [pd.api.types.is_numeric_dtype]: integer, float and boolean dtypes are
    numeric; a DataFrame has no dtype and is not. *)
Definition is_numeric_dtype (sel : selection scalar) : bool :=
  match sel with
  | OneSeries s =>
      match dtype s with
      | int64 | float64 | bool_ => true
      | datetime64 | object_ => false
      end
  | Frame _ | Missing => false
  end.

Fixpoint metric_loop (df : DataFrame scalar)
    (exclude_columns todo metric_columns : list string) : exc (list string) :=
  match todo with
  | [] => Ok metric_columns
  | col :: rest =>
      if PyStr.mem col exclude_columns
      then metric_loop df exclude_columns rest metric_columns
      else
        match getitem df col with
        | Missing => Raise KeyError
        | sel =>
            if is_numeric_dtype sel
            then metric_loop df exclude_columns rest (metric_columns ++ [col])
            else metric_loop df exclude_columns rest metric_columns
        end
  end.

Definition _identify_metric_columns (df : DataFrame scalar)
    (exclude_columns : list string) : exc (list string) :=
  metric_loop df exclude_columns (columns df) [].

(** Lines 152-156 of [_extract_sheet_metadata]: the three role lists. *)
Definition role_columns (df : DataFrame scalar) (date_columns : list string)
  : exc (list string * list string * list string) :=
  let* identifier_columns := _identify_identifier_columns df in
  let* description_columns := _identify_description_columns df identifier_columns in
  let* metric_columns :=
    _identify_metric_columns df
      (identifier_columns ++ description_columns ++ date_columns) in
  Ok (identifier_columns, description_columns, metric_columns).

End Frames.

(* ================================================================== *)
(** ** Python dictionaries *)

Definition dict (V : Type) : Type := list (string * V).

Fixpoint dict_get {V : Type} (k : string) (d : dict V) : option V :=
  match d with
  | [] => None
  | (k', v) :: t => if String.eqb k' k then Some v else dict_get k t
  end.

(** [d[k] = v] *)
Fixpoint dict_set {V : Type} (k : string) (v : V) (d : dict V) : dict V :=
  match d with
  | [] => [(k, v)]
  | (k', v') :: t =>
      if String.eqb k' k then (k', v) :: t else (k', v') :: dict_set k v t
  end.

(** Truth value of a dictionary: [bool(d)]. *)
Definition dict_truthy {V : Type} (d : dict V) : bool :=
  match d with
  | [] => false
  | _ :: _ => true
  end.

(* ================================================================== *)
(** ** Metric-mapping extraction *)

Section Metrics.
Context {P : Pandas}.

Definition columns_to_try (df : DataFrame scalar)
    (identifier_columns description_columns : list string)
  : list (string * string) :=
  (if 2 <=? List.length (columns df)
   then [(nth 0 (columns df) "", nth 1 (columns df) "")]
   else [])
  ++ flat_map (fun id_col => map (fun desc_col => (id_col, desc_col))
                                 description_columns)
              identifier_columns.

(** [a & b] on boolean masks over the same index. *)
Fixpoint mask_and (a b : list bool) : list bool :=
  match a, b with
  | x :: a', y :: b' => (x && y) :: mask_and a' b'
  | _, _ => []
  end.

(** [series[mask]] *)
Fixpoint select {A : Type} (l : list A) (mask : list bool) : list A :=
  match l, mask with
  | x :: l', b :: mask' => if b then x :: select l' mask' else select l' mask'
  | _, _ => []
  end.

(** The test of line 313 on the trimmed texts. *)
Definition keep_row (identifier description : string) : bool :=
  PyStr.truthy identifier && PyStr.truthy description
  && negb (String.eqb (PyStr.lower identifier) "nan")
  && negb (String.eqb (PyStr.lower description) "nan").

(** The spellings of nan, by letter case: what line 313 compares the
    lowered text with, read without [lower]. *)
Definition nan_spellings : list string :=
  ["nan"; "naN"; "nAn"; "nAN"; "Nan"; "NaN"; "NAn"; "NAN"].

Definition add_row (metrics : dict string) (row : cell scalar * cell scalar)
  : dict string :=
  let identifier := PyStr.strip (str_of_cell (fst row)) in
  let description := PyStr.strip (str_of_cell (snd row)) in
  if keep_row identifier description
  then dict_set identifier description metrics
  else metrics.

(** The inner [for ... in zip(...)] loop. *)
Definition add_rows (rows : list (cell scalar * cell scalar))
    (metrics : dict string) : dict string :=
  fold_left add_row rows metrics.

(** The two columns of a candidate pair as text; [df[..]] raises
    [KeyError] on an absent label, and a label carried by several columns
    gives a DataFrame whose mask sum has no truth value. *)
Definition pair_series (df : DataFrame scalar) (id_col desc_col : string)
  : exc (Series scalar * Series scalar) :=
  match getitem df id_col, getitem df desc_col with
  | Missing, _ => Raise KeyError
  | _, Missing => Raise KeyError
  | OneSeries a, OneSeries b => Ok (astype_str a, astype_str b)
  | _, _ => Raise ValueError
  end.

Definition combined_non_null (id_series desc_series : Series scalar)
  : list bool :=
  mask_and (map notnull (values id_series)) (map notnull (values desc_series)).

Definition masked_rows (id_series desc_series : Series scalar)
  : list (cell scalar * cell scalar) :=
  let mask := combined_non_null id_series desc_series in
  combine (select (values id_series) mask) (select (values desc_series) mask).

(** The loop over [columns_to_try]; [metrics] is the one dictionary the
    function creates and every candidate pair writes into. *)
Fixpoint try_pairs (df : DataFrame scalar) (todo : list (string * string))
    (metrics : dict string) : exc (dict string) :=
  match todo with
  | [] => Ok metrics
  | (id_col, desc_col) :: rest =>
      let* series := pair_series df id_col desc_col in
      let id_series := fst series in
      let desc_series := snd series in
      if count_true (combined_non_null id_series desc_series) =? 0
      then try_pairs df rest metrics
      else
        let metrics' := add_rows (masked_rows id_series desc_series) metrics in
        if dict_truthy metrics' then Ok metrics'
        else try_pairs df rest metrics'
  end.

Definition _extract_metrics (df : DataFrame scalar)
    (identifier_columns description_columns : list string)
  : exc (dict string) :=
  try_pairs df (columns_to_try df identifier_columns description_columns) [].

(** The candidates as the specification orders them: the first and the
    second column by position when the table has two columns, then the
    identifier columns (outer) by the description columns (inner). *)
Definition spec_candidates (df : DataFrame scalar)
    (identifier_columns description_columns : list string)
  : list (string * string) :=
  match columns df with
  | first :: second :: _ =>
      (first, second) :: list_prod identifier_columns description_columns
  | _ => list_prod identifier_columns description_columns
  end.

(** The reading of the specification: the mapping one candidate pair
    yields on its own, from an empty dictionary ... *)
Definition pair_mapping (df : DataFrame scalar) (cand : string * string)
  : exc (dict string) :=
  let* series := pair_series df (fst cand) (snd cand) in
  if count_true (combined_non_null (fst series) (snd series)) =? 0
  then Ok []
  else Ok (add_rows (masked_rows (fst series) (snd series)) []).

(** ... and the first non-empty one in the order of the candidates. *)
Fixpoint first_match (df : DataFrame scalar) (todo : list (string * string))
  : exc (dict string) :=
  match todo with
  | [] => Ok []
  | cand :: rest =>
      let* m := pair_mapping df cand in
      if dict_truthy m then Ok m else first_match df rest
  end.

End Metrics.

(* ================================================================== *)
(** ** Python sets of strings and their iteration order *)

Definition pyset_add (x : string) (s : list string) : list string :=
  if PyStr.mem x s then s else s ++ [x].

(** [s.update(l)] *)
Definition pyset_update (s l : list string) : list string :=
  fold_left (fun acc x => pyset_add x acc) l s.

(** [set(l)] *)
Definition pyset_of_list (l : list string) : list string :=
  pyset_update [] l.

(** The order in which [list(s)] enumerates a set of strings depends on the
    string hashes, which CPython seeds per process.  A seed fixes one
    enumeration for every set. *)
Record HashSeed : Type := mkSeed {
  set_iter : list string -> list string;
  set_iter_perm : forall l, NoDup l -> Permutation (set_iter l) l
}.

(* ================================================================== *)
(** ** Date detection and type inference *)

Definition known_formats : list string :=
  [ "%d/%m/%Y"; "%Y-%m-%d %H:%M:%S"; "%Y-%m-%d"; "%B %Y"; "%b-%y";
    "%m/%Y"; "%Y%m"; "%d-%m-%Y"; "%m-%d-%Y"; "%b-%y"; "%b-%Y";
    "%Y-%b"; "%b/%y"; "%b/%Y" ].

Section Dates.
Context {P : Pandas}.

(** A [for fmt in known_formats: try ... break] loop: the first format
    under which the parse does not raise. *)
Definition first_format (parses : string -> bool) : option string :=
  find parses known_formats.

Definition record_match (col : string) (m : option string)
    (st : list string * list string) : list string * list string :=
  match m with
  | Some fmt => (fst st ++ [col], pyset_add fmt (snd st))
  | None => st
  end.

(** [df[col].dropna().astype(str).head(10)] *)
Definition sample_data (s : Series scalar) : list string :=
  firstn 10 (map str_of_cell (dropna (values s))).

(** One iteration of the loop over the columns; the state is the list
    [date_columns] and the set [date_formats]. *)
Definition date_step (df : DataFrame scalar) (col : string)
    (st : list string * list string) : exc (list string * list string) :=
  let st1 := record_match col (first_format (fun fmt => strptime_ok fmt col)) st in
  if PyStr.mem (PyStr.lower col) ["date"; "year"; "month"]
  then Ok (fst st1 ++ [col], snd st1)
  else
    match getitem df col with
    | Missing => Raise KeyError
    | OneSeries s =>
        Ok (record_match col
              (first_format (fun fmt => forallb (strptime_ok fmt) (sample_data s)))
              st1)
    | Frame _ => Ok st1   (* to_datetime of such a frame raises ValueError,
                             caught for every format *)
    end.

Fixpoint date_loop (df : DataFrame scalar) (todo : list string)
    (st : list string * list string) : exc (list string * list string) :=
  match todo with
  | [] => Ok st
  | col :: rest =>
      let* st' := date_step df col st in
      date_loop df rest st'
  end.

Definition _detect_date_columns (seed : HashSeed) (df : DataFrame scalar)
  : exc (list string * list string) :=
  let* st := date_loop df (columns df) ([], []) in
  Ok (set_iter seed (pyset_of_list (fst st)), set_iter seed (snd st)).

Definition type_name (d : Dtype) : string :=
  match d with
  | datetime64 => "datetime"
  | int64 => "integer"
  | float64 => "float"
  | bool_ => "boolean"
  | object_ => "string"
  end.

(** The loop of [_infer_data_types]; it assigns the coerced series back
    into [df], so the table is threaded through. *)
Fixpoint infer_loop (df : DataFrame scalar) (date_columns todo : list string)
    (inferred_types : dict string) : exc (DataFrame scalar * dict string) :=
  match todo with
  | [] => Ok (df, inferred_types)
  | col :: rest =>
      if PyStr.mem col date_columns then
        match getitem df col with
        | OneSeries s =>
            match to_datetime_coerce s with
            | Some s' =>
                infer_loop (setitem df col s') date_columns rest
                           (dict_set col "datetime" inferred_types)
            | None =>
                infer_loop df date_columns rest (dict_set col "string" inferred_types)
            end
        | Frame _ | Missing =>
            (* the exception is caught by [except Exception] *)
            infer_loop df date_columns rest (dict_set col "string" inferred_types)
        end
      else
        match getitem df col with
        | Missing => Raise KeyError
        | OneSeries s =>
            infer_loop df date_columns rest
                       (dict_set col (type_name (dtype s)) inferred_types)
        | Frame _ =>
            infer_loop df date_columns rest (dict_set col "string" inferred_types)
        end
  end.

Definition _infer_data_types (df : DataFrame scalar) (date_columns : list string)
  : exc (DataFrame scalar * dict string) :=
  infer_loop df date_columns (columns df) [].

(** [df.isnull().sum().to_dict()] with [int] values. *)
Definition null_counts_of (df : DataFrame scalar) : dict Z :=
  fold_left
    (fun d c => dict_set (fst c)
                  (Z.of_nat (count_true (map isnull (values (snd c))))) d)
    (cols df) [].

End Dates.

(* ================================================================== *)
(** ** pydantic models ([spreadsheet_agent_schemas.py]) *)

Local Unset Elimination Schemes.
Inductive pyval : Type :=
  | VStr (s : string)
  | VInt (z : Z)
  | VBool (b : bool)
  | VList (l : list pyval)
  | VDict (d : list (string * pyval)).
Local Set Elimination Schemes.

(** A model class: its declared fields in order, each with its default
    ([None] for a required field). *)
Definition ModelClass : Type := list (string * option pyval).

(** [class SheetInfo(BaseModel)] *)
Definition SheetInfo : ModelClass :=
  [ ("name", None); ("columns", None); ("row_count", None);
    ("column_count", None); ("data_types", None); ("has_headers", None);
    ("date_columns", None); ("null_counts", None);
    ("date_formats", Some (VList [])) ].

(** [class SpreadsheetProcessingResponse(BaseModel)] *)
Definition SpreadsheetProcessingResponse : ModelClass :=
  [ ("sheets_metadata", None); ("processed_data", None); ("file_path", None) ].

Definition has_key {V : Type} (k : string) (d : dict V) : bool :=
  match dict_get k d with
  | Some _ => true
  | None => false
  end.

(** The fields of an instance that were set by the caller, in declaration
    order. *)
Fixpoint fields_set (cls : ModelClass) (kwargs : dict pyval) : dict pyval :=
  match cls with
  | [] => []
  | (f, _) :: rest =>
      match dict_get f kwargs with
      | Some v => (f, v) :: fields_set rest kwargs
      | None => fields_set rest kwargs
      end
  end.

(** Construction of an instance from keyword arguments.  Neither schema sets [extra], so pydantic ignores a
    keyword that is not a declared field; a missing required field is a
    validation error.  The instance is the dictionary of its set fields. *)
Definition model_init (cls : ModelClass) (kwargs : dict pyval) : exc (dict pyval) :=
  if forallb (fun f => match snd f with
                       | Some _ => true
                       | None => has_key (fst f) kwargs
                       end) cls
  then Ok (fields_set cls kwargs)
  else Raise ValidationError.

(** [instance.model_dump(exclude_unset=True)] *)
Definition model_dump_set (instance : dict pyval) : pyval := VDict instance.

(** Attribute access [instance.f]. *)
Definition getattr (instance : dict pyval) (f : string) : option pyval :=
  dict_get f instance.

Definition str_list (l : list string) : pyval := VList (map VStr l).

Definition strings_of (v : option pyval) : list string :=
  match v with
  | Some (VList l) =>
      flat_map (fun x => match x with VStr s => [s] | _ => [] end) l
  | _ => []
  end.

Definition str_dict (d : dict string) : pyval :=
  VDict (map (fun kv => (fst kv, VStr (snd kv))) d).

Definition int_dict (d : dict Z) : pyval :=
  VDict (map (fun kv => (fst kv, VInt (snd kv))) d).

(* ================================================================== *)
(** ** Per-sheet profile *)

Section Sheet.
Context {P : Pandas}.

Definition _extract_sheet_metadata (seed : HashSeed) (df : DataFrame scalar)
    (sheet_name : string) : exc (dict pyval * dict string) :=
  let columns_ := columns df in
  let* dates := _detect_date_columns seed df in
  let date_columns := fst dates in
  let date_formats := snd dates in
  let* typed := _infer_data_types df date_columns in
  let df := fst typed in
  let data_types := snd typed in
  let null_counts := null_counts_of df in
  let has_headers := true in
  let* roles := role_columns df date_columns in
  let identifier_columns := fst (fst roles) in
  let description_columns := snd (fst roles) in
  let metric_columns := snd roles in
  let* metrics_mapping :=
    _extract_metrics df identifier_columns description_columns in
  let* sheet_info :=
    model_init SheetInfo
      [ ("name", VStr sheet_name);
        ("columns", str_list columns_);
        ("row_count", VInt (Z.of_nat (index_len df)));
        ("column_count", VInt (Z.of_nat (List.length columns_)));
        ("data_types", str_dict data_types);
        ("has_headers", VBool has_headers);
        ("date_columns", str_list date_columns);
        ("null_counts", int_dict null_counts);
        ("date_formats", str_list date_formats);
        ("identifier_columns", str_list identifier_columns);
        ("description_columns", str_list description_columns);
        ("metric_columns", str_list metric_columns) ] in
  Ok (sheet_info, metrics_mapping).

End Sheet.

(* ================================================================== *)
(** ** Column sanitizer *)

(** A sheet as [pd.read_excel] returns it: the header cells are the
    column labels. *)
Record RawFrame (A : Type) : Type := mkRaw {
  raw_len : nat;
  raw_cols : list (cell A * Series A)
}.
Arguments mkRaw {A} raw_len raw_cols.
Arguments raw_len {A} r.
Arguments raw_cols {A} r.

Section Sanitizer.
Context {P : Pandas}.

(** [df.columns = df.columns.astype(str).str.strip()] *)
Definition clean_column_names (raw : RawFrame scalar) : DataFrame scalar :=
  mkDF (raw_len raw)
       (map (fun c => (PyStr.strip (str_of_cell (fst c)), snd c)) (raw_cols raw)).

(** [label.str.contains('^Unnamed')] *)
Definition is_unnamed (label : string) : bool := String.prefix "Unnamed" label.

(** [df.loc[:, ~df.columns.str.contains('^Unnamed')]] *)
Definition drop_unnamed (df : DataFrame scalar) : DataFrame scalar :=
  mkDF (index_len df) (filter (fun c => negb (is_unnamed (fst c))) (cols df)).

Definition sanitize (raw : RawFrame scalar) : DataFrame scalar :=
  drop_unnamed (clean_column_names raw).

End Sanitizer.

(* ================================================================== *)
(** ** Paths and files *)

Module PyPath.

Fixpoint break_at (c : ascii) (s : string) : option (string * string) :=
  match s with
  | EmptyString => None
  | String x t =>
      if Ascii.eqb x c then Some (EmptyString, t)
      else match break_at c t with
           | Some (a, b) => Some (String x a, b)
           | None => None
           end
  end.

(** The text cut at every occurrence of [c]. *)
Fixpoint split_on (c : ascii) (s : string) : list string :=
  match s with
  | EmptyString => [EmptyString]
  | String x t =>
      if Ascii.eqb x c then EmptyString :: split_on c t
      else
        match split_on c t with
        | h :: r => String x h :: r
        | [] => [String x EmptyString]
        end
  end.

(** The root of a POSIX path: one slash, or two when the text begins with
    exactly two. *)
Definition root (p : string) : string :=
  if String.prefix "///" p then "/"
  else if String.prefix "//" p then "//"
  else if String.prefix "/" p then "/"
  else "".

(** The components pathlib keeps: empty ones and [.] are dropped, [..] is
    kept. *)
Definition parts (p : string) : list string :=
  filter (fun s => negb (String.eqb s "" || String.eqb s "."))
         (split_on "/" p).

(** [str(Path(p))] *)
Definition normalize (p : string) : string :=
  match root p, parts p with
  | EmptyString, [] => "."
  | r, ps => (r ++ String.concat "/" ps)%string
  end.

(** Whether the text, as the operating system resolves it, can only name
    a directory: its last component is empty (a trailing slash), [.] or
    [..]. *)
Definition names_directory (p : string) : bool :=
  let final := List.last (split_on "/" p) "" in
  String.eqb final "" || String.eqb final "." || String.eqb final "..".

(** Parent (with its separator) and final component of a path that is
    normalised the way pathlib prints it; the path [.] has no
    component. *)
Definition split_name (p : string) : string * string :=
  if String.eqb p "." then ("", "")
  else
    match break_at "/" (PyStr.rev p) with
    | Some (name_r, parent_r) => ((PyStr.rev parent_r ++ "/")%string, PyStr.rev name_r)
    | None => ("", p)
    end.

(** Stem and suffix of a final component: the suffix starts at the last
    dot unless that dot is the first or the last character. *)
Definition split_suffix (name : string) : string * string :=
  match break_at "." (PyStr.rev name) with
  | Some (ext_r, stem_r) =>
      if PyStr.truthy ext_r && PyStr.truthy stem_r
      then (PyStr.rev stem_r, ("." ++ PyStr.rev ext_r)%string)
      else (name, "")
  | None => (name, "")
  end.

(** [path.with_suffix(suffix)]; pathlib raises [ValueError] on an empty
    name. *)
Definition with_suffix (p suffix : string) : exc string :=
  let parent := fst (split_name p) in
  let name := snd (split_name p) in
  if PyStr.truthy name
  then Ok (parent ++ fst (split_suffix name) ++ suffix)%string
  else Raise ValueError.

End PyPath.

(** What a path refers to: a workbook with its sheets in order, a file (or
    directory) that [pd.read_excel] cannot read, or a written document. *)
Inductive file (A : Type) : Type :=
  | Workbook (sheets : list (string * RawFrame A))
  | Unreadable
  | Document (doc : pyval).
Arguments Workbook {A} sheets.
Arguments Unreadable {A}.
Arguments Document {A} doc.

(** Storage: the files that exist, by path as pathlib prints it.  Other
    spellings of a path (through [..] or links) are not modelled. *)
Definition storage (A : Type) : Type := dict (file A).

(* ================================================================== *)
(** ** [process_spreadsheet] *)

Section Process.
Context {P : Pandas}.

(** [path.exists()] for a path object, given as pathlib prints it. *)
Definition exists_ (fs : storage scalar) (p : string) : bool := has_key p fs.

(** [pd.read_excel(p, sheet_name=None)] on the text [p] as the caller gave
    it: the operating system resolves it to the file at its normal
    spelling, unless the text can only name a directory. *)
Definition read_excel (fs : storage scalar) (p : string)
  : exc (list (string * RawFrame scalar)) :=
  if PyPath.names_directory p then Raise ReadError
  else
    match dict_get (PyPath.normalize p) fs with
    | Some (Workbook sheets) => Ok sheets
    | _ => Raise ReadError
    end.

(** The accumulators of the loop over the sheets. *)
Record acc : Type := mkAcc {
  sheets_metadata : dict (dict pyval);
  global_date_formats : list string;
  metrics_mapping : dict (dict string)
}.

Definition sheet_step (seed : HashSeed) (a : acc)
    (sheet : string * RawFrame scalar) : exc acc :=
  let sheet_name := fst sheet in
  let df := sanitize (snd sheet) in
  let* r := _extract_sheet_metadata seed df sheet_name in
  let sheet_info := fst r in
  let metrics_in_sheet := snd r in
  Ok (mkAcc
        (dict_set sheet_name sheet_info (sheets_metadata a))
        (pyset_update (global_date_formats a)
                      (strings_of (getattr sheet_info "date_formats")))
        (if dict_truthy metrics_in_sheet
         then dict_set sheet_name metrics_in_sheet (metrics_mapping a)
         else metrics_mapping a)).

Fixpoint sheet_loop (seed : HashSeed) (sheets : list (string * RawFrame scalar))
    (a : acc) : exc acc :=
  match sheets with
  | [] => Ok a
  | sheet :: rest =>
      let* a' := sheet_step seed a sheet in
      sheet_loop seed rest a'
  end.

Definition config_data (seed : HashSeed) (a : acc) : pyval :=
  VDict
    [ ("version", VStr "1.0");
      ("global", VDict [("date_formats",
                         str_list (set_iter seed (global_date_formats a)))]);
      ("sheets", VDict (map (fun kv => (fst kv, model_dump_set (snd kv)))
                            (sheets_metadata a)));
      ("metrics_mapping",
       VDict (map (fun kv => (fst kv, str_dict (snd kv))) (metrics_mapping a))) ].

(** Everything up to the write; no storage effect. *)
Definition build_profile (seed : HashSeed) (fs : storage scalar)
    (spreadsheet_path : string) : exc (acc * string) :=
  let path := PyPath.normalize spreadsheet_path in
  if negb (exists_ fs path) then Raise FileNotFoundError
  else
    let* sheets := read_excel fs spreadsheet_path in
    let* a := sheet_loop seed sheets (mkAcc [] [] []) in
    let* config_path := PyPath.with_suffix path ".yaml" in
    Ok (a, config_path).

(** The call: the storage after it, and the response or the exception. *)
Definition process_spreadsheet (seed : HashSeed) (fs : storage scalar)
    (spreadsheet_path : string) : storage scalar * exc (dict pyval) :=
  match build_profile seed fs spreadsheet_path with
  | Raise e => (fs, Raise e)
  | Ok (a, config_path) =>
      let fs' := dict_set config_path (Document (config_data seed a)) fs in
      (fs',
       model_init SpreadsheetProcessingResponse
         [ ("sheets_metadata",
            VDict (map (fun kv => (fst kv, VDict (snd kv))) (sheets_metadata a)));
           ("processed_data", VDict []);
           ("file_path", VStr (PyPath.normalize spreadsheet_path));
           ("config_path", VStr config_path) ])
  end.

End Process.

(* ================================================================== *)
(** ** Reading a document *)

(** [doc[k1][k2]...] on nested dictionaries. *)
Fixpoint lookup_path (keys : list string) (doc : pyval) : option pyval :=
  match keys with
  | [] => Some doc
  | k :: rest =>
      match doc with
      | VDict d =>
          match dict_get k d with
          | Some v => lookup_path rest v
          | None => None
          end
      | _ => None
      end
  end.

(** The document stored at a path, if one was written there. *)
Definition document_at {A : Type} (fs : storage A) (p : string) : option pyval :=
  match dict_get p fs with
  | Some (Document doc) => Some doc
  | _ => None
  end.

(** The profile of a sheet without columns. *)
Definition empty_profile (sheet_name : string) (rows : nat) : dict pyval :=
  [ ("name", VStr sheet_name); ("columns", VList []);
    ("row_count", VInt (Z.of_nat rows)); ("column_count", VInt 0%Z);
    ("data_types", VDict []); ("has_headers", VBool true);
    ("date_columns", VList []); ("null_counts", VDict []);
    ("date_formats", VList []) ].

(* ================================================================== *)
(** ** Outputs that differ only in the order of enumerated sets *)

(** The two lists of a sheet profile that enumerate a set. *)
Definition enumerated_fields : list string := ["date_columns"; "date_formats"].

Definition same_items (v w : pyval) : Prop :=
  match v, w with
  | VList a, VList b => Permutation a b
  | _, _ => v = w
  end.

(** Two sheet profiles have the same fields with the same values, the
    enumerated lists being compared up to order. *)
Definition profile_agree (a b : dict pyval) : Prop :=
  Forall2 (fun x y =>
             fst x = fst y
             /\ if PyStr.mem (fst x) enumerated_fields
                then same_items (snd x) (snd y)
                else snd x = snd y) a b.

Definition sheets_agree (s1 s2 : dict pyval) : Prop :=
  Forall2 (fun x y =>
             fst x = fst y
             /\ exists p1 p2,
                  snd x = VDict p1 /\ snd y = VDict p2 /\ profile_agree p1 p2) s1 s2.

Definition document_agree (d1 d2 : pyval) : Prop :=
  exists g1 g2 s1 s2 m,
    d1 = VDict [ ("version", VStr "1.0");
                 ("global", VDict [("date_formats", VList g1)]);
                 ("sheets", VDict s1); ("metrics_mapping", m) ]
    /\ d2 = VDict [ ("version", VStr "1.0");
                    ("global", VDict [("date_formats", VList g2)]);
                    ("sheets", VDict s2); ("metrics_mapping", m) ]
    /\ Permutation g1 g2
    /\ sheets_agree s1 s2.

Definition response_agree (r1 r2 : dict pyval) : Prop :=
  exists s1 s2 rest,
    r1 = ("sheets_metadata", VDict s1) :: rest
    /\ r2 = ("sheets_metadata", VDict s2) :: rest
    /\ sheets_agree s1 s2.

(** The outcome of a sheet under two seeds. *)
Definition sheet_outcomes_agree (r1 r2 : exc (dict pyval * dict string)) : Prop :=
  match r1, r2 with
  | Ok (i1, m1), Ok (i2, m2) =>
      profile_agree i1 i2 /\ m1 = m2
      /\ exists f1 f2,
           strings_of (getattr i1 "date_formats") = f1
           /\ strings_of (getattr i2 "date_formats") = f2
           /\ Permutation f1 f2
  | Raise e1, Raise e2 => e1 = e2
  | _, _ => False
  end.

(** The accumulators of two runs after the same sheets. *)
Definition acc_agree (a1 a2 : acc) : Prop :=
  Forall2 (fun x y => fst x = fst y /\ profile_agree (snd x) (snd y))
          (sheets_metadata a1) (sheets_metadata a2)
  /\ NoDup (global_date_formats a1)
  /\ NoDup (global_date_formats a2)
  /\ Permutation (global_date_formats a1) (global_date_formats a2)
  /\ metrics_mapping a1 = metrics_mapping a2.

(* ================================================================== *)
(** ** Column predicates used to describe the role lists *)

Section ColumnTests.
Context {P : Pandas}.

(** [df[col]] is a Series. *)
Definition is_series (df : DataFrame scalar) (col : string) : bool :=
  match getitem df col with
  | OneSeries _ => true
  | _ => false
  end.

(** The test of line 258 on the column labelled [col]. *)
Definition qualifies_identifier (df : DataFrame scalar) (col : string) : bool :=
  match getitem df col with
  | OneSeries s => is_identifier (index_len df) s
  | _ => false
  end.

(** The test of line 269: the non-null ratio exceeds 0.4. *)
Definition populated (df : DataFrame scalar) (col : string) : bool :=
  match getitem df col with
  | OneSeries s => float_gt (non_null_ratio s) (4 # 10)%Q
  | _ => false
  end.

(** The type name that the body of the loop of [_infer_data_types] gives
    the column labelled [col] of [df]. *)
Definition inferred_type (df : DataFrame scalar) (date_columns : list string)
    (col : string) : string :=
  if PyStr.mem col date_columns then
    match getitem df col with
    | OneSeries s =>
        match to_datetime_coerce s with
        | Some _ => "datetime"
        | None => "string"
        end
    | _ => "string"
    end
  else
    match getitem df col with
    | OneSeries s => type_name (dtype s)
    | _ => "string"
    end.

(** The description of the last row of [rows] that is written under the
    key [k]. *)
Fixpoint last_description (k : string) (rows : list (cell scalar * cell scalar))
    (found : option string) : option string :=
  match rows with
  | [] => found
  | row :: rest =>
      let identifier := PyStr.strip (str_of_cell (fst row)) in
      let description := PyStr.strip (str_of_cell (snd row)) in
      if keep_row identifier description && String.eqb identifier k
      then last_description k rest (Some description)
      else last_description k rest found
  end.

End ColumnTests.

(* ================================================================== *)
(** ** The agent's [execute] *)

(** The members of [StatusMessage] that [execute] uses. *)
Inductive Status : Type := PROCESSING | COMPLETED | ERROR.

(** The [message] of a yielded update. *)
Inductive payload : Type :=
  | Loading                   (* the text "Loading spreadsheet..." *)
  | Dump (response : pyval)   (* [result.model_dump()] *)
  | ErrorText (e : exn)       (* [str(e)] of an exception of the pipeline *)
  | PathTypeErrorText.        (* [str(e)] of the TypeError that [Path(v)]
                                 raises on a value that is not a path *)

Record update : Type := mkUpdate {
  status : Status;
  message : payload
}.

(** Truth value of a context value: [bool(v)]. *)
Definition py_truthy (v : pyval) : bool :=
  match v with
  | VStr s => PyStr.truthy s
  | VInt z => negb (Z.eqb z 0)
  | VBool b => b
  | VList l => match l with [] => false | _ => true end
  | VDict d => dict_truthy d
  end.

Section Execute.
Context {P : Pandas}.

(** The updates the generator yields, in order, and the storage after it
    is exhausted.  The [task] argument is not read by the code.  Every
    exception is caught and becomes the last update. *)
Definition execute (seed : HashSeed) (fs : storage scalar)
    (context_variables : dict pyval) (stream : bool)
  : storage scalar * list update :=
  match dict_get "spreadsheet_path" context_variables with
  | None => (fs, [mkUpdate ERROR (ErrorText ValueError)])
  | Some v =>
      if negb (py_truthy v)
      then (fs, [mkUpdate ERROR (ErrorText ValueError)])
      else
        let started := if stream then [mkUpdate PROCESSING Loading] else [] in
        match v with
        | VStr spreadsheet_path =>
            match process_spreadsheet seed fs spreadsheet_path with
            | (fs', Ok result) =>
                (fs', started ++ [mkUpdate COMPLETED (Dump (VDict result))])
            | (fs', Raise e) =>
                (fs', started ++ [mkUpdate ERROR (ErrorText e)])
            end
        | _ => (fs, started ++ [mkUpdate ERROR PathTypeErrorText])
        end
  end.

End Execute.

(* ================================================================== *)
(** ** A concrete pandas and concrete tables *)

Module Demo.

(** The texts that parse, by format; every other text raises.  Adequate
    for tables whose labels and cells are the ones used below. *)
Definition parse_table : list (string * string) :=
  [ ("%b-%y", "Jan-24"); ("%Y-%m-%d", "2024-01-31") ].

Definition toy_strptime (fmt s : string) : bool :=
  existsb (fun e => String.eqb (fst e) fmt && String.eqb (snd e) s) parse_table.

(** Coercion of a column none of whose cells reads as a date: every cell
    becomes [NaT]. *)
Definition toy_coerce (s : Series Z) : option (Series Z) :=
  Some (mkSeries datetime64 (map (fun _ => NaT) (values s))).

#[export] Instance toy : Pandas := {|
  scalar := Z;
  scalar_eq_dec := Z.eq_dec;
  py_str := fun z => NilZero.string_of_int (Z.to_int z);
  strptime_ok := toy_strptime;
  to_datetime_coerce := toy_coerce
|}.

(** Two hash seeds: one enumerates a set in insertion order, the other in
    the reverse order. *)
Definition seed_a : HashSeed :=
  mkSeed (fun l => l) (fun l _ => Permutation_refl l).

Definition seed_b : HashSeed :=
  mkSeed (@List.rev string) (fun l _ => Permutation_sym (Permutation_rev l)).

Definition texts (l : list string) : Series Z := mkSeries object_ (map Text l).

(** The two-column sheet of the specification's scenario. *)
Definition codes_raw : RawFrame Z :=
  mkRaw 2 [ (Text "Code", texts ["R001"; "R002"]);
            (Text " Label ", texts ["Revenue"; "Cost"]);
            (Text "Unnamed: 2", mkSeries float64 [NaN; NaN]) ].

Definition codes_df : DataFrame Z := sanitize codes_raw.

(** A sheet with two columns that are date-like by their names. *)
Definition dates_raw : RawFrame Z :=
  mkRaw 1 [ (Text "date", texts ["tbd"]); (Text "year", texts ["tbd"]) ].

Definition dates_df : DataFrame Z := sanitize dates_raw.

(** A sheet whose label parses under a format and whose cells do too. *)
Definition jan_df : DataFrame Z :=
  mkDF 2 [ ("Jan-24", texts ["2024-01-31"; "2024-01-31"]) ].

(** A sheet with a repeating text column, a dense numeric column and a
    sparse numeric column. *)
Definition grades_raw : RawFrame Z :=
  mkRaw 4 [ (Text "grade", mkSeries object_ [Text "a"; Text "a"; NaN; Text "b"]);
            (Text "score", mkSeries int64 [Val 1%Z; Val 2%Z; Val 3%Z; Val 4%Z]);
            (Text "bonus", mkSeries float64 [NaN; NaN; NaN; Val 7%Z]) ].

Definition grades_df : DataFrame Z := sanitize grades_raw.

Definition book_path : string := "data/book.xlsx".

Definition book_fs : storage Z :=
  [ (book_path, Workbook [ ("Codes", codes_raw) ]) ].

Definition dates_fs : storage Z :=
  [ (book_path, Workbook [ ("Dates", dates_raw) ]) ].

Definition grades_fs : storage Z :=
  [ (book_path, Workbook [ ("Grades", grades_raw) ]) ].

Definition broken_fs : storage Z :=
  [ (book_path, Unreadable) ].



(** Two sheets whose second label reads as a date, each under another
    format; no cell does. *)
Definition q1_raw : RawFrame Z :=
  mkRaw 1 [ (Text "Item", texts ["rent"]); (Text "Jan-24", texts ["tbd"]) ].

Definition daily_raw : RawFrame Z :=
  mkRaw 1 [ (Text "Item", texts ["rent"]); (Text "2024-01-31", texts ["tbd"]) ].

Definition dated_fs : storage Z :=
  [ (book_path, Workbook [ ("Q1", q1_raw); ("Daily", daily_raw) ]) ].

(** The no-break space U+00A0. *)
Definition nbsp : string := String "194"%char (String "160"%char "").

(** A sheet whose labels and codes carry no-break spaces. *)
Definition padded_raw : RawFrame Z :=
  mkRaw 2 [ (Text (nbsp ++ "Code"), texts [(nbsp ++ "R001")%string; "R002"]);
            (Text ("Label" ++ nbsp), texts ["Revenue"; ("Cost " ++ nbsp)%string]);
            (Text (nbsp ++ "Unnamed: 2"), mkSeries float64 [NaN; NaN]) ].

(** A sheet with a missing code, a code that spells nan in capitals, and
    a column of missing timestamps. *)
Definition gaps_df : DataFrame Z :=
  mkDF 4 [ ("Code", mkSeries object_ [Text "R001"; NaN; Text " NAN "; Text "R004"]);
           ("Due", mkSeries datetime64 [NaT; NaT; NaT; NaT]) ].

(** Two labels that differ by a trailing no-break space only. *)
Definition twin_raw : RawFrame Z :=
  mkRaw 1 [ (Text "a", texts ["x"]); (Text ("a" ++ nbsp), texts ["y"]) ].

Definition twin_fs : storage Z :=
  [ (book_path, Workbook [ ("Twins", twin_raw) ]) ].

(** A sheet with a header row and no data row. *)
Definition headers_only_df : DataFrame Z :=
  mkDF 0 [ ("Code", mkSeries object_ []); ("Amount", mkSeries float64 []) ].

(** A sheet with an empty column. *)
Definition blank_column_df : DataFrame Z :=
  mkDF 2 [ ("Code", texts ["R001"; "R002"]);
           ("Spare", mkSeries float64 [NaN; NaN]) ].

End Demo.

(* ================================================================== *)
(** * Properties *)

Ltac inv H := inversion H; subst; clear H.

Section RoleFacts.
Context {P : Pandas}.

Lemma mem_true_iff (x : string) (l : list string) :
  PyStr.mem x l = true <-> In x l.
Proof.
  unfold PyStr.mem. destruct (in_dec string_dec x l); split; intros; auto; discriminate.
Qed.

Lemma mem_false_iff (x : string) (l : list string) :
  PyStr.mem x l = false <-> ~ In x l.
Proof.
  unfold PyStr.mem. destruct (in_dec string_dec x l); split; intros; auto;
    try discriminate; contradiction.
Qed.

Lemma unique_from_In (l seen : list (cell scalar)) (x : cell scalar) :
  In x (unique_from seen l) <-> In x l /\ ~ In x seen.
Proof.
  revert seen. induction l as [|y t IH]; intros seen; simpl.
  - tauto.
  - destruct (in_dec cell_eq_dec y seen) as [Hy|Hy].
    + rewrite IH. split.
      * intros [H1 H2]. auto.
      * intros [[->|H1] H2]; [contradiction|auto].
    + simpl. rewrite IH. simpl. split.
      * intros [->|[H1 H2]]; [auto|]. split; auto.
      * intros [[->|H1] H2]; [auto|].
        destruct (cell_eq_dec y x) as [->|Hne]; [auto|].
        right. split; auto. intros [H|H]; auto.
Qed.

Lemma unique_from_NoDup (l seen : list (cell scalar)) :
  NoDup (unique_from seen l).
Proof.
  revert seen. induction l as [|y t IH]; intros seen; simpl.
  - constructor.
  - destruct (in_dec cell_eq_dec y seen); [apply IH|].
    constructor; [|apply IH].
    rewrite unique_from_In. simpl. tauto.
Qed.

(** [unique] lists every value once. *)
Lemma unique_spec (l : list (cell scalar)) :
  NoDup (unique l) /\ forall x, In x (unique l) <-> In x l.
Proof.
  split; [apply unique_from_NoDup|].
  intros x. unfold unique. rewrite unique_from_In. simpl. tauto.
Qed.

Lemma float_gt_true (x : option Q) (c : Q) :
  float_gt x c = true -> exists q, x = Some q /\ (c < q)%Q.
Proof.
  destruct x as [q|]; simpl; [|discriminate].
  intros H. exists q. split; [reflexivity|].
  apply negb_true_iff in H.
  destruct (Qlt_le_dec c q) as [Hlt|Hle]; [assumption|].
  apply Qle_bool_iff in Hle. congruence.
Qed.

Lemma float_lt_true (q c : Q) :
  float_lt (Some q) c = true -> (q < c)%Q.
Proof.
  simpl. intros H. apply negb_true_iff in H.
  destruct (Qlt_le_dec q c) as [Hlt|Hle]; [assumption|].
  apply Qle_bool_iff in Hle. congruence.
Qed.

Lemma mean_some (mask : list bool) (q : Q) :
  mean mask = Some q ->
  q = (Z.of_nat (count_true mask) # Pos.of_nat (List.length mask))%Q.
Proof.
  destruct mask; simpl; intros H; [discriminate|]. now inv H.
Qed.

Lemma identifier_loop_sound (df : DataFrame scalar) (n : nat)
    (todo acc0 ids : list string) :
  identifier_loop df n todo acc0 = Ok ids ->
  forall col, In col ids ->
    In col acc0 \/
    (In col todo /\ exists s, getitem df col = OneSeries s /\ is_identifier n s = true).
Proof.
  revert acc0. induction todo as [|c rest IH]; intros acc0 H col Hin; simpl in H.
  - inv H. auto.
  - destruct (getitem df c) as [s| |] eqn:Hsel; try discriminate.
    destruct (is_identifier n s) eqn:Hid.
    + destruct (IH _ H col Hin) as [Hacc|[Hr Hs]].
      * apply in_app_or in Hacc. destruct Hacc as [Hacc|[->|[]]]; [auto|].
        right. split; [left; reflexivity|]. exists s. auto.
      * right. split; [right; assumption|assumption].
    + destruct (IH _ H col Hin) as [Hacc|[Hr Hs]]; [auto|].
      right. split; [right; assumption|assumption].
Qed.

Lemma description_loop_sound (df : DataFrame scalar)
    (exclude todo acc0 descs : list string) :
  description_loop df exclude todo acc0 = Ok descs ->
  forall col, In col descs ->
    In col acc0 \/
    (In col todo /\ ~ In col exclude /\
     exists s, getitem df col = OneSeries s /\
               float_gt (non_null_ratio s) (4 # 10)%Q = true).
Proof.
  revert acc0. induction todo as [|c rest IH]; intros acc0 H col Hin; simpl in H.
  - inv H. auto.
  - destruct (PyStr.mem c exclude) eqn:Hmem.
    + destruct (IH _ H col Hin) as [Hacc|[Hr Hs]]; [auto|].
      right. split; [right; assumption|assumption].
    + apply mem_false_iff in Hmem.
      destruct (getitem df c) as [s| |] eqn:Hsel; try discriminate.
      destruct (float_gt (non_null_ratio s) (4 # 10)%Q) eqn:Hgt.
      * destruct (IH _ H col Hin) as [Hacc|[Hr Hs]].
        -- apply in_app_or in Hacc. destruct Hacc as [Hacc|[->|[]]]; [auto|].
           right. split; [left; reflexivity|]. split; [assumption|]. exists s. auto.
        -- right. split; [right; assumption|assumption].
      * destruct (IH _ H col Hin) as [Hacc|[Hr Hs]]; [auto|].
        right. split; [right; assumption|assumption].
Qed.

Lemma metric_loop_sound (df : DataFrame scalar)
    (exclude todo acc0 mets : list string) :
  metric_loop df exclude todo acc0 = Ok mets ->
  forall col, In col mets ->
    In col acc0 \/
    (In col todo /\ ~ In col exclude /\ is_numeric_dtype (getitem df col) = true).
Proof.
  revert acc0. induction todo as [|c rest IH]; intros acc0 H col Hin; simpl in H.
  - inv H. auto.
  - destruct (PyStr.mem c exclude) eqn:Hmem.
    + destruct (IH _ H col Hin) as [Hacc|[Hr Hs]]; [auto|].
      right. split; [right; assumption|assumption].
    + apply mem_false_iff in Hmem.
      assert (Hstep : metric_loop df exclude rest
                        (if is_numeric_dtype (getitem df c) then acc0 ++ [c] else acc0)
                      = Ok mets).
      { destruct (getitem df c) as [s|l|]; try discriminate; simpl in *;
          [destruct (dtype s)|]; exact H. }
      destruct (is_numeric_dtype (getitem df c)) eqn:Hnum.
      * destruct (IH _ Hstep col Hin) as [Hacc|[Hr Hs]].
        -- apply in_app_or in Hacc. destruct Hacc as [Hacc|[->|[]]]; [auto|].
           right. split; [left; reflexivity|]. split; assumption.
        -- right. split; [right; assumption|assumption].
      * destruct (IH _ Hstep col Hin) as [Hacc|[Hr Hs]]; [auto|].
        right. split; [right; assumption|assumption].
Qed.

End RoleFacts.

Section RoleClaims.
Context {P : Pandas}.

(** C1.  Every column that [_identify_identifier_columns] returns is a
    single column of the table whose non-null ratio (the fraction of its
    rows holding a present value) is strictly above 0.4 and whose
    uniqueness ratio (the number of distinct non-null values over the
    row count of the table, 0 for a table without rows) is strictly
    below 0.9.  Nothing is asked of the column's dtype. *)
Theorem identifier_columns_ratios
    (df : DataFrame scalar) (ids : list string) (col : string) :
  _identify_identifier_columns df = Ok ids ->
  In col ids ->
  exists (s : Series scalar) (present : Q) (distinct : list (cell scalar)),
    getitem df col = OneSeries s
    /\ non_null_ratio s = Some present
    /\ present = (Z.of_nat (count_true (map notnull (values s)))
                  # Pos.of_nat (List.length (values s)))%Q
    /\ (4 # 10 < present)%Q
    /\ NoDup distinct
    /\ (forall x, In x distinct <-> In x (values s) /\ isnull x = false)
    /\ (uniqueness_ratio (List.length distinct) (index_len df) < 9 # 10)%Q
    /\ (0 < index_len df ->
        uniqueness_ratio (List.length distinct) (index_len df)
        = (Z.of_nat (List.length distinct) # Pos.of_nat (index_len df))%Q)
    /\ (index_len df = 0 ->
        uniqueness_ratio (List.length distinct) (index_len df) = 0%Q).
Proof.
  intros Hrun Hin.
  destruct (identifier_loop_sound _ _ _ _ _ Hrun col Hin) as [[]|[_ [s [Hsel Hid]]]].
  unfold is_identifier in Hid. apply andb_true_iff in Hid. destruct Hid as [Hgt Hlt].
  apply float_gt_true in Hgt. destruct Hgt as [present [Hmean Hpresent]].
  apply float_lt_true in Hlt.
  exists s, present, (unique (dropna (values s))).
  destruct (unique_spec (dropna (values s))) as [Hnd Hmem].
  split; [assumption|]. split; [assumption|].
  split.
  { unfold non_null_ratio in Hmean. apply mean_some in Hmean.
    rewrite length_map in Hmean. exact Hmean. }
  split; [assumption|]. split; [assumption|].
  split.
  { intros x. rewrite Hmem. unfold dropna. rewrite filter_In. unfold notnull.
    rewrite negb_true_iff. tauto. }
  split; [assumption|].
  split.
  - intros Hpos. unfold uniqueness_ratio.
    destruct (0 <? index_len df) eqn:Hlt0; [reflexivity|].
    apply Nat.ltb_ge in Hlt0. lia.
  - intros Hzero. unfold uniqueness_ratio. rewrite Hzero. reflexivity.
Qed.

(** C3.  The three role lists computed for a table are pairwise disjoint:
    a description column is never an identifier column, and a metric
    column is never an identifier column, a description column or a date
    column. *)
Theorem role_columns_disjoint
    (df : DataFrame scalar) (date_columns ids descs mets : list string) :
  role_columns df date_columns = Ok (ids, descs, mets) ->
  (forall c, In c descs -> In c (columns df) /\ ~ In c ids)
  /\ (forall c, In c mets ->
        In c (columns df)
        /\ ~ In c ids /\ ~ In c descs /\ ~ In c date_columns)
  /\ (forall c, ~ (In c ids /\ In c descs))
  /\ (forall c, ~ (In c ids /\ In c mets))
  /\ (forall c, ~ (In c descs /\ In c mets)).
Proof.
  unfold role_columns. intros H.
  destruct (_identify_identifier_columns df) as [ids'|] eqn:Hi; [|discriminate].
  simpl in H.
  destruct (_identify_description_columns df ids') as [descs'|] eqn:Hd; [|discriminate].
  simpl in H.
  destruct (_identify_metric_columns df (ids' ++ descs' ++ date_columns))
    as [mets'|] eqn:Hm; [|discriminate].
  simpl in H. inv H.
  assert (Hdesc : forall c, In c descs -> In c (columns df) /\ ~ In c ids).
  { intros c Hc.
    destruct (description_loop_sound _ _ _ _ _ Hd c Hc) as [[]|[Hcol [Hex _]]]. auto. }
  assert (Hmet : forall c, In c mets ->
            In c (columns df) /\ ~ In c ids /\ ~ In c descs /\ ~ In c date_columns).
  { intros c Hc.
    destruct (metric_loop_sound _ _ _ _ _ Hm c Hc) as [[]|[Hcol [Hex _]]].
    split; [assumption|].
    repeat split; intros Hbad; apply Hex; rewrite !in_app_iff; auto. }
  split; [exact Hdesc|]. split; [exact Hmet|].
  repeat split; intros c [H1 H2].
  - apply Hdesc in H2. tauto.
  - apply Hmet in H2. tauto.
  - apply Hmet in H2. tauto.
Qed.

End RoleClaims.

Import Demo.

Lemma identifier_columns_ratios_witness :
  exists (s : Series Z) (present : Q) (distinct : list (cell Z)),
    getitem Demo.grades_df "grade" = OneSeries s
    /\ non_null_ratio s = Some present
    /\ present = (Z.of_nat (count_true (map notnull (values s)))
                  # Pos.of_nat (List.length (values s)))%Q
    /\ (4 # 10 < present)%Q
    /\ NoDup distinct
    /\ (forall x, In x distinct <-> In x (values s) /\ isnull x = false)
    /\ (uniqueness_ratio (List.length distinct) (index_len Demo.grades_df) < 9 # 10)%Q
    /\ (0 < index_len Demo.grades_df ->
        uniqueness_ratio (List.length distinct) (index_len Demo.grades_df)
        = (Z.of_nat (List.length distinct) # Pos.of_nat (index_len Demo.grades_df))%Q)
    /\ (index_len Demo.grades_df = 0 ->
        uniqueness_ratio (List.length distinct) (index_len Demo.grades_df) = 0%Q).
Proof.
  apply (identifier_columns_ratios (P := Demo.toy) Demo.grades_df ["grade"] "grade").
  - reflexivity.
  - simpl. auto.
Defined.

Lemma role_columns_disjoint_witness :
  role_columns Demo.grades_df [] = Ok (["grade"], ["score"], ["bonus"])
  /\ (forall c, ~ (In c ["grade"] /\ In c ["score"]))
  /\ (forall c, ~ (In c ["grade"] /\ In c ["bonus"]))
  /\ (forall c, ~ (In c ["score"] /\ In c ["bonus"])).
Proof.
  split; [reflexivity|].
  apply (role_columns_disjoint (P := Demo.toy) Demo.grades_df []
           ["grade"] ["score"] ["bonus"]).
  reflexivity.
Defined.

Section MetricClaims.
Context {P : Pandas}.

Lemma columns_to_try_spec (df : DataFrame scalar) (ids descs : list string) :
  columns_to_try df ids descs = spec_candidates df ids descs.
Proof.
  unfold columns_to_try, spec_candidates.
  assert (Hprod : flat_map (fun id_col => map (fun desc_col => (id_col, desc_col)) descs) ids
                  = list_prod ids descs).
  { induction ids as [|i t IH]; simpl; [reflexivity|]. now rewrite IH. }
  rewrite Hprod.
  destruct (columns df) as [|c0 [|c1 t]]; reflexivity.
Qed.

Lemma dict_truthy_false {V : Type} (d : dict V) : dict_truthy d = false -> d = [].
Proof. destruct d; [reflexivity|discriminate]. Qed.

Lemma try_pairs_first_match (df : DataFrame scalar) (todo : list (string * string)) :
  try_pairs df todo [] = first_match df todo.
Proof.
  induction todo as [|[id_col desc_col] rest IH]; simpl; [reflexivity|].
  unfold pair_mapping. simpl.
  destruct (pair_series df id_col desc_col) as [[i d]|e]; simpl; [|reflexivity].
  destruct (count_true (combined_non_null i d) =? 0); simpl; [exact IH|].
  destruct (dict_truthy (add_rows (masked_rows i d) [])) eqn:Ht; [reflexivity|].
  apply dict_truthy_false in Ht. rewrite Ht. exact IH.
Qed.

Lemma first_match_greedy (df : DataFrame scalar)
    (before after : list (string * string)) (cand : string * string)
    (m : dict string) :
  Forall (fun c => pair_mapping df c = Ok []) before ->
  pair_mapping df cand = Ok m ->
  m <> [] ->
  first_match df (before ++ cand :: after) = Ok m.
Proof.
  intros Hb Hc Hm. induction Hb as [|c l Hc0 _ IH]; simpl.
  - rewrite Hc. simpl. destruct m; [contradiction|reflexivity].
  - rewrite Hc0. simpl. exact IH.
Qed.

Lemma first_match_none (df : DataFrame scalar) (todo : list (string * string)) :
  Forall (fun c => pair_mapping df c = Ok []) todo ->
  first_match df todo = Ok [].
Proof.
  intros H. induction H as [|c l Hc _ IH]; simpl; [reflexivity|].
  rewrite Hc. simpl. exact IH.
Qed.

(** C2.  [_extract_metrics] returns what the greedy first-match reading
    returns on the candidates in the specification's order (the first two
    columns by position when there are two, then identifier columns by
    description columns); the mapping of the first candidate that yields
    a non-empty one is the result whatever candidates follow it; and the
    result is empty when every candidate yields nothing. *)
Theorem extract_metrics_first_match
    (df : DataFrame scalar) (ids descs : list string) :
  _extract_metrics df ids descs = first_match df (spec_candidates df ids descs)
  /\ (forall before cand after m,
        spec_candidates df ids descs = before ++ cand :: after ->
        Forall (fun c => pair_mapping df c = Ok []) before ->
        pair_mapping df cand = Ok m ->
        m <> [] ->
        _extract_metrics df ids descs = Ok m)
  /\ (Forall (fun c => pair_mapping df c = Ok []) (spec_candidates df ids descs) ->
      _extract_metrics df ids descs = Ok []).
Proof.
  assert (Heq : _extract_metrics df ids descs
                = first_match df (spec_candidates df ids descs)).
  { unfold _extract_metrics. rewrite try_pairs_first_match.
    now rewrite columns_to_try_spec. }
  split; [exact Heq|]. split.
  - intros before cand after m Hsplit Hb Hc Hm.
    rewrite Heq, Hsplit. now apply first_match_greedy.
  - intros Hall. rewrite Heq. now apply first_match_none.
Qed.

Lemma getitem_one_In (df : DataFrame scalar) (col : string) (s : Series scalar) :
  getitem df col = OneSeries s -> In (col, s) (cols df).
Proof.
  unfold getitem. intros H.
  destruct (filter (fun c => String.eqb (fst c) col) (cols df)) as [|[l x] [|y t]] eqn:Hf;
    try discriminate.
  simpl in H. inv H.
  assert (Hin : In (l, s) (filter (fun c => String.eqb (fst c) col) (cols df)))
    by (rewrite Hf; left; reflexivity).
  apply filter_In in Hin. destruct Hin as [Hin Heq]. simpl in Heq.
  apply String.eqb_eq in Heq. now subst.
Qed.

Lemma wf_length (df : DataFrame scalar) (col : string) (s : Series scalar) :
  wf_df df -> getitem df col = OneSeries s ->
  List.length (values s) = index_len df.
Proof.
  intros Hwf Hsel. apply getitem_one_In in Hsel.
  unfold wf_df in Hwf. rewrite Forall_forall in Hwf. exact (Hwf _ Hsel).
Qed.

Lemma notnull_astype (s : Series scalar) :
  map notnull (values (astype_str s)) = repeat true (List.length (values s)).
Proof.
  unfold astype_str. simpl. induction (values s) as [|c t IH]; simpl; [reflexivity|].
  now rewrite IH.
Qed.

Lemma mask_and_true (n : nat) : mask_and (repeat true n) (repeat true n) = repeat true n.
Proof. induction n; simpl; [reflexivity|now rewrite IHn]. Qed.

Lemma count_true_repeat (n : nat) : count_true (repeat true n) = n.
Proof. unfold count_true. induction n; simpl; [reflexivity|now rewrite IHn]. Qed.

Lemma select_all {A : Type} (l : list A) : select l (repeat true (List.length l)) = l.
Proof. induction l; simpl; [reflexivity|now rewrite IHl]. Qed.

End MetricClaims.

Lemma extract_metrics_first_match_witness :
  _extract_metrics codes_df ["Code"] ["Label"]
  = Ok [("R001", "Revenue"); ("R002", "Cost")].
Proof.
  apply (proj1 (proj2 (extract_metrics_first_match (P := toy) codes_df ["Code"] ["Label"]))
           [] ("Code", "Label") [("Code", "Label")]).
  - reflexivity.
  - constructor.
  - reflexivity.
  - discriminate.
Defined.

(* ------------------------------------------------------------------ *)
(** ** Sets *)

Lemma pyset_add_In (x y : string) (s : list string) :
  In y (pyset_add x s) <-> y = x \/ In y s.
Proof.
  unfold pyset_add. destruct (PyStr.mem x s) eqn:Hm.
  - apply mem_true_iff in Hm. split; [auto|]. intros [->|H]; assumption.
  - rewrite in_app_iff. simpl. split.
    + intros [H|[<-|[]]]; auto.
    + intros [->|H]; auto.
Qed.

Lemma pyset_add_NoDup (x : string) (s : list string) :
  NoDup s -> NoDup (pyset_add x s).
Proof.
  intros Hs. unfold pyset_add. destruct (PyStr.mem x s) eqn:Hm; [assumption|].
  apply mem_false_iff in Hm.
  apply NoDup_rev in Hs. rewrite <- (rev_involutive (s ++ [x])).
  apply NoDup_rev. rewrite rev_app_distr. simpl. constructor; [|assumption].
  now rewrite <- in_rev.
Qed.

Lemma pyset_update_In (l s : list string) (y : string) :
  In y (pyset_update s l) <-> In y s \/ In y l.
Proof.
  unfold pyset_update. revert s. induction l as [|x t IH]; intros s; simpl.
  - tauto.
  - rewrite IH, pyset_add_In. intuition (subst; auto).
Qed.

Lemma pyset_update_NoDup (l s : list string) :
  NoDup s -> NoDup (pyset_update s l).
Proof.
  unfold pyset_update. revert s. induction l as [|x t IH]; intros s Hs; simpl.
  - assumption.
  - apply IH. now apply pyset_add_NoDup.
Qed.

Lemma pyset_of_list_NoDup (l : list string) : NoDup (pyset_of_list l).
Proof. apply pyset_update_NoDup. constructor. Qed.

Lemma pyset_of_list_In (l : list string) (y : string) :
  In y (pyset_of_list l) <-> In y l.
Proof. unfold pyset_of_list. rewrite pyset_update_In. simpl. tauto. Qed.

Lemma set_iter_In (seed : HashSeed) (s : list string) (y : string) :
  NoDup s -> (In y (set_iter seed s) <-> In y s).
Proof.
  intros Hs. pose proof (set_iter_perm seed s Hs) as Hp. split; intros H.
  - eapply Permutation_in; eassumption.
  - eapply Permutation_in; [apply Permutation_sym|]; eassumption.
Qed.

Lemma set_iter_NoDup (seed : HashSeed) (s : list string) :
  NoDup s -> NoDup (set_iter seed s).
Proof.
  intros Hs. eapply Permutation_NoDup; [|exact Hs].
  apply Permutation_sym. now apply set_iter_perm.
Qed.

Section DateClaims.
Context {P : Pandas}.

Lemma getitem_not_missing (df : DataFrame scalar) (col : string) :
  In col (columns df) -> getitem df col <> Missing.
Proof.
  unfold columns, getitem. intros Hin. apply in_map_iff in Hin.
  destruct Hin as [[l s] [Hl Hin]]. simpl in Hl. subst l.
  assert (Hf : In (col, s) (filter (fun c => String.eqb (fst c) col) (cols df))).
  { apply filter_In. split; [assumption|]. simpl. apply String.eqb_refl. }
  destruct (filter (fun c => String.eqb (fst c) col) (cols df)) as [|a [|b t]];
    [destruct Hf | discriminate | discriminate].
Qed.

Lemma record_match_marks (col : string) (m : option string)
    (st : list string * list string) (c : string) :
  In c (fst st) -> In c (fst (record_match col m st)).
Proof.
  destruct m; simpl; [|auto]. intros H. apply in_or_app. auto.
Qed.

Lemma record_match_formats (col : string) (m : option string)
    (st : list string * list string) :
  NoDup (snd st) -> NoDup (snd (record_match col m st)).
Proof.
  destruct m; simpl; [|auto]. apply pyset_add_NoDup.
Qed.

(** One iteration keeps the marks made so far, keeps the format set free
    of duplicates, and marks a column named date, year or month. *)
Lemma date_step_facts (df : DataFrame scalar) (col : string)
    (st st' : list string * list string) :
  date_step df col st = Ok st' ->
  (forall c, In c (fst st) -> In c (fst st'))
  /\ (NoDup (snd st) -> NoDup (snd st'))
  /\ (PyStr.mem (PyStr.lower col) ["date"; "year"; "month"] = true -> In col (fst st')).
Proof.
  unfold date_step. intros H.
  destruct (PyStr.mem (PyStr.lower col) ["date"; "year"; "month"]) eqn:Hname.
  - inv H. simpl. repeat split.
    + intros c Hc. apply in_or_app. left. now apply record_match_marks.
    + apply record_match_formats.
    + intros _. apply in_or_app. right. left. reflexivity.
  - destruct (getitem df col) as [s|l|]; [| |discriminate]; inv H; repeat split;
      try discriminate.
    + intros c Hc. now do 2 apply record_match_marks.
    + intros Hnd. now do 2 apply record_match_formats.
    + intros c Hc. now apply record_match_marks.
    + apply record_match_formats.
Qed.

Lemma date_loop_facts (df : DataFrame scalar) (todo : list string)
    (st : list string * list string) :
  (forall c, In c todo -> In c (columns df)) ->
  exists st',
    date_loop df todo st = Ok st'
    /\ (forall c, In c (fst st) -> In c (fst st'))
    /\ (NoDup (snd st) -> NoDup (snd st'))
    /\ (forall c, In c todo ->
          PyStr.mem (PyStr.lower c) ["date"; "year"; "month"] = true ->
          In c (fst st')).
Proof.
  revert st. induction todo as [|col rest IH]; intros st Hsub; simpl.
  - exists st. repeat split; auto. intros c [].
  - assert (Hstep : exists st1, date_step df col st = Ok st1).
    { unfold date_step.
      destruct (PyStr.mem (PyStr.lower col) ["date"; "year"; "month"]); [eauto|].
      pose proof (getitem_not_missing df col (Hsub col (or_introl eq_refl))) as Hnm.
      destruct (getitem df col); [eauto|eauto|contradiction]. }
    destruct Hstep as [st1 Hst1]. rewrite Hst1. simpl.
    destruct (date_step_facts _ _ _ _ Hst1) as [Hkeep [Hnd Hname]].
    destruct (IH st1 (fun c Hc => Hsub c (or_intror Hc))) as [st' [Hrun [Hkeep' [Hnd' Hname']]]].
    exists st'. repeat split; auto.
    intros c [->|Hc] Hm; [apply Hkeep', Hname, Hm|now apply Hname'].
Qed.

(** C8.  Date detection returns, for every table, a list of date columns
    without repetition: it holds exactly the columns that some detection
    path marked, each once, however many paths marked them.  In particular
    a column of the table named date, year or month (in any letter case)
    occurs exactly once. *)
Theorem date_columns_listed_once (seed : HashSeed) (df : DataFrame scalar) :
  exists (marks formats date_columns date_formats : list string),
    date_loop df (columns df) ([], []) = Ok (marks, formats)
    /\ _detect_date_columns seed df = Ok (date_columns, date_formats)
    /\ NoDup date_columns
    /\ (forall c, In c date_columns <-> In c marks)
    /\ (forall c, In c marks -> count_occ string_dec date_columns c = 1)
    /\ (forall c, In c (columns df) ->
          PyStr.mem (PyStr.lower c) ["date"; "year"; "month"] = true ->
          count_occ string_dec date_columns c = 1).
Proof.
  destruct (date_loop_facts df (columns df) ([], []) (fun c H => H))
    as [[marks formats] [Hrun [_ [_ Hname]]]].
  simpl in Hname.
  exists marks, formats, (set_iter seed (pyset_of_list marks)), (set_iter seed formats).
  assert (Hmarks : forall c, In c (set_iter seed (pyset_of_list marks)) <-> In c marks).
  { intros c. rewrite set_iter_In by apply pyset_of_list_NoDup.
    apply pyset_of_list_In. }
  assert (Hnd_cols : NoDup (set_iter seed (pyset_of_list marks)))
    by (apply set_iter_NoDup, pyset_of_list_NoDup).
  assert (Honce : forall c, In c marks ->
            count_occ string_dec (set_iter seed (pyset_of_list marks)) c = 1).
  { intros c Hc. apply NoDup_count_occ'; [assumption|]. now apply Hmarks. }
  split; [exact Hrun|].
  split; [unfold _detect_date_columns; rewrite Hrun; reflexivity|].
  split; [assumption|].
  split; [assumption|].
  split; [assumption|].
  intros c Hc Hm. apply Honce. now apply Hname.
Qed.

End DateClaims.

(** A column marked by its label and again by its cells is listed once. *)
Example jan_marked_twice_listed_once :
  date_loop jan_df (columns jan_df) ([], [])
  = Ok (["Jan-24"; "Jan-24"], ["%b-%y"; "%Y-%m-%d"])
  /\ _detect_date_columns seed_a jan_df = Ok (["Jan-24"], ["%b-%y"; "%Y-%m-%d"]).
Proof. split; reflexivity. Qed.

(* ------------------------------------------------------------------ *)
(** ** Trimming *)

Lemma strip_with_facts (t2 : ascii -> ascii -> bool)
    (t3 : ascii -> ascii -> ascii -> bool) (n : nat) :
  forall l, List.length l <= n ->
    PyStr.starts_with_space t2 t3 (PyStr.strip_with t2 t3 l) = false
    /\ exists pre, l = pre ++ PyStr.strip_with t2 t3 l.
Proof.
  induction n as [|n IH]; intros l Hlen.
  - destruct l; [|simpl in Hlen; lia]. simpl. split; [reflexivity|]. now exists [].
  - destruct l as [|a t]; [simpl; split; [reflexivity|now exists []]|].
    simpl in Hlen. simpl PyStr.strip_with.
    destruct (PyStr.is_space a) eqn:Ha.
    { destruct (IH t) as [H1 [pre H2]]; [lia|].
      split; [exact H1|]. exists (a :: pre). simpl. now rewrite <- H2. }
    destruct t as [|b u].
    { split; [simpl; now rewrite Ha|now exists []]. }
    simpl in Hlen. destruct (t2 a b) eqn:Hab.
    { destruct (IH u) as [H1 [pre H2]]; [lia|].
      split; [exact H1|]. exists (a :: b :: pre). simpl. now rewrite <- H2. }
    destruct u as [|c v].
    { split; [simpl; now rewrite Ha, Hab|now exists []]. }
    simpl in Hlen. destruct (t3 a b c) eqn:Habc.
    { destruct (IH v) as [H1 [pre H2]]; [lia|].
      split; [exact H1|]. exists (a :: b :: c :: pre). simpl. now rewrite <- H2. }
    split; [simpl; now rewrite Ha, Hab, Habc|now exists []].
Qed.

Lemma strip_with_clear (t2 : ascii -> ascii -> bool)
    (t3 : ascii -> ascii -> ascii -> bool) (l : list ascii) :
  PyStr.starts_with_space t2 t3 (PyStr.strip_with t2 t3 l) = false.
Proof. apply (strip_with_facts t2 t3 (List.length l) l). lia. Qed.

Lemma strip_with_suffix (t2 : ascii -> ascii -> bool)
    (t3 : ascii -> ascii -> ascii -> bool) (l : list ascii) :
  exists pre, l = pre ++ PyStr.strip_with t2 t3 l.
Proof. apply (strip_with_facts t2 t3 (List.length l) l). lia. Qed.

(** A text that begins with a whitespace character still does when more
    text follows. *)
Lemma starts_with_space_app (t2 : ascii -> ascii -> bool)
    (t3 : ascii -> ascii -> ascii -> bool) (r post : list ascii) :
  PyStr.starts_with_space t2 t3 r = true ->
  PyStr.starts_with_space t2 t3 (r ++ post) = true.
Proof.
  destruct r as [|a [|b [|c v]]]; simpl; try discriminate.
  - rewrite orb_false_r. intros Ha. now rewrite Ha.
  - rewrite orb_false_r. intros H. apply orb_true_iff in H.
    destruct H as [Ha|Hab]; [now rewrite Ha|].
    rewrite Hab. simpl. apply orb_true_r.
  - auto.
Qed.

(** Trimming on the right removes a suffix: what is left is a prefix. *)
Lemma rstrip_chars_prefix (l : list ascii) :
  exists post, l = PyStr.rstrip_chars l ++ post.
Proof.
  unfold PyStr.rstrip_chars.
  destruct (strip_with_suffix PyStr.space2_rev PyStr.space3_rev (List.rev l))
    as [pre Heq].
  exists (List.rev pre). rewrite <- rev_app_distr, <- Heq. now rewrite rev_involutive.
Qed.

Lemma strip_trimmed (s : string) : PyStr.trimmed (PyStr.strip s).
Proof.
  unfold PyStr.trimmed, PyStr.strip. rewrite list_ascii_of_string_of_list_ascii.
  set (m := PyStr.lstrip_chars (list_ascii_of_string s)).
  split.
  - destruct (PyStr.starts_with_space PyStr.space2 PyStr.space3 (PyStr.rstrip_chars m))
      eqn:Hs; [|reflexivity].
    destruct (rstrip_chars_prefix m) as [post Heq].
    apply (starts_with_space_app _ _ _ post) in Hs. rewrite <- Heq in Hs.
    unfold m, PyStr.lstrip_chars in Hs. now rewrite strip_with_clear in Hs.
  - unfold PyStr.rstrip_chars. rewrite rev_involutive. apply strip_with_clear.
Qed.

Lemma set_iter_nil (seed : HashSeed) : set_iter seed [] = [].
Proof.
  apply Permutation_nil, Permutation_sym, set_iter_perm. constructor.
Qed.

Section SanitizerClaims.
Context {P : Pandas}.

Lemma empty_sheet_profile (seed : HashSeed) (rows : nat) (sheet_name : string) :
  _extract_sheet_metadata seed (mkDF rows []) sheet_name
  = Ok (empty_profile sheet_name rows, []).
Proof.
  unfold _extract_sheet_metadata, _detect_date_columns. simpl.
  unfold pyset_of_list. simpl. rewrite set_iter_nil. reflexivity.
Qed.

(** C9.  After the sanitizer every surviving label is a trimmed string
    that does not start with "Unnamed"; the surviving columns are the raw
    columns whose cleaned label is not a placeholder, in their order and
    with their cells untouched, for the same rows; and a sheet left without
    columns is no error: its profile is the empty profile and its metric
    mapping is empty. *)
Theorem sanitizer_postcondition (raw : RawFrame scalar) :
  Forall (fun label => PyStr.trimmed label /\ is_unnamed label = false)
         (columns (sanitize raw))
  /\ index_len (sanitize raw) = raw_len raw
  /\ map snd (cols (sanitize raw))
     = map snd (filter (fun c => negb (is_unnamed (PyStr.strip (str_of_cell (fst c)))))
                       (raw_cols raw))
  /\ columns (sanitize raw)
     = filter (fun label => negb (is_unnamed label))
              (map (fun c => PyStr.strip (str_of_cell (fst c))) (raw_cols raw))
  /\ (forall seed sheet_name,
        columns (sanitize raw) = [] ->
        _extract_sheet_metadata seed (sanitize raw) sheet_name
        = Ok (empty_profile sheet_name (raw_len raw), [])).
Proof.
  unfold sanitize, drop_unnamed, clean_column_names, columns. simpl.
  split.
  { apply Forall_forall. intros label Hin. apply in_map_iff in Hin.
    destruct Hin as [[l s] [Hl Hin]]. simpl in Hl. subst l.
    apply filter_In in Hin. destruct Hin as [Hin Hkeep]. simpl in Hkeep.
    apply in_map_iff in Hin. destruct Hin as [[l0 s0] [Heq _]]. simpl in Heq.
    inv Heq. split; [apply strip_trimmed|]. now apply negb_true_iff in Hkeep. }
  split; [reflexivity|].
  split.
  { induction (raw_cols raw) as [|[l s] t IH]; simpl; [reflexivity|].
    destruct (is_unnamed (PyStr.strip (str_of_cell l))); simpl; now rewrite IH. }
  split.
  { induction (raw_cols raw) as [|[l s] t IH]; simpl; [reflexivity|].
    destruct (is_unnamed (PyStr.strip (str_of_cell l))); simpl; now rewrite IH. }
  intros seed sheet_name Hempty.
  apply map_eq_nil in Hempty. rewrite Hempty. apply empty_sheet_profile.
Qed.

End SanitizerClaims.

Lemma sanitizer_postcondition_witness :
  map fst (raw_cols padded_raw)
  = [Text (nbsp ++ "Code"); Text ("Label" ++ nbsp); Text (nbsp ++ "Unnamed: 2")]
  /\ columns (sanitize padded_raw) = ["Code"; "Label"]
  /\ Forall (fun label => PyStr.trimmed label /\ is_unnamed label = false)
            ["Code"; "Label"]
  /\ columns (sanitize (mkRaw (A := Z) 3 [(Text "Unnamed: 0", mkSeries float64 [NaN; NaN; NaN])])) = []
  /\ _extract_sheet_metadata seed_b
       (sanitize (mkRaw (A := Z) 3 [(Text "Unnamed: 0", mkSeries float64 [NaN; NaN; NaN])]))
       "Blank"
     = Ok (empty_profile "Blank" 3, []).
Proof.
  split; [reflexivity|]. split; [reflexivity|].
  split; [exact (proj1 (sanitizer_postcondition (P := toy) padded_raw))|].
  split; [reflexivity|].
  apply (proj2 (proj2 (proj2 (proj2
           (sanitizer_postcondition (P := toy)
              (mkRaw 3 [(Text "Unnamed: 0", mkSeries float64 [NaN; NaN; NaN])])))))
           seed_b "Blank").
  reflexivity.
Defined.

(** Whitespace that is not ASCII is trimmed from a label before the
    placeholder test. *)
Example padded_labels_sanitized :
  PyStr.strip (nbsp ++ "Unnamed: 0") = "Unnamed: 0"
  /\ PyStr.strip ("Code" ++ nbsp) = "Code"
  /\ cols (sanitize padded_raw)
     = [("Code", texts [(nbsp ++ "R001")%string; "R002"]);
        ("Label", texts ["Revenue"; ("Cost " ++ nbsp)%string])].
Proof. repeat split. Qed.

(** The sanitizer on the sheet of the scenario: the padded label is
    trimmed and the placeholder column is gone. *)
Example codes_sanitized :
  columns codes_df = ["Code"; "Label"].
Proof. reflexivity. Qed.

Section ProcessClaims.
Context {P : Pandas}.

(** C7.  When the path does not refer to an existing readable workbook,
    [process_spreadsheet] raises at once ([FileNotFoundError] when no file
    exists at the path, the reader's error otherwise), returns no response
    and leaves storage as it was: no profile document is written. *)
Theorem unreadable_path_fails
    (seed : HashSeed) (fs : storage scalar) (spreadsheet_path : string) :
  (forall sheets, read_excel fs spreadsheet_path <> Ok sheets) ->
  exists e,
    process_spreadsheet seed fs spreadsheet_path = (fs, Raise e)
    /\ (exists_ fs (PyPath.normalize spreadsheet_path) = false ->
        e = FileNotFoundError)
    /\ (exists_ fs (PyPath.normalize spreadsheet_path) = true -> e = ReadError).
Proof.
  intros Hbad. unfold process_spreadsheet, build_profile.
  destruct (exists_ fs (PyPath.normalize spreadsheet_path)) eqn:Hex; simpl.
  - destruct (read_excel fs spreadsheet_path) as [sheets|e] eqn:Hread.
    + exfalso. now apply (Hbad sheets).
    + assert (He : e = ReadError).
      { unfold read_excel in Hread.
        destruct (PyPath.names_directory spreadsheet_path); [congruence|].
        destruct (dict_get (PyPath.normalize spreadsheet_path) fs) as [[x| |d]|];
          congruence. }
      subst e. simpl. exists ReadError. repeat split; intros; congruence.
  - exists FileNotFoundError. repeat split; intros; congruence.
Qed.

End ProcessClaims.

Lemma unreadable_path_fails_witness :
  (forall sheets, read_excel broken_fs book_path <> Ok sheets)
  /\ exists e,
       process_spreadsheet seed_a broken_fs book_path = (broken_fs, Raise e)
       /\ (exists_ broken_fs (PyPath.normalize book_path) = false ->
           e = FileNotFoundError)
       /\ (exists_ broken_fs (PyPath.normalize book_path) = true -> e = ReadError).
Proof.
  assert (H : forall sheets, read_excel (P := toy) broken_fs book_path <> Ok sheets)
    by (intros sheets; vm_compute; discriminate).
  split; [exact H|].
  exact (unreadable_path_fails (P := toy) seed_a broken_fs book_path H).
Defined.

(** A path that is absent from storage. *)
Example missing_path_fails :
  process_spreadsheet seed_a broken_fs "data/other.xlsx"
  = (broken_fs, Raise FileNotFoundError).
Proof. reflexivity. Qed.

(* ------------------------------------------------------------------ *)
(** ** What the schemas keep *)

Lemma fields_set_declared (cls : ModelClass) (kwargs : dict pyval) (f : string) :
  ~ In f (map fst cls) -> dict_get f (fields_set cls kwargs) = None.
Proof.
  induction cls as [|[g d] rest IH]; simpl; intros Hf; [reflexivity|].
  assert (Hg : String.eqb g f = false)
    by (apply String.eqb_neq; intros ->; apply Hf; auto).
  destruct (dict_get g kwargs); simpl; [rewrite Hg|]; apply IH; tauto.
Qed.

(** An instance has no attribute that its class does not declare, whatever
    keywords it was built from. *)
Lemma model_init_drops_extra (cls : ModelClass) (kwargs instance : dict pyval)
    (f : string) :
  model_init cls kwargs = Ok instance ->
  ~ In f (map fst cls) ->
  getattr instance f = None.
Proof.
  unfold model_init, getattr. intros H Hf.
  destruct (forallb _ cls); [|discriminate]. inv H.
  now apply fields_set_declared.
Qed.

(** C5 (the code departs from the claim).  On the workbook with the sheet
    Grades the role lists are computed, and are not empty, but the
    document written next to the workbook has no identifier, description
    or metric column list in the entry of the sheet; the other parts of
    the profile are there. *)
Theorem profile_document_omits_role_lists :
  exists doc,
    document_at (fst (process_spreadsheet seed_a grades_fs book_path)) "data/book.yaml"
    = Some doc
    /\ role_columns grades_df [] = Ok (["grade"], ["score"], ["bonus"])
    /\ lookup_path ["sheets"; "Grades"; "identifier_columns"] doc = None
    /\ lookup_path ["sheets"; "Grades"; "description_columns"] doc = None
    /\ lookup_path ["sheets"; "Grades"; "metric_columns"] doc = None
    /\ lookup_path ["sheets"; "Grades"; "columns"] doc
       = Some (VList [VStr "grade"; VStr "score"; VStr "bonus"])
    /\ lookup_path ["sheets"; "Grades"; "has_headers"] doc = Some (VBool true)
    /\ lookup_path ["version"] doc = Some (VStr "1.0")
    /\ lookup_path ["global"; "date_formats"] doc = Some (VList [])
    /\ lookup_path ["metrics_mapping"; "Grades"] doc
       = Some (VDict [("a", VStr "2"); ("b", VStr "4")]).
Proof.
  eexists. split; [reflexivity|]. repeat split.
Qed.

(** C6 (the code departs from the claim).  The response of a successful
    call carries the sheet profiles, the empty payload and the source
    path, but not the path of the profile document, although the document
    was written there. *)
Theorem response_omits_config_path :
  exists response doc,
    snd (process_spreadsheet seed_a grades_fs book_path) = Ok response
    /\ document_at (fst (process_spreadsheet seed_a grades_fs book_path)) "data/book.yaml"
       = Some doc
    /\ getattr response "config_path" = None
    /\ getattr response "file_path" = Some (VStr "data/book.xlsx")
    /\ getattr response "processed_data" = Some (VDict [])
    /\ map fst response = ["sheets_metadata"; "processed_data"; "file_path"]
    /\ lookup_path ["sheets_metadata"; "Grades"; "name"] (VDict response)
       = Some (VStr "Grades").
Proof.
  do 2 eexists. split; [reflexivity|]. split; [reflexivity|]. repeat split.
Qed.

(* ------------------------------------------------------------------ *)
(** ** Two runs under different hash seeds *)

Lemma mem_ext (l1 l2 : list string) :
  (forall c, In c l1 <-> In c l2) -> forall c, PyStr.mem c l1 = PyStr.mem c l2.
Proof.
  intros H c. destruct (PyStr.mem c l2) eqn:H2.
  - apply mem_true_iff. apply H. now apply mem_true_iff.
  - apply mem_false_iff. rewrite H. now apply mem_false_iff.
Qed.

Lemma strings_of_str_list (l : list string) :
  strings_of (Some (str_list l)) = l.
Proof.
  unfold strings_of, str_list. induction l as [|x t IH]; simpl; [reflexivity|].
  now rewrite IH.
Qed.

Lemma set_iter_two_seeds (seed1 seed2 : HashSeed) (s : list string) :
  NoDup s -> Permutation (set_iter seed1 s) (set_iter seed2 s).
Proof.
  intros Hs. eapply Permutation_trans; [now apply set_iter_perm|].
  apply Permutation_sym. now apply set_iter_perm.
Qed.

Lemma pyset_update_perm (g1 g2 l1 l2 : list string) :
  NoDup g1 -> NoDup g2 -> Permutation g1 g2 -> Permutation l1 l2 ->
  Permutation (pyset_update g1 l1) (pyset_update g2 l2).
Proof.
  intros H1 H2 Hg Hl. apply NoDup_Permutation; try now apply pyset_update_NoDup.
  intros x. rewrite !pyset_update_In. split; intros [H|H].
  - left. eapply Permutation_in; eassumption.
  - right. eapply Permutation_in; eassumption.
  - left. eapply Permutation_in; [apply Permutation_sym|]; eassumption.
  - right. eapply Permutation_in; [apply Permutation_sym|]; eassumption.
Qed.

Lemma dict_set_agree {V : Type} (R : V -> V -> Prop) (k : string) (v1 v2 : V)
    (d1 d2 : dict V) :
  R v1 v2 ->
  Forall2 (fun x y => fst x = fst y /\ R (snd x) (snd y)) d1 d2 ->
  Forall2 (fun x y => fst x = fst y /\ R (snd x) (snd y))
          (dict_set k v1 d1) (dict_set k v2 d2).
Proof.
  intros Hv H. induction H as [|[k1 x] [k2 y] t1 t2 [Hk Hxy] Ht IH]; simpl.
  - constructor; [split; [reflexivity|assumption]|constructor].
  - simpl in Hk, Hxy. subst k2. destruct (String.eqb k1 k).
    + constructor; [split; [reflexivity|assumption]|assumption].
    + constructor; [split; [reflexivity|assumption]|assumption].
Qed.

Lemma sheet_info_init (name cols_ rows ncols types headers dcols nulls dfmts
                       ids descs mets : pyval) :
  model_init SheetInfo
    [ ("name", name); ("columns", cols_); ("row_count", rows);
      ("column_count", ncols); ("data_types", types); ("has_headers", headers);
      ("date_columns", dcols); ("null_counts", nulls); ("date_formats", dfmts);
      ("identifier_columns", ids); ("description_columns", descs);
      ("metric_columns", mets) ]
  = Ok [ ("name", name); ("columns", cols_); ("row_count", rows);
         ("column_count", ncols); ("data_types", types); ("has_headers", headers);
         ("date_columns", dcols); ("null_counts", nulls); ("date_formats", dfmts) ].
Proof. reflexivity. Qed.

Section SeedFacts.
Context {P : Pandas}.

Lemma infer_loop_ext (l1 l2 : list string) :
  (forall c, PyStr.mem c l1 = PyStr.mem c l2) ->
  forall todo (df : DataFrame scalar) types,
    infer_loop df l1 todo types = infer_loop df l2 todo types.
Proof.
  intros H todo. induction todo as [|col rest IH]; intros df types; simpl;
    [reflexivity|].
  rewrite H. destruct (PyStr.mem col l2).
  - destruct (getitem df col) as [s|l|]; [|apply IH|apply IH].
    destruct (to_datetime_coerce s); apply IH.
  - destruct (getitem df col) as [s|l|]; [apply IH|apply IH|reflexivity].
Qed.

Lemma metric_loop_ext (df : DataFrame scalar) (e1 e2 : list string) :
  (forall c, PyStr.mem c e1 = PyStr.mem c e2) ->
  forall todo mets, metric_loop df e1 todo mets = metric_loop df e2 todo mets.
Proof.
  intros H todo. induction todo as [|col rest IH]; intros mets; simpl;
    [reflexivity|].
  rewrite H. destruct (PyStr.mem col e2); [apply IH|].
  destruct (getitem df col) as [s|l|]; [| |reflexivity].
  - destruct (dtype s); apply IH.
  - apply IH.
Qed.

Lemma role_columns_ext (df : DataFrame scalar) (d1 d2 : list string) :
  (forall c, In c d1 <-> In c d2) -> role_columns df d1 = role_columns df d2.
Proof.
  intros H. unfold role_columns.
  destruct (_identify_identifier_columns df) as [ids|e]; simpl; [|reflexivity].
  destruct (_identify_description_columns df ids) as [descs|e]; simpl; [|reflexivity].
  unfold _identify_metric_columns.
  rewrite (metric_loop_ext df (ids ++ descs ++ d1) (ids ++ descs ++ d2));
    [reflexivity|].
  apply mem_ext. intros c. rewrite !in_app_iff, H. tauto.
Qed.

Lemma extract_sheet_agree (seed1 seed2 : HashSeed) (df : DataFrame scalar)
    (sheet_name : string) :
  sheet_outcomes_agree (_extract_sheet_metadata seed1 df sheet_name)
                       (_extract_sheet_metadata seed2 df sheet_name).
Proof.
  destruct (date_loop_facts df (columns df) ([], []) (fun c H => H))
    as [[marks formats] [Hrun [_ [Hnd _]]]].
  simpl in Hnd. specialize (Hnd (NoDup_nil _)).
  unfold _extract_sheet_metadata, _detect_date_columns. rewrite Hrun. simpl.
  set (dc1 := set_iter seed1 (pyset_of_list marks)).
  set (dc2 := set_iter seed2 (pyset_of_list marks)).
  assert (Hdc : Permutation dc1 dc2)
    by (apply set_iter_two_seeds, pyset_of_list_NoDup).
  assert (Hfm : Permutation (set_iter seed1 formats) (set_iter seed2 formats))
    by (now apply set_iter_two_seeds).
  assert (Hin : forall c, In c dc2 <-> In c dc1).
  { intros c. split; intros Hc; eapply Permutation_in; try eassumption.
    now apply Permutation_sym. }
  unfold _infer_data_types.
  rewrite (infer_loop_ext dc2 dc1 (mem_ext _ _ Hin)).
  destruct (infer_loop df dc1 (columns df) []) as [[df' types]|e]; simpl;
    [|reflexivity].
  rewrite (role_columns_ext df' dc2 dc1 Hin).
  destruct (role_columns df' dc1) as [[[ids descs] mets]|e]; simpl; [|reflexivity].
  destruct (_extract_metrics df' ids descs) as [m|e]; simpl; [|reflexivity].
  split.
  - unfold profile_agree.
    repeat (constructor; [split; [reflexivity|simpl; try reflexivity]|]).
    + apply Permutation_map. exact Hdc.
    + apply Permutation_map. exact Hfm.
    + constructor.
  - split; [reflexivity|].
    exists (set_iter seed1 formats), (set_iter seed2 formats).
    unfold getattr. simpl.
    repeat split; try apply strings_of_str_list. exact Hfm.
Qed.

End SeedFacts.

Section SeedClaims.
Context {P : Pandas}.

Lemma sheet_step_agree (seed1 seed2 : HashSeed) (a1 a2 : acc)
    (sheet : string * RawFrame scalar) :
  acc_agree a1 a2 ->
  match sheet_step seed1 a1 sheet, sheet_step seed2 a2 sheet with
  | Ok b1, Ok b2 => acc_agree b1 b2
  | Raise e1, Raise e2 => e1 = e2
  | _, _ => False
  end.
Proof.
  intros [Hsheets [Hn1 [Hn2 [Hg Hm]]]]. unfold sheet_step.
  pose proof (extract_sheet_agree seed1 seed2 (sanitize (snd sheet)) (fst sheet)) as H.
  unfold sheet_outcomes_agree in H.
  destruct (_extract_sheet_metadata seed1 (sanitize (snd sheet)) (fst sheet))
    as [[i1 m1]|e1];
    destruct (_extract_sheet_metadata seed2 (sanitize (snd sheet)) (fst sheet))
      as [[i2 m2]|e2]; simpl; try contradiction; [|exact H].
  destruct H as [Hprof [-> [f1 [f2 [Hf1 [Hf2 Hperm]]]]]].
  rewrite Hf1, Hf2, Hm. unfold acc_agree. simpl.
  split; [now apply (dict_set_agree profile_agree)|].
  split; [now apply pyset_update_NoDup|].
  split; [now apply pyset_update_NoDup|].
  split; [now apply pyset_update_perm|reflexivity].
Qed.

Lemma sheet_loop_agree (seed1 seed2 : HashSeed)
    (sheets : list (string * RawFrame scalar)) (a1 a2 : acc) :
  acc_agree a1 a2 ->
  match sheet_loop seed1 sheets a1, sheet_loop seed2 sheets a2 with
  | Ok b1, Ok b2 => acc_agree b1 b2
  | Raise e1, Raise e2 => e1 = e2
  | _, _ => False
  end.
Proof.
  revert a1 a2. induction sheets as [|sheet rest IH]; intros a1 a2 Ha; simpl.
  - exact Ha.
  - pose proof (sheet_step_agree seed1 seed2 a1 a2 sheet Ha) as Hstep.
    destruct (sheet_step seed1 a1 sheet) as [b1|e1];
      destruct (sheet_step seed2 a2 sheet) as [b2|e2]; simpl;
      try contradiction; [now apply IH|exact Hstep].
Qed.

Lemma sheets_dump_agree (m1 m2 : dict (dict pyval)) (wrap : dict pyval -> pyval) :
  (forall i, wrap i = VDict i) ->
  Forall2 (fun x y => fst x = fst y /\ profile_agree (snd x) (snd y)) m1 m2 ->
  sheets_agree (map (fun kv => (fst kv, wrap (snd kv))) m1)
               (map (fun kv => (fst kv, wrap (snd kv))) m2).
Proof.
  intros Hwrap H. unfold sheets_agree.
  induction H as [|x y t1 t2 [Hk Hp] _ IH]; simpl; constructor; [|exact IH].
  simpl. split; [exact Hk|]. exists (snd x), (snd y). rewrite !Hwrap. auto.
Qed.

(** C4, as the code has it.  Two runs on the same storage and path, under
    any two hash seeds, either raise the same exception and write nothing,
    or write a document to the same path and return a response such that:
    the metric dictionaries are identical; every sheet profile has the same
    fields with identical values, except that the date-column list and the
    date-format list hold the same elements in a possibly different order;
    and the global date-format list likewise holds the same elements. *)
Theorem runs_agree_up_to_enumeration_order
    (seed1 seed2 : HashSeed) (fs : storage scalar) (spreadsheet_path : string) :
  (exists e,
     process_spreadsheet seed1 fs spreadsheet_path = (fs, Raise e)
     /\ process_spreadsheet seed2 fs spreadsheet_path = (fs, Raise e))
  \/ (exists config_path d1 d2 r1 r2,
        process_spreadsheet seed1 fs spreadsheet_path
        = (dict_set config_path (Document d1) fs, Ok r1)
        /\ process_spreadsheet seed2 fs spreadsheet_path
           = (dict_set config_path (Document d2) fs, Ok r2)
        /\ document_agree d1 d2
        /\ response_agree r1 r2).
Proof.
  unfold process_spreadsheet, build_profile.
  destruct (exists_ fs (PyPath.normalize spreadsheet_path)); simpl; [|left; eauto].
  destruct (read_excel fs spreadsheet_path) as [sheets|e]; simpl; [|left; eauto].
  assert (H0 : acc_agree (mkAcc [] [] []) (mkAcc [] [] [])).
  { unfold acc_agree. simpl. repeat split; constructor. }
  pose proof (sheet_loop_agree seed1 seed2 sheets _ _ H0) as H.
  destruct (sheet_loop seed1 sheets (mkAcc [] [] [])) as [a1|e1];
    destruct (sheet_loop seed2 sheets (mkAcc [] [] [])) as [a2|e2]; simpl;
    try contradiction; [|subst e2; left; eauto].
  destruct (PyPath.with_suffix (PyPath.normalize spreadsheet_path) ".yaml")
    as [config_path|e]; simpl; [|left; eauto].
  destruct H as [Hsheets [Hn1 [Hn2 [Hg Hm]]]].
  right. exists config_path. do 4 eexists.
  split; [reflexivity|]. split; [reflexivity|]. split.
  - unfold document_agree, config_data. rewrite Hm.
    do 5 eexists. split; [reflexivity|]. split; [reflexivity|]. split.
    + apply Permutation_map.
      eapply Permutation_trans; [now apply set_iter_perm|].
      eapply Permutation_trans; [exact Hg|].
      apply Permutation_sym. now apply set_iter_perm.
    + now apply sheets_dump_agree.
  - unfold response_agree. do 3 eexists.
    split; [reflexivity|]. split; [reflexivity|].
    now apply (sheets_dump_agree _ _ VDict).
Qed.

End SeedClaims.

(** C4, as the claim has it, fails: under two hash seeds the same sheet
    gives its date columns, and its date formats, in different orders, and
    the two runs write different documents. *)
Lemma hash_seed_changes_date_lists :
  _detect_date_columns seed_a dates_df = Ok (["date"; "year"], [])
  /\ _detect_date_columns seed_b dates_df = Ok (["year"; "date"], [])
  /\ _detect_date_columns seed_a jan_df = Ok (["Jan-24"], ["%b-%y"; "%Y-%m-%d"])
  /\ _detect_date_columns seed_b jan_df = Ok (["Jan-24"], ["%Y-%m-%d"; "%b-%y"])
  /\ process_spreadsheet seed_a dates_fs book_path
     <> process_spreadsheet seed_b dates_fs book_path
  /\ ~ (forall (seed1 seed2 : HashSeed) (fs : storage Z) (p : string),
          process_spreadsheet seed1 fs p = process_spreadsheet seed2 fs p).
Proof.
  assert (Hne : process_spreadsheet seed_a dates_fs book_path
                <> process_spreadsheet seed_b dates_fs book_path).
  { intros Heq. apply (f_equal snd) in Heq. vm_compute in Heq. discriminate Heq. }
  repeat split; try reflexivity; try exact Hne.
  intros Hall. apply Hne. apply Hall.
Qed.

Section SchemaFacts.
Context {P : Pandas}.

(** The omission does not depend on the sheet: no profile that
    [_extract_sheet_metadata] returns has a role list. *)
Lemma sheet_info_has_no_role_lists (seed : HashSeed) (df : DataFrame scalar)
    (sheet_name : string) (sheet_info : dict pyval) (metrics : dict string) :
  _extract_sheet_metadata seed df sheet_name = Ok (sheet_info, metrics) ->
  getattr sheet_info "identifier_columns" = None
  /\ getattr sheet_info "description_columns" = None
  /\ getattr sheet_info "metric_columns" = None
  /\ map fst sheet_info
     = [ "name"; "columns"; "row_count"; "column_count"; "data_types";
         "has_headers"; "date_columns"; "null_counts"; "date_formats" ].
Proof.
  unfold _extract_sheet_metadata. intros H.
  destruct (_detect_date_columns seed df) as [dates|]; [|discriminate]. simpl in H.
  destruct (_infer_data_types df (fst dates)) as [typed|]; [|discriminate]. simpl in H.
  destruct (role_columns (fst typed) (fst dates)) as [roles|]; [|discriminate].
  simpl in H.
  destruct (_extract_metrics (fst typed) (fst (fst roles)) (snd (fst roles)))
    as [m|]; [|discriminate].
  simpl in H. inv H. repeat split.
Qed.

End SchemaFacts.

(* ================================================================== *)
(** * Further properties of the pipeline *)

Section LabelFacts.
Context {P : Pandas}.

Lemma filter_label_length (l : list (string * Series scalar)) (col : string) :
  List.length (filter (fun c => String.eqb (fst c) col) l)
  = count_occ string_dec (map fst l) col.
Proof.
  induction l as [|[k s] t IH]; simpl; [reflexivity|].
  destruct (string_dec k col) as [Heq|Hne].
  - subst k. rewrite String.eqb_refl. simpl. now rewrite IH.
  - apply String.eqb_neq in Hne. rewrite Hne. exact IH.
Qed.

Lemma is_series_count (df : DataFrame scalar) (col : string) :
  is_series df col = true <-> count_occ string_dec (columns df) col = 1.
Proof.
  unfold is_series, getitem, columns. rewrite <- filter_label_length.
  destruct (filter (fun c => String.eqb (fst c) col) (cols df)) as [|a [|b t]];
    simpl; split; intros H; try discriminate; reflexivity.
Qed.

(** Every label selects a Series exactly when the labels are distinct. *)
Lemma all_series_NoDup (df : DataFrame scalar) :
  forallb (is_series df) (columns df) = true <-> NoDup (columns df).
Proof.
  rewrite forallb_forall, (NoDup_count_occ' string_dec). split; intros H x Hx.
  - apply is_series_count. now apply H.
  - apply is_series_count. now apply H.
Qed.

Lemma identifier_loop_closed (df : DataFrame scalar) (todo acc0 : list string) :
  (forall c, In c todo -> In c (columns df)) ->
  identifier_loop df (index_len df) todo acc0
  = if forallb (is_series df) todo
    then Ok (acc0 ++ filter (qualifies_identifier df) todo)
    else Raise AttributeError.
Proof.
  revert acc0. induction todo as [|col rest IH]; intros acc0 Hsub; simpl.
  - now rewrite app_nil_r.
  - pose proof (getitem_not_missing df col (Hsub col (or_introl eq_refl))) as Hnm.
    unfold is_series at 1, qualifies_identifier at 1.
    destruct (getitem df col) as [s|l|]; [| reflexivity | contradiction].
    simpl. rewrite !IH by (intros c Hc; apply Hsub; now right).
    destruct (is_identifier (index_len df) s);
      destruct (forallb (is_series df) rest); try reflexivity.
    now rewrite <- app_assoc.
Qed.

Lemma description_loop_closed (df : DataFrame scalar)
    (exclude todo acc0 : list string) :
  (forall c, In c todo -> In c (columns df)) ->
  description_loop df exclude todo acc0
  = if forallb (fun c => PyStr.mem c exclude || is_series df c) todo
    then Ok (acc0 ++ filter (fun c => negb (PyStr.mem c exclude) && populated df c) todo)
    else Raise ValueError.
Proof.
  revert acc0. induction todo as [|col rest IH]; intros acc0 Hsub; simpl.
  - now rewrite app_nil_r.
  - pose proof (getitem_not_missing df col (Hsub col (or_introl eq_refl))) as Hnm.
    destruct (PyStr.mem col exclude); simpl.
    { apply IH. intros c Hc. apply Hsub. now right. }
    unfold is_series at 1, populated at 1.
    destruct (getitem df col) as [s|l|]; [| reflexivity | contradiction].
    simpl. rewrite !IH by (intros c Hc; apply Hsub; now right).
    destruct (float_gt (non_null_ratio s) (4 # 10)%Q);
      destruct (forallb (fun c => PyStr.mem c exclude || is_series df c) rest);
      try reflexivity.
    now rewrite <- app_assoc.
Qed.

Lemma metric_loop_closed (df : DataFrame scalar)
    (exclude todo acc0 : list string) :
  (forall c, In c todo -> In c (columns df)) ->
  metric_loop df exclude todo acc0
  = Ok (acc0 ++ filter (fun c => negb (PyStr.mem c exclude)
                                 && is_numeric_dtype (getitem df c)) todo).
Proof.
  revert acc0. induction todo as [|col rest IH]; intros acc0 Hsub; simpl.
  - now rewrite app_nil_r.
  - pose proof (getitem_not_missing df col (Hsub col (or_introl eq_refl))) as Hnm.
    destruct (PyStr.mem col exclude); simpl.
    { apply IH. intros c Hc. apply Hsub. now right. }
    destruct (getitem df col) as [s|l|] eqn:Hsel; [| | contradiction].
    + simpl. destruct (dtype s);
        rewrite IH by (intros c Hc; apply Hsub; now right);
        simpl; try reflexivity; now rewrite <- app_assoc.
    + simpl. apply IH. intros c Hc. apply Hsub. now right.
Qed.

End LabelFacts.

Section RoleExtras.
Context {P : Pandas}.

Lemma role_columns_closed (df : DataFrame scalar) (date_columns : list string) :
  role_columns df date_columns
  = if forallb (is_series df) (columns df)
    then
      let ids := filter (qualifies_identifier df) (columns df) in
      let descs := filter (fun c => negb (PyStr.mem c ids) && populated df c)
                          (columns df) in
      Ok (ids, descs,
          filter (fun c => negb (PyStr.mem c (ids ++ descs ++ date_columns))
                           && is_numeric_dtype (getitem df c)) (columns df))
    else Raise AttributeError.
Proof.
  unfold role_columns, _identify_identifier_columns, _identify_description_columns,
    _identify_metric_columns.
  rewrite identifier_loop_closed by auto.
  destruct (forallb (is_series df) (columns df)) eqn:Hall; [|reflexivity].
  simpl. rewrite description_loop_closed by auto.
  assert (Hall' : forallb (fun c => PyStr.mem c (filter (qualifies_identifier df) (columns df))
                                    || is_series df c) (columns df) = true).
  { apply forallb_forall. intros c Hc. rewrite forallb_forall in Hall.
    rewrite (Hall c Hc). apply orb_true_r. }
  rewrite Hall'. simpl. rewrite metric_loop_closed by auto. reflexivity.
Qed.

Lemma qualifies_populated (df : DataFrame scalar) (c : string) :
  qualifies_identifier df c = true -> populated df c = true.
Proof.
  unfold qualifies_identifier, populated, is_identifier.
  destruct (getitem df c); try discriminate.
  intros H. apply andb_true_iff in H. tauto.
Qed.


Lemma role_lists_filtered
    (df : DataFrame scalar) (date_columns ids descs mets : list string) :
  role_columns df date_columns = Ok (ids, descs, mets) ->
  ids = filter (qualifies_identifier df) (columns df)
  /\ descs = filter (fun c => populated df c && negb (qualifies_identifier df c))
                    (columns df)
  /\ mets = filter (fun c => negb (populated df c)
                             && negb (PyStr.mem c date_columns)
                             && is_numeric_dtype (getitem df c)) (columns df)
  /\ NoDup ids /\ NoDup descs /\ NoDup mets.
Proof.
  rewrite role_columns_closed.
  destruct (forallb (is_series df) (columns df)) eqn:Hall; [|discriminate].
  apply all_series_NoDup in Hall. cbv zeta. intros H. inv H.
  set (ids := filter (qualifies_identifier df) (columns df)).
  assert (Hids : forall c, PyStr.mem c ids = true -> qualifies_identifier df c = true).
  { intros c Hc. apply mem_true_iff in Hc. unfold ids in Hc.
    apply filter_In in Hc. tauto. }
  assert (Hmem : forall c, In c (columns df) ->
                           PyStr.mem c ids = qualifies_identifier df c).
  { intros c Hc. destruct (qualifies_identifier df c) eqn:Hq.
    - apply mem_true_iff. unfold ids. apply filter_In. auto.
    - destruct (PyStr.mem c ids) eqn:Hm; [|reflexivity].
      apply Hids in Hm. congruence. }
  assert (Hdesc : filter (fun c => negb (PyStr.mem c ids) && populated df c) (columns df)
                  = filter (fun c => populated df c && negb (qualifies_identifier df c))
                           (columns df)).
  { apply filter_ext_in. intros c Hc. rewrite (Hmem c Hc). apply andb_comm. }
  rewrite Hdesc.
  set (descs := filter (fun c => populated df c && negb (qualifies_identifier df c))
                       (columns df)).
  assert (Hmet : forall c, In c (columns df) ->
            PyStr.mem c (ids ++ descs ++ date_columns)
            = populated df c || PyStr.mem c date_columns).
  { intros c Hc.
    destruct (populated df c) eqn:Hp; simpl.
    - apply mem_true_iff. rewrite !in_app_iff.
      destruct (qualifies_identifier df c) eqn:Hq.
      + left. unfold ids. apply filter_In. auto.
      + right. left. unfold descs. apply filter_In. split; [assumption|].
        now rewrite Hp, Hq.
    - destruct (PyStr.mem c date_columns) eqn:Hd.
      + apply mem_true_iff. rewrite !in_app_iff. right. right.
        now apply mem_true_iff.
      + apply mem_false_iff. rewrite !in_app_iff. intros [Hi|[Hi|Hi]].
        * unfold ids in Hi. apply filter_In in Hi. destruct Hi as [_ Hi].
          apply qualifies_populated in Hi. congruence.
        * unfold descs in Hi. apply filter_In in Hi. destruct Hi as [_ Hi].
          rewrite Hp in Hi. discriminate.
        * apply mem_false_iff in Hd. contradiction. }
  split; [reflexivity|]. split; [reflexivity|]. split.
  { apply filter_ext_in. intros c Hc. rewrite (Hmet c Hc).
    now rewrite negb_orb. }
  repeat split; apply NoDup_filter; assumption.
Qed.

(** X2.  On success each role list is the column list filtered, in table
    order and without repetition: the identifier columns are those passing
    the identifier test, the description columns the other columns whose
    non-null ratio exceeds 0.4, and the metric columns the numeric columns
    that are not date columns and whose non-null ratio does not exceed
    0.4. *)
Theorem role_lists_are_filters
    (df : DataFrame scalar) (date_columns ids descs mets : list string) :
  role_columns df date_columns = Ok (ids, descs, mets) ->
  ids = filter (qualifies_identifier df) (columns df)
  /\ descs = filter (fun c => populated df c && negb (qualifies_identifier df c))
                    (columns df)
  /\ mets = filter (fun c => negb (populated df c)
                             && negb (PyStr.mem c date_columns)
                             && is_numeric_dtype (getitem df c)) (columns df)
  /\ NoDup ids /\ NoDup descs /\ NoDup mets.
Proof. apply role_lists_filtered. Qed.

(** X3.  On success every column whose non-null ratio exceeds 0.4 is an
    identifier or a description column, so a metric column is always a
    numeric column with a non-null ratio of at most 0.4 (or without
    rows). *)
Theorem populated_columns_are_never_metrics
    (df : DataFrame scalar) (date_columns ids descs mets : list string) :
  role_columns df date_columns = Ok (ids, descs, mets) ->
  (forall c, In c (columns df) -> populated df c = true ->
             In c ids \/ In c descs)
  /\ (forall c, In c mets ->
        exists s, getitem df c = OneSeries s
                  /\ float_gt (non_null_ratio s) (4 # 10)%Q = false
                  /\ is_numeric_dtype (OneSeries s) = true).
Proof.
  intros H. pose proof (role_lists_filtered df date_columns ids descs mets H)
    as [Hi [Hd [Hm _]]].
  split.
  - intros c Hc Hp. destruct (qualifies_identifier df c) eqn:Hq.
    + left. rewrite Hi. apply filter_In. auto.
    + right. rewrite Hd. apply filter_In. split; [assumption|]. now rewrite Hp, Hq.
  - intros c Hc. rewrite Hm in Hc. apply filter_In in Hc. destruct Hc as [Hc Ht].
    apply andb_true_iff in Ht. destruct Ht as [Ht Hnum].
    apply andb_true_iff in Ht. destruct Ht as [Hp _].
    apply negb_true_iff in Hp. unfold populated in Hp.
    destruct (getitem df c) as [s|l|] eqn:Hsel; try discriminate.
    exists s. auto.
Qed.

End RoleExtras.

Lemma filter_none {A : Type} (f : A -> bool) (l : list A) :
  (forall x, In x l -> f x = false) -> filter f l = [].
Proof.
  induction l as [|a t IH]; simpl; intros H; [reflexivity|].
  rewrite (H a (or_introl eq_refl)). apply IH. intros x Hx. apply H. now right.
Qed.

Section RowlessRoles.
Context {P : Pandas}.

Lemma rowless_not_populated (df : DataFrame scalar) (c : string) :
  wf_df df -> index_len df = 0 -> populated df c = false.
Proof.
  intros Hwf Hz. unfold populated.
  destruct (getitem df c) as [s|l|] eqn:Hsel; try reflexivity.
  pose proof (wf_length _ _ _ Hwf Hsel) as Hlen. rewrite Hz in Hlen.
  apply length_zero_iff_nil in Hlen. unfold non_null_ratio. now rewrite Hlen.
Qed.

(** X4.  For a table without rows the non-null ratio is NaN, which fails
    both comparisons with 0.4: no column is an identifier or a description
    column, and every numeric column that is not a date column is a metric
    column. *)
Theorem rowless_table_roles
    (df : DataFrame scalar) (date_columns ids descs mets : list string) :
  wf_df df ->
  index_len df = 0 ->
  role_columns df date_columns = Ok (ids, descs, mets) ->
  ids = [] /\ descs = []
  /\ mets = filter (fun c => negb (PyStr.mem c date_columns)
                             && is_numeric_dtype (getitem df c)) (columns df).
Proof.
  intros Hwf Hz H.
  destruct (role_lists_filtered df date_columns ids descs mets H) as [Hi [Hd [Hm _]]].
  assert (Hp : forall c, populated df c = false)
    by (intros c; now apply rowless_not_populated).
  split.
  { rewrite Hi. apply filter_none. intros c _.
    destruct (qualifies_identifier df c) eqn:Hq; [|reflexivity].
    apply qualifies_populated in Hq. now rewrite Hp in Hq. }
  split.
  { rewrite Hd. apply filter_none. intros c _. now rewrite Hp. }
  rewrite Hm. apply filter_ext. intros c. now rewrite Hp.
Qed.

End RowlessRoles.

Lemma role_lists_are_filters_witness :
  role_columns grades_df [] = Ok (["grade"], ["score"], ["bonus"])
  /\ ["grade"] = filter (qualifies_identifier grades_df) (columns grades_df).
Proof.
  split; [reflexivity|].
  apply (role_lists_are_filters (P := toy) grades_df [] ["grade"] ["score"] ["bonus"]).
  reflexivity.
Defined.

Lemma populated_columns_are_never_metrics_witness :
  role_columns grades_df [] = Ok (["grade"], ["score"], ["bonus"])
  /\ (forall c, In c (columns grades_df) -> populated grades_df c = true ->
                In c ["grade"] \/ In c ["score"]).
Proof.
  split; [reflexivity|].
  apply (populated_columns_are_never_metrics (P := toy) grades_df []
           ["grade"] ["score"] ["bonus"]).
  reflexivity.
Defined.

Lemma rowless_table_roles_witness :
  wf_df headers_only_df /\ index_len headers_only_df = 0
  /\ role_columns headers_only_df [] = Ok ([], [], ["Amount"])
  /\ ["Amount"] = filter (fun c => negb (PyStr.mem c [])
                                   && is_numeric_dtype (getitem headers_only_df c))
                         (columns headers_only_df).
Proof.
  assert (Hwf : wf_df headers_only_df) by (repeat constructor).
  split; [exact Hwf|]. split; [reflexivity|]. split; [reflexivity|].
  apply (rowless_table_roles (P := toy) headers_only_df [] [] [] ["Amount"] Hwf);
    reflexivity.
Defined.

(* ------------------------------------------------------------------ *)
(** ** Dictionaries *)

Lemma dict_get_set_same {V : Type} (k : string) (v : V) (d : dict V) :
  dict_get k (dict_set k v d) = Some v.
Proof.
  induction d as [|[k' v'] t IH]; simpl.
  - now rewrite String.eqb_refl.
  - destruct (String.eqb k' k) eqn:He; simpl; rewrite He; [reflexivity|exact IH].
Qed.

Lemma dict_get_set_other {V : Type} (k k' : string) (v : V) (d : dict V) :
  k' <> k -> dict_get k' (dict_set k v d) = dict_get k' d.
Proof.
  intros Hne. induction d as [|[k0 v0] t IH]; simpl.
  - apply String.eqb_neq in Hne. rewrite String.eqb_sym. now rewrite Hne.
  - destruct (String.eqb k0 k) eqn:He; simpl.
    + apply String.eqb_eq in He. subst k0.
      assert (Hk : String.eqb k k' = false)
        by (apply String.eqb_neq; intros ->; now apply Hne).
      now rewrite Hk.
    + destruct (String.eqb k0 k'); [reflexivity|exact IH].
Qed.

Lemma dict_set_keys {V : Type} (k x : string) (v : V) (d : dict V) :
  In x (map fst (dict_set k v d)) <-> x = k \/ In x (map fst d).
Proof.
  induction d as [|[k' v'] t IH]; simpl.
  - intuition.
  - destruct (String.eqb_spec k' k) as [->|Hne]; simpl.
    + intuition.
    + rewrite IH. intuition.
Qed.

Lemma dict_set_keys_NoDup {V : Type} (k : string) (v : V) (d : dict V) :
  NoDup (map fst d) -> NoDup (map fst (dict_set k v d)).
Proof.
  induction d as [|[k' v'] t IH]; simpl; intros H.
  - constructor; [intros []|constructor].
  - inv H. destruct (String.eqb_spec k' k) as [->|Hne]; simpl.
    + now constructor.
    + constructor; [|now apply IH].
      rewrite dict_set_keys. intros [->|Hin]; [now apply Hne|contradiction].
Qed.

Lemma dict_set_Forall {V : Type} (Q : string * V -> Prop) (k : string) (v : V)
    (d : dict V) :
  Q (k, v) -> Forall Q d -> Forall Q (dict_set k v d).
Proof.
  intros Hq H. induction H as [|[k' v'] t Hx Ht IH]; simpl.
  - now repeat constructor.
  - destruct (String.eqb_spec k' k) as [->|Hne]; constructor; auto.
Qed.

Lemma lower_char_n (c : ascii) :
  PyStr.lower_char c = "n"%char -> c = "n"%char \/ c = "N"%char.
Proof.
  destruct c as [[] [] [] [] [] [] [] []]; vm_compute; intros H;
    try discriminate H; auto.
Qed.

Lemma lower_char_a (c : ascii) :
  PyStr.lower_char c = "a"%char -> c = "a"%char \/ c = "A"%char.
Proof.
  destruct c as [[] [] [] [] [] [] [] []]; vm_compute; intros H;
    try discriminate H; auto.
Qed.

(** A text lowers to nan exactly when it is one of the eight spellings. *)
Lemma lower_nan (s : string) :
  PyStr.lower s = "nan" <-> In s nan_spellings.
Proof.
  split.
  - destruct s as [|c1 [|c2 [|c3 [|c4 t]]]]; cbn [PyStr.lower]; intros H;
      try discriminate H.
    injection H as H1 H2 H3.
    apply lower_char_n in H1, H3. apply lower_char_a in H2.
    destruct H1 as [-> | ->], H2 as [-> | ->], H3 as [-> | ->];
      unfold nan_spellings; simpl; tauto.
  - unfold nan_spellings. simpl.
    intros [<-|[<-|[<-|[<-|[<-|[<-|[<-|[<-|[]]]]]]]]]; reflexivity.
Qed.

Lemma nan_spelling_strip (w : string) :
  In w nan_spellings -> PyStr.strip w = w.
Proof.
  unfold nan_spellings. simpl.
  intros [<-|[<-|[<-|[<-|[<-|[<-|[<-|[<-|[]]]]]]]]]; reflexivity.
Qed.

Lemma truthy_iff (s : string) : PyStr.truthy s = true <-> s <> "".
Proof. destruct s; simpl; split; congruence. Qed.

(** The test of line 313 without [lower]. *)
Lemma keep_row_spec (i d : string) :
  keep_row i d = true
  <-> i <> "" /\ d <> "" /\ ~ In i nan_spellings /\ ~ In d nan_spellings.
Proof.
  unfold keep_row.
  rewrite !andb_true_iff, !negb_true_iff, !String.eqb_neq, !truthy_iff,
    <- !lower_nan.
  tauto.
Qed.

Section MetricExtras.
Context {P : Pandas}.

Lemma truthy_nonempty (s : string) : PyStr.truthy s = true -> s <> "".
Proof. destruct s; [discriminate|]. intros _ H. discriminate H. Qed.

Lemma keep_row_true (i d : string) :
  keep_row i d = true ->
  i <> "" /\ d <> "" /\ PyStr.lower i <> "nan" /\ PyStr.lower d <> "nan".
Proof.
  unfold keep_row. rewrite !andb_true_iff, !negb_true_iff, !String.eqb_neq.
  intros [[[Hi Hd] Hni] Hnd]. repeat split; auto using truthy_nonempty.
Qed.

(** What holds of every entry of a metric dictionary. *)
Lemma add_row_keeps (Q : string * string -> Prop) (metrics : dict string)
    (row : cell scalar * cell scalar) :
  (forall i d, keep_row (PyStr.strip i) (PyStr.strip d) = true ->
               Q (PyStr.strip i, PyStr.strip d)) ->
  NoDup (map fst metrics) /\ Forall Q metrics ->
  NoDup (map fst (add_row metrics row)) /\ Forall Q (add_row metrics row).
Proof.
  intros HQ [Hnd Hall]. unfold add_row.
  destruct (keep_row (PyStr.strip (str_of_cell (fst row)))
                     (PyStr.strip (str_of_cell (snd row)))) eqn:Hk; [|auto].
  split; [now apply dict_set_keys_NoDup|].
  apply dict_set_Forall; [now apply HQ|assumption].
Qed.

Lemma add_rows_keeps (Q : string * string -> Prop)
    (rows : list (cell scalar * cell scalar)) (metrics : dict string) :
  (forall i d, keep_row (PyStr.strip i) (PyStr.strip d) = true ->
               Q (PyStr.strip i, PyStr.strip d)) ->
  NoDup (map fst metrics) /\ Forall Q metrics ->
  NoDup (map fst (add_rows rows metrics)) /\ Forall Q (add_rows rows metrics).
Proof.
  intros HQ. unfold add_rows. revert metrics.
  induction rows as [|row rest IH]; intros metrics H; simpl; [exact H|].
  apply IH. now apply add_row_keeps.
Qed.

Lemma try_pairs_keeps (Q : string * string -> Prop) (df : DataFrame scalar)
    (todo : list (string * string)) (metrics result : dict string) :
  (forall i d, keep_row (PyStr.strip i) (PyStr.strip d) = true ->
               Q (PyStr.strip i, PyStr.strip d)) ->
  NoDup (map fst metrics) /\ Forall Q metrics ->
  try_pairs df todo metrics = Ok result ->
  NoDup (map fst result) /\ Forall Q result.
Proof.
  intros HQ. revert metrics.
  induction todo as [|[id_col desc_col] rest IH]; intros metrics Hm H; simpl in H.
  - now inv H.
  - destruct (pair_series df id_col desc_col) as [[i d]|e]; [|discriminate].
    simpl in H.
    destruct (count_true (combined_non_null i d) =? 0); [now apply (IH metrics)|].
    pose proof (add_rows_keeps Q (masked_rows i d) metrics HQ Hm) as Hm'.
    destruct (dict_truthy (add_rows (masked_rows i d) metrics));
      [now inv H|now apply (IH _ Hm')].
Qed.

(** X5.  In the mapping that [_extract_metrics] returns the keys are
    pairwise distinct, and every identifier and description is a trimmed,
    non-empty text other than "nan" in any letter case: it does not lower
    to nan, that is, it is none of the eight spellings. *)
Theorem metric_entries_well_formed
    (df : DataFrame scalar) (ids descs : list string) (metrics : dict string) :
  _extract_metrics df ids descs = Ok metrics ->
  NoDup (map fst metrics)
  /\ Forall (fun kv =>
               PyStr.trimmed (fst kv) /\ PyStr.trimmed (snd kv)
               /\ fst kv <> "" /\ snd kv <> ""
               /\ PyStr.lower (fst kv) <> "nan" /\ PyStr.lower (snd kv) <> "nan")
            metrics
  /\ Forall (fun kv => ~ In (fst kv) nan_spellings /\ ~ In (snd kv) nan_spellings)
            metrics.
Proof.
  unfold _extract_metrics. intros H.
  assert (Hall : NoDup (map fst metrics)
                 /\ Forall (fun kv =>
                       PyStr.trimmed (fst kv) /\ PyStr.trimmed (snd kv)
                       /\ fst kv <> "" /\ snd kv <> ""
                       /\ PyStr.lower (fst kv) <> "nan"
                       /\ PyStr.lower (snd kv) <> "nan") metrics).
  { eapply try_pairs_keeps; [| |exact H].
    - intros i d Hk. simpl. apply keep_row_true in Hk.
      split; [apply strip_trimmed|]. split; [apply strip_trimmed|]. exact Hk.
    - split; constructor. }
  destruct Hall as [Hnd Hall]. split; [exact Hnd|]. split; [exact Hall|].
  eapply Forall_impl; [|exact Hall]. intros kv [_ [_ [_ [_ [Hi Hd]]]]].
  rewrite <- !lower_nan. auto.
Qed.

Lemma add_row_get (k : string) (metrics : dict string)
    (row : cell scalar * cell scalar) :
  dict_get k (add_row metrics row)
  = if keep_row (PyStr.strip (str_of_cell (fst row)))
                (PyStr.strip (str_of_cell (snd row)))
       && String.eqb (PyStr.strip (str_of_cell (fst row))) k
    then Some (PyStr.strip (str_of_cell (snd row)))
    else dict_get k metrics.
Proof.
  unfold add_row.
  destruct (keep_row _ _); simpl; [|reflexivity].
  destruct (String.eqb_spec (PyStr.strip (str_of_cell (fst row))) k) as [->|Hne].
  - apply dict_get_set_same.
  - apply dict_get_set_other. congruence.
Qed.

(** X6.  Within one candidate pair a later row overwrites an earlier row
    with the same identifier: looking a key up after the rows were written
    gives the description of the last kept row with that identifier, and
    what the dictionary held before when there is no such row. *)
Theorem last_row_wins
    (rows : list (cell scalar * cell scalar)) (metrics : dict string) (k : string) :
  dict_get k (add_rows rows metrics)
  = last_description k rows (dict_get k metrics).
Proof.
  unfold add_rows. revert metrics.
  induction rows as [|row rest IH]; intros metrics; simpl; [reflexivity|].
  rewrite IH, add_row_get.
  destruct (keep_row _ _ && String.eqb _ k); reflexivity.
Qed.

Lemma pair_series_ok (df : DataFrame scalar) (id_col desc_col : string) :
  is_series df id_col = true -> is_series df desc_col = true ->
  exists a b, getitem df id_col = OneSeries a
              /\ getitem df desc_col = OneSeries b
              /\ pair_series df id_col desc_col = Ok (astype_str a, astype_str b).
Proof.
  unfold is_series, pair_series.
  destruct (getitem df id_col) as [a| |]; try discriminate.
  destruct (getitem df desc_col) as [b| |]; try discriminate.
  intros _ _. exists a, b. auto.
Qed.

Lemma try_pairs_total (df : DataFrame scalar) (todo : list (string * string))
    (metrics : dict string) :
  Forall (fun c => is_series df (fst c) = true /\ is_series df (snd c) = true) todo ->
  exists result, try_pairs df todo metrics = Ok result.
Proof.
  intros H. revert metrics.
  induction H as [|[id_col desc_col] rest [Hi Hd] _ IH]; intros metrics; simpl.
  - eauto.
  - simpl in Hi, Hd.
    destruct (pair_series_ok df id_col desc_col Hi Hd) as [a [b [_ [_ Hp]]]].
    rewrite Hp. simpl.
    destruct (count_true (combined_non_null (astype_str a) (astype_str b)) =? 0);
      [apply IH|].
    destruct (dict_truthy _); [eauto|apply IH].
Qed.

Lemma try_pairs_rowless (df : DataFrame scalar) (todo : list (string * string))
    (metrics : dict string) :
  wf_df df -> index_len df = 0 ->
  Forall (fun c => is_series df (fst c) = true /\ is_series df (snd c) = true) todo ->
  try_pairs df todo metrics = Ok metrics.
Proof.
  intros Hwf Hz H.
  induction H as [|[id_col desc_col] rest [Hi Hd] _ IH]; simpl; [reflexivity|].
  simpl in Hi, Hd.
  destruct (pair_series_ok df id_col desc_col Hi Hd) as [a [b [Ha [Hb Hp]]]].
  rewrite Hp. simpl.
  pose proof (wf_length _ _ _ Hwf Ha) as La. rewrite Hz in La.
  apply length_zero_iff_nil in La.
  unfold combined_non_null. simpl. rewrite La. simpl. exact IH.
Qed.

Lemma candidates_are_series (df : DataFrame scalar) (ids descs : list string) :
  NoDup (columns df) -> incl ids (columns df) -> incl descs (columns df) ->
  Forall (fun c => is_series df (fst c) = true /\ is_series df (snd c) = true)
         (columns_to_try df ids descs).
Proof.
  intros Hnd Hi Hd. apply all_series_NoDup in Hnd. rewrite forallb_forall in Hnd.
  unfold columns_to_try. apply Forall_app. split.
  - destruct (2 <=? List.length (columns df)) eqn:Hlen; [|constructor].
    apply Nat.leb_le in Hlen. constructor; [|constructor]. simpl.
    split; apply Hnd, nth_In; lia.
  - apply Forall_forall. intros [a b] Hin. apply in_flat_map in Hin.
    destruct Hin as [i [Hi' Hin]]. apply in_map_iff in Hin.
    destruct Hin as [d [Heq Hd']]. inv Heq. simpl. split; apply Hnd; auto.
Qed.

(** X7.  When the labels of the table are distinct and the candidate
    columns are columns of the table, [_extract_metrics] does not raise;
    for a table without rows every candidate is skipped and the mapping is
    empty. *)
Theorem extract_metrics_returns
    (df : DataFrame scalar) (ids descs : list string) :
  NoDup (columns df) ->
  incl ids (columns df) ->
  incl descs (columns df) ->
  (exists metrics, _extract_metrics df ids descs = Ok metrics)
  /\ (wf_df df -> index_len df = 0 -> _extract_metrics df ids descs = Ok []).
Proof.
  intros Hnd Hi Hd.
  pose proof (candidates_are_series df ids descs Hnd Hi Hd) as Hall.
  unfold _extract_metrics. split.
  - now apply try_pairs_total.
  - intros Hwf Hz. now apply try_pairs_rowless.
Qed.

End MetricExtras.

(* ------------------------------------------------------------------ *)
(** ** Missing cells in the metric mapping *)

Section MissingCells.
Context {P : Pandas}.

Lemma add_rows_snoc (rows : list (cell scalar * cell scalar))
    (row : cell scalar * cell scalar) (metrics : dict string) :
  add_rows (rows ++ [row]) metrics = add_row (add_rows rows metrics) row.
Proof. unfold add_rows. now rewrite fold_left_app. Qed.

(** The keys after the rows of a pair were written. *)
Lemma add_rows_keys (rows : list (cell scalar * cell scalar))
    (metrics : dict string) (k : string) :
  (exists v, dict_get k (add_rows rows metrics) = Some v)
  <-> (exists v, dict_get k metrics = Some v)
      \/ exists row, In row rows
           /\ keep_row (PyStr.strip (str_of_cell (fst row)))
                       (PyStr.strip (str_of_cell (snd row))) = true
           /\ PyStr.strip (str_of_cell (fst row)) = k.
Proof.
  induction rows as [|row rest IH] using rev_ind.
  - simpl. split; [auto|]. intros [H|[row [[] _]]]. exact H.
  - rewrite add_rows_snoc, add_row_get.
    destruct (keep_row (PyStr.strip (str_of_cell (fst row)))
                       (PyStr.strip (str_of_cell (snd row)))) eqn:Hk; simpl.
    + destruct (String.eqb_spec (PyStr.strip (str_of_cell (fst row))) k) as [He|Hne].
      * split; [|eauto]. intros _. right. exists row.
        rewrite in_app_iff. simpl. auto.
      * rewrite IH. split.
        -- intros [H|[r [Hin Hr]]]; [now left|]. right. exists r.
           rewrite in_app_iff. tauto.
        -- intros [H|[r [Hin [Hr He]]]]; [now left|].
           apply in_app_iff in Hin. destruct Hin as [Hin|[<-|[]]].
           ++ right. eauto.
           ++ contradiction.
    + rewrite IH. split.
      * intros [H|[r [Hin Hr]]]; [now left|]. right. exists r.
        rewrite in_app_iff. tauto.
      * intros [H|[r [Hin [Hr He]]]]; [now left|].
        apply in_app_iff in Hin. destruct Hin as [Hin|[<-|[]]].
        -- right. eauto.
        -- congruence.
Qed.

(** C10, as amended.  Once the two columns of a candidate pair are text,
    every row counts as non-null, whatever its cells were.  For a table
    with at least one row the overlap count is the row count, so the pair
    is not skipped and all its rows are zipped and written one after the
    other.  A row is left out exactly when its trimmed identifier or its
    trimmed description is empty or spells nan in some letter case.  A
    missing number reads "nan" and is left out by that test; a missing
    timestamp reads "NaT", passes the test and is written. *)
Theorem text_pair_never_skipped
    (df : DataFrame scalar) (id_col desc_col : string)
    (id_series desc_series : Series scalar) :
  wf_df df ->
  0 < index_len df ->
  pair_series df id_col desc_col = Ok (id_series, desc_series) ->
  (forall c, In c (values id_series) \/ In c (values desc_series) ->
             notnull c = true)
  /\ count_true (combined_non_null id_series desc_series) = index_len df
  /\ masked_rows id_series desc_series
     = combine (values id_series) (values desc_series)
  /\ (forall rest metrics,
        try_pairs df ((id_col, desc_col) :: rest) metrics
        = let metrics' :=
            add_rows (combine (values id_series) (values desc_series)) metrics in
          if dict_truthy metrics' then Ok metrics' else try_pairs df rest metrics')
  /\ (forall metrics k,
        (exists v,
           dict_get k (add_rows (combine (values id_series) (values desc_series))
                                metrics) = Some v)
        <-> (exists v, dict_get k metrics = Some v)
            \/ exists row,
                 In row (combine (values id_series) (values desc_series))
                 /\ keep_row (PyStr.strip (str_of_cell (fst row)))
                             (PyStr.strip (str_of_cell (snd row))) = true
                 /\ PyStr.strip (str_of_cell (fst row)) = k)
  /\ (forall rows row metrics k,
        dict_get k (add_rows (rows ++ [row]) metrics)
        = if keep_row (PyStr.strip (str_of_cell (fst row)))
                      (PyStr.strip (str_of_cell (snd row)))
             && String.eqb (PyStr.strip (str_of_cell (fst row))) k
          then Some (PyStr.strip (str_of_cell (snd row)))
          else dict_get k (add_rows rows metrics))
  /\ (forall i d,
        keep_row i d = true
        <-> i <> "" /\ d <> "" /\ ~ In i nan_spellings /\ ~ In d nan_spellings)
  /\ (forall (s : Series scalar) n,
        (nth_error (values s) n = Some NaN ->
         nth_error (values (astype_str s)) n = Some (Text "nan"))
        /\ (nth_error (values s) n = Some NaT ->
            nth_error (values (astype_str s)) n = Some (Text "NaT")))
  /\ (forall metrics c w,
        In w nan_spellings ->
        add_row metrics (Text w, c) = metrics
        /\ add_row metrics (c, Text w) = metrics)
  /\ (forall metrics d,
        PyStr.strip d <> "" -> ~ In (PyStr.strip d) nan_spellings ->
        dict_get "NaT" (add_row metrics (Text (str_of_cell NaT), Text d))
        = Some (PyStr.strip d)).
Proof.
  intros Hwf Hpos Hpair.
  unfold pair_series in Hpair.
  destruct (getitem df id_col) as [a| |] eqn:Ha; try discriminate;
    destruct (getitem df desc_col) as [b| |] eqn:Hb; try discriminate.
  inv Hpair.
  pose proof (wf_length _ _ _ Hwf Ha) as La.
  pose proof (wf_length _ _ _ Hwf Hb) as Lb.
  assert (Hmask : combined_non_null (astype_str a) (astype_str b)
                  = repeat true (index_len df)).
  { unfold combined_non_null. rewrite !notnull_astype, La, Lb. apply mask_and_true. }
  assert (Hrows : masked_rows (astype_str a) (astype_str b)
                  = combine (values (astype_str a)) (values (astype_str b))).
  { unfold masked_rows. rewrite Hmask.
    assert (Ha' : List.length (values (astype_str a)) = index_len df)
      by (simpl; now rewrite length_map).
    assert (Hb' : List.length (values (astype_str b)) = index_len df)
      by (simpl; now rewrite length_map).
    rewrite <- Ha' at 1. rewrite select_all.
    rewrite <- Hb'. now rewrite select_all. }
  split.
  { intros c [Hc|Hc]; simpl in Hc; apply in_map_iff in Hc;
      destruct Hc as [x [<- _]]; reflexivity. }
  split; [rewrite Hmask; apply count_true_repeat|].
  split; [exact Hrows|].
  split.
  { intros rest metrics. simpl. unfold pair_series. rewrite Ha, Hb. simpl.
    rewrite Hmask, count_true_repeat.
    destruct (index_len df =? 0) eqn:Hz; [apply Nat.eqb_eq in Hz; lia|].
    rewrite Hrows. reflexivity. }
  split; [intros metrics k; apply add_rows_keys|].
  split.
  { intros rows row metrics k. rewrite add_rows_snoc. apply add_row_get. }
  split; [exact keep_row_spec|].
  split.
  { intros s n. unfold astype_str. simpl. rewrite nth_error_map.
    split; intros ->; reflexivity. }
  split.
  { intros metrics c w Hw. unfold add_row. cbn [fst snd str_of_cell].
    rewrite (nan_spelling_strip w Hw).
    split.
    - destruct (keep_row w (PyStr.strip (str_of_cell c))) eqn:Hk; [|reflexivity].
      apply keep_row_spec in Hk. tauto.
    - destruct (keep_row (PyStr.strip (str_of_cell c)) w) eqn:Hk; [|reflexivity].
      apply keep_row_spec in Hk. tauto. }
  intros metrics d Hd Hn. rewrite add_row_get. cbn [fst snd str_of_cell].
  change (PyStr.strip "NaT") with "NaT".
  assert (Hk : keep_row "NaT" (PyStr.strip d) = true).
  { apply keep_row_spec. repeat split; auto; try discriminate.
    unfold nan_spellings. simpl. intuition discriminate. }
  now rewrite Hk.
Qed.

End MissingCells.

Lemma text_pair_never_skipped_witness :
  wf_df gaps_df
  /\ 0 < index_len gaps_df
  /\ pair_series gaps_df "Code" "Due"
     = Ok (texts ["R001"; "nan"; " NAN "; "R004"],
           texts ["NaT"; "NaT"; "NaT"; "NaT"])
  /\ count_true (combined_non_null
                   (texts ["R001"; "nan"; " NAN "; "R004"])
                   (texts ["NaT"; "NaT"; "NaT"; "NaT"])) = 4
  /\ try_pairs gaps_df [("Code", "Due")] []
     = Ok [("R001", "NaT"); ("R004", "NaT")].
Proof.
  assert (Hwf : wf_df gaps_df) by (repeat constructor).
  assert (Hpos : 0 < index_len gaps_df) by (simpl; lia).
  split; [exact Hwf|]. split; [exact Hpos|]. split; [reflexivity|].
  destruct (text_pair_never_skipped (P := toy) gaps_df "Code" "Due"
              (texts ["R001"; "nan"; " NAN "; "R004"])
              (texts ["NaT"; "NaT"; "NaT"; "NaT"]) Hwf Hpos eq_refl)
    as [_ [Hcount [_ [Htry _]]]].
  split; [exact Hcount|].
  rewrite Htry. reflexivity.
Defined.

(** A missing timestamp is not left out of the mapping: it reads "NaT",
    not "nan", and is written, as an identifier and as a description. *)
Lemma missing_timestamp_enters_mapping :
  isnull (P := toy) NaT = true
  /\ values (astype_str (P := toy) (mkSeries datetime64 [NaT])) = [Text "NaT"]
  /\ _extract_metrics gaps_df [] [] = Ok [("R001", "NaT"); ("R004", "NaT")]
  /\ (exists info,
        _extract_sheet_metadata seed_a dates_df "Dates"
        = Ok (info, [("NaT", "NaT")]))
  /\ ~ (forall (c c' : cell Z) (metrics : dict string),
          isnull c = true ->
          add_row metrics (Text (str_of_cell c), c') = metrics
          /\ add_row metrics (c', Text (str_of_cell c)) = metrics).
Proof.
  split; [reflexivity|]. split; [reflexivity|]. split; [reflexivity|].
  split; [eexists; reflexivity|].
  intros H. destruct (H NaT (Text "Tax") [] eq_refl) as [H1 _].
  discriminate H1.
Qed.

Lemma metric_entries_well_formed_witness :
  _extract_metrics (sanitize padded_raw) [] []
  = Ok [("R001", "Revenue"); ("R002", "Cost")]
  /\ NoDup (map fst [("R001", "Revenue"); ("R002", "Cost")])
  /\ Forall (fun kv =>
               PyStr.trimmed (fst kv) /\ PyStr.trimmed (snd kv)
               /\ fst kv <> "" /\ snd kv <> ""
               /\ PyStr.lower (fst kv) <> "nan" /\ PyStr.lower (snd kv) <> "nan")
            [("R001", "Revenue"); ("R002", "Cost")]
  /\ Forall (fun kv => ~ In (fst kv) nan_spellings /\ ~ In (snd kv) nan_spellings)
            [("R001", "Revenue"); ("R002", "Cost")].
Proof.
  split; [reflexivity|].
  apply (metric_entries_well_formed (P := toy) (sanitize (P := toy) padded_raw) [] []).
  reflexivity.
Defined.

(** Whitespace that is not ASCII is trimmed from the cells too, and a
    capital spelling of nan leaves the row out. *)
Example padded_codes_trimmed :
  PyStr.strip (nbsp ++ "R001") = "R001"
  /\ PyStr.strip ("Cost " ++ nbsp) = "Cost"
  /\ add_row (P := toy) [] (Text (nbsp ++ "R001"), Text "Revenue")
     = [("R001", "Revenue")]
  /\ add_row (P := toy) [("R001", "Revenue")] (Text " NaN", Text "Cost")
     = [("R001", "Revenue")].
Proof. repeat split. Qed.

Lemma extract_metrics_returns_witness :
  NoDup (columns headers_only_df)
  /\ incl ["Code"] (columns headers_only_df)
  /\ incl ["Amount"] (columns headers_only_df)
  /\ _extract_metrics headers_only_df ["Code"] ["Amount"] = Ok [].
Proof.
  assert (Hnd : NoDup (columns headers_only_df)).
  { simpl. repeat constructor; simpl; intuition discriminate. }
  assert (Hi : incl ["Code"] (columns headers_only_df))
    by (intros x [<-|[]]; simpl; auto).
  assert (Hd : incl ["Amount"] (columns headers_only_df))
    by (intros x [<-|[]]; simpl; auto).
  split; [exact Hnd|]. split; [exact Hi|]. split; [exact Hd|].
  apply (proj2 (extract_metrics_returns (P := toy) headers_only_df
                  ["Code"] ["Amount"] Hnd Hi Hd)).
  - repeat constructor.
  - reflexivity.
Defined.

(** Two rows with the same code: the later description is the one kept. *)
Example later_row_overwrites :
  add_rows (P := toy)
    [ (Text "R001", Text "Revenue"); (Text "R002", Text "Cost");
      (Text " R001 ", Text "Net revenue") ] []
  = [("R001", "Net revenue"); ("R002", "Cost")].
Proof. reflexivity. Qed.

Section DateExtras.
Context {P : Pandas}.

Lemma first_format_known (parses : string -> bool) (fmt : string) :
  first_format parses = Some fmt -> In fmt known_formats /\ parses fmt = true.
Proof. unfold first_format. apply find_some. Qed.

Lemma record_match_bounds (col : string) (m : option string)
    (st : list string * list string) :
  (forall fmt, m = Some fmt -> In fmt known_formats) ->
  (forall c, In c (fst (record_match col m st)) -> c = col \/ In c (fst st))
  /\ (forall f, In f (snd (record_match col m st)) ->
                In f known_formats \/ In f (snd st))
  /\ (forall f, In f (snd st) -> In f (snd (record_match col m st))).
Proof.
  intros Hm. destruct m as [fmt|]; unfold record_match; cbn [fst snd]; [|auto].
  split; [|split].
  - intros c Hc. apply in_app_or in Hc. destruct Hc as [Hc|[<-|[]]]; auto.
  - intros f Hf. apply pyset_add_In in Hf. destruct Hf as [->|Hf]; [|now right].
    left. now apply Hm.
  - intros f Hf. apply pyset_add_In. now right.
Qed.

Lemma date_step_bounds (df : DataFrame scalar) (col : string)
    (st st' : list string * list string) :
  date_step df col st = Ok st' ->
  (forall c, In c (fst st') -> c = col \/ In c (fst st))
  /\ (forall f, In f (snd st') -> In f known_formats \/ In f (snd st))
  /\ (forall f, In f (snd st) -> In f (snd st')).
Proof.
  unfold date_step. intros H.
  set (m1 := first_format (fun fmt => strptime_ok fmt col)) in *.
  assert (Hm1 : forall fmt, m1 = Some fmt -> In fmt known_formats)
    by (intros fmt Hf; now apply first_format_known in Hf).
  destruct (record_match_bounds col m1 st Hm1) as [A1 [B1 C1]].
  destruct (PyStr.mem (PyStr.lower col) ["date"; "year"; "month"]).
  - inv H. simpl. repeat split; auto.
    intros c Hc. apply in_app_or in Hc. destruct Hc as [Hc|[<-|[]]]; auto.
  - destruct (getitem df col) as [s|l|]; [| |discriminate]; inv H.
    + set (m2 := first_format (fun fmt => forallb (strptime_ok fmt) (sample_data s))).
      assert (Hm2 : forall fmt, m2 = Some fmt -> In fmt known_formats)
        by (intros fmt Hf; now apply first_format_known in Hf).
      destruct (record_match_bounds col m2 (record_match col m1 st) Hm2)
        as [A2 [B2 C2]].
      repeat split.
      * intros c Hc. apply A2 in Hc. destruct Hc as [Hc|Hc]; auto.
      * intros f Hf. apply B2 in Hf. destruct Hf as [Hf|Hf]; auto.
      * intros f Hf. auto.
    + repeat split; auto.
Qed.

Lemma date_loop_bounds (df : DataFrame scalar) (todo : list string)
    (st st' : list string * list string) :
  date_loop df todo st = Ok st' ->
  (forall c, In c (fst st') -> In c todo \/ In c (fst st))
  /\ (forall f, In f (snd st') -> In f known_formats \/ In f (snd st))
  /\ (forall f, In f (snd st) -> In f (snd st')).
Proof.
  revert st. induction todo as [|col rest IH]; intros st H; simpl in H.
  - inv H. auto.
  - destruct (date_step df col st) as [st1|] eqn:Hstep; [|discriminate].
    simpl in H. destruct (date_step_bounds _ _ _ _ Hstep) as [A1 [B1 C1]].
    destruct (IH _ H) as [A2 [B2 C2]]. repeat split.
    + intros c Hc. apply A2 in Hc. destruct Hc as [Hc|Hc]; [left; now right|].
      apply A1 in Hc. destruct Hc as [->|Hc]; [left; now left|auto].
    + intros f Hf. apply B2 in Hf. destruct Hf as [Hf|Hf]; auto.
    + auto.
Qed.

(** X8.  Every date column that [_detect_date_columns] returns is a column
    of the table, and every date format it returns is one of the known
    formats, listed once. *)
Theorem detected_dates_are_bounded
    (seed : HashSeed) (df : DataFrame scalar)
    (date_columns date_formats : list string) :
  _detect_date_columns seed df = Ok (date_columns, date_formats) ->
  incl date_columns (columns df)
  /\ incl date_formats known_formats
  /\ NoDup date_formats.
Proof.
  unfold _detect_date_columns. intros H.
  destruct (date_loop df (columns df) ([], [])) as [[marks formats]|] eqn:Hrun;
    [|discriminate].
  simpl in H. inv H.
  destruct (date_loop_bounds _ _ _ _ Hrun) as [A [B _]]. cbn [fst snd] in A, B.
  destruct (date_loop_facts df (columns df) ([], []) (fun c Hc => Hc))
    as [st' [Hrun' [_ [Hnd _]]]].
  rewrite Hrun in Hrun'. inv Hrun'. cbn [fst snd] in Hnd.
  specialize (Hnd (NoDup_nil _)).
  split; [|split].
  - intros c Hc. rewrite set_iter_In in Hc by apply pyset_of_list_NoDup.
    rewrite pyset_of_list_In in Hc. apply A in Hc. destruct Hc as [Hc|[]]. exact Hc.
  - intros f Hf. rewrite set_iter_In in Hf by exact Hnd.
    apply B in Hf. destruct Hf as [Hf|[]]. exact Hf.
  - now apply set_iter_NoDup.
Qed.

Lemma date_step_blank (df : DataFrame scalar) (col : string) (s : Series scalar)
    (st : list string * list string) :
  getitem df col = OneSeries s ->
  dropna (values s) = [] ->
  PyStr.mem (PyStr.lower col) ["date"; "year"; "month"] = false ->
  exists st', date_step df col st = Ok st'
              /\ In col (fst st') /\ In "%d/%m/%Y" (snd st').
Proof.
  intros Hsel Hblank Hname. unfold date_step. rewrite Hname, Hsel.
  unfold sample_data. rewrite Hblank. simpl.
  eexists. split; [reflexivity|]. simpl. split.
  - apply in_or_app. right. left. reflexivity.
  - apply pyset_add_In. now left.
Qed.

Lemma date_loop_blank (df : DataFrame scalar) (todo : list string)
    (col : string) (s : Series scalar) (st : list string * list string) :
  (forall c, In c todo -> In c (columns df)) ->
  getitem df col = OneSeries s ->
  dropna (values s) = [] ->
  PyStr.mem (PyStr.lower col) ["date"; "year"; "month"] = false ->
  (In col todo \/ (In col (fst st) /\ In "%d/%m/%Y" (snd st))) ->
  exists st', date_loop df todo st = Ok st'
              /\ In col (fst st') /\ In "%d/%m/%Y" (snd st').
Proof.
  intros Hsub Hsel Hblank Hname. revert st Hsub.
  induction todo as [|c rest IH]; intros st Hsub Hin; simpl.
  - destruct Hin as [[]|Hin]. eauto.
  - destruct (date_loop_facts df [c] st) as [st1 [Hrun1 [Hkeep _]]].
    { intros x [<-|[]]. apply Hsub. now left. }
    simpl in Hrun1. destruct (date_step df c st) as [st1'|] eqn:Hstep; [|discriminate].
    simpl in Hrun1. inv Hrun1. simpl.
    destruct (date_step_bounds _ _ _ _ Hstep) as [_ [_ Hfm]].
    apply IH; [intros x Hx; apply Hsub; now right|].
    destruct Hin as [[->|Hin]|[Hm Hf]].
    + right. destruct (date_step_blank df col s st Hsel Hblank Hname)
        as [st2 [Hst2 [Hm Hf]]].
      rewrite Hstep in Hst2. inv Hst2. auto.
    + now left.
    + right. auto.
Qed.

(** X9.  A column that has no present cell, carries its label alone and is
    not named date, year or month is reported as a date column, and the
    first known format is reported with it: the sample of its values is
    empty and parses under every format. *)
Theorem blank_column_is_a_date_column
    (seed : HashSeed) (df : DataFrame scalar) (col : string) (s : Series scalar) :
  getitem df col = OneSeries s ->
  dropna (values s) = [] ->
  PyStr.mem (PyStr.lower col) ["date"; "year"; "month"] = false ->
  exists date_columns date_formats,
    _detect_date_columns seed df = Ok (date_columns, date_formats)
    /\ In col date_columns
    /\ In "%d/%m/%Y" date_formats.
Proof.
  intros Hsel Hblank Hname.
  assert (Hcol : In col (columns df)).
  { apply getitem_one_In in Hsel. unfold columns.
    apply in_map_iff. exists (col, s). auto. }
  destruct (date_loop_blank df (columns df) col s ([], []) (fun c Hc => Hc)
              Hsel Hblank Hname (or_introl Hcol)) as [[marks formats] [Hrun [Hm Hf]]].
  destruct (date_loop_facts df (columns df) ([], []) (fun c Hc => Hc))
    as [st' [Hrun' [_ [Hnd _]]]].
  rewrite Hrun in Hrun'. inv Hrun'. simpl in Hnd, Hm, Hf.
  specialize (Hnd (NoDup_nil _)).
  unfold _detect_date_columns. rewrite Hrun. simpl.
  do 2 eexists. split; [reflexivity|]. split.
  - apply set_iter_In; [apply pyset_of_list_NoDup|]. now apply pyset_of_list_In.
  - now apply set_iter_In.
Qed.

End DateExtras.

Lemma detected_dates_are_bounded_witness :
  _detect_date_columns seed_b jan_df = Ok (["Jan-24"], ["%Y-%m-%d"; "%b-%y"])
  /\ incl ["Jan-24"] (columns jan_df)
  /\ incl ["%Y-%m-%d"; "%b-%y"] known_formats.
Proof.
  split; [reflexivity|].
  destruct (detected_dates_are_bounded (P := toy) seed_b jan_df
              ["Jan-24"] ["%Y-%m-%d"; "%b-%y"] eq_refl) as [H1 [H2 _]].
  split; assumption.
Defined.

Lemma blank_column_is_a_date_column_witness :
  getitem blank_column_df "Spare" = OneSeries (mkSeries float64 [NaN; NaN])
  /\ exists date_columns date_formats,
       _detect_date_columns seed_a blank_column_df = Ok (date_columns, date_formats)
       /\ In "Spare" date_columns
       /\ In "%d/%m/%Y" date_formats.
Proof.
  split; [reflexivity|].
  apply (blank_column_is_a_date_column (P := toy) seed_a blank_column_df "Spare"
           (mkSeries float64 [NaN; NaN])); reflexivity.
Defined.

Lemma dict_set_fresh {V : Type} (k : string) (v : V) (d : dict V) :
  ~ In k (map fst d) -> dict_set k v d = d ++ [(k, v)].
Proof.
  induction d as [|[k' v'] t IH]; simpl; intros H; [reflexivity|].
  destruct (String.eqb_spec k' k) as [->|Hne]; [exfalso; auto|].
  rewrite IH by tauto. reflexivity.
Qed.

Section TypeExtras.
Context {P : Pandas}.

Lemma setitem_columns (df : DataFrame scalar) (col : string) (s : Series scalar) :
  columns (setitem df col s) = columns df.
Proof.
  unfold columns, setitem. simpl. rewrite map_map. apply map_ext.
  intros [k v]. simpl. destruct (String.eqb k col); reflexivity.
Qed.

Lemma getitem_setitem_other (df : DataFrame scalar) (col c : string)
    (s : Series scalar) :
  c <> col -> getitem (setitem df col s) c = getitem df c.
Proof.
  intros Hne. unfold getitem, setitem. simpl.
  assert (Hf : filter (fun x => String.eqb (fst x) c)
                 (map (fun x => if String.eqb (fst x) col then (fst x, s) else x) (cols df))
               = filter (fun x => String.eqb (fst x) c) (cols df)).
  { induction (cols df) as [|[k v] t IH]; simpl; [reflexivity|].
    destruct (String.eqb_spec k col) as [->|Hk]; simpl.
    - assert (Hc : String.eqb col c = false)
        by (apply String.eqb_neq; congruence).
      rewrite Hc. exact IH.
    - destruct (String.eqb k c); [now rewrite IH|exact IH]. }
  now rewrite Hf.
Qed.

Lemma getitem_setitem_same (df : DataFrame scalar) (col : string)
    (s0 s : Series scalar) :
  getitem df col = OneSeries s0 -> getitem (setitem df col s) col = OneSeries s.
Proof.
  unfold getitem, setitem. simpl.
  assert (Hf : filter (fun x => String.eqb (fst x) col)
                 (map (fun x => if String.eqb (fst x) col then (fst x, s) else x) (cols df))
               = map (fun x => (fst x, s))
                     (filter (fun x => String.eqb (fst x) col) (cols df))).
  { induction (cols df) as [|[k v] t IH]; simpl; [reflexivity|].
    destruct (String.eqb k col) eqn:Hk; simpl; rewrite Hk; [now rewrite IH|exact IH]. }
  rewrite Hf.
  destruct (filter (fun x => String.eqb (fst x) col) (cols df)) as [|a [|b t]];
    simpl; intros H; try discriminate. reflexivity.
Qed.

Lemma inferred_type_ext (df df1 : DataFrame scalar) (dates : list string) (c : string) :
  getitem df1 c = getitem df c -> inferred_type df1 dates c = inferred_type df dates c.
Proof. intros H. unfold inferred_type. now rewrite H. Qed.

(** One iteration of the loop of [_infer_data_types]. *)
Lemma infer_loop_step (df df' : DataFrame scalar) (dates rest : list string)
    (col : string) (types types' : dict string) :
  infer_loop df dates (col :: rest) types = Ok (df', types') ->
  exists df1,
    infer_loop df1 dates rest (dict_set col (inferred_type df dates col) types)
    = Ok (df', types')
    /\ columns df1 = columns df
    /\ index_len df1 = index_len df
    /\ (forall c, c <> col -> getitem df1 c = getitem df c)
    /\ (PyStr.mem col dates = false -> getitem df1 col = getitem df col)
    /\ (forall s s', PyStr.mem col dates = true ->
                     getitem df col = OneSeries s ->
                     to_datetime_coerce s = Some s' ->
                     getitem df1 col = OneSeries s').
Proof.
  simpl. unfold inferred_type.
  destruct (PyStr.mem col dates) eqn:Hd.
  - destruct (getitem df col) as [s|l|] eqn:Hsel.
    + destruct (to_datetime_coerce s) as [s'|] eqn:Hco; intros H.
      * exists (setitem df col s'). split; [exact H|].
        split; [apply setitem_columns|]. split; [reflexivity|].
        split; [intros c Hc; now apply getitem_setitem_other|].
        split; [discriminate|].
        intros s1 s1' _ Hs1 Hs1'. inv Hs1. rewrite Hco in Hs1'. inv Hs1'.
        eapply getitem_setitem_same; eassumption.
      * exists df. split; [exact H|]. repeat split; auto.
        intros s1 s1' _ Hs1 Hs1'. inv Hs1. congruence.
    + intros H. exists df. split; [exact H|]. repeat split; auto. discriminate.
    + intros H. exists df. split; [exact H|]. repeat split; auto. discriminate.
  - destruct (getitem df col) as [s|l|] eqn:Hsel; intros H; try discriminate;
      exists df; (split; [exact H|]); repeat split; auto; discriminate.
Qed.

Lemma infer_loop_spec (dates todo : list string) :
  NoDup todo ->
  forall (df df' : DataFrame scalar) (types types' : dict string),
    infer_loop df dates todo types = Ok (df', types') ->
    columns df' = columns df
    /\ index_len df' = index_len df
    /\ (forall c, ~ In c todo ->
          getitem df' c = getitem df c /\ dict_get c types' = dict_get c types)
    /\ (forall c, In c todo ->
          dict_get c types' = Some (inferred_type df dates c)
          /\ (PyStr.mem c dates = false -> getitem df' c = getitem df c)
          /\ (forall s s', PyStr.mem c dates = true ->
                           getitem df c = OneSeries s ->
                           to_datetime_coerce s = Some s' ->
                           getitem df' c = OneSeries s')).
Proof.
  induction 1 as [|col rest Hnotin Hnd IH]; intros df df' types types' H.
  - simpl in H. inv H. repeat split; auto; contradiction.
  - destruct (infer_loop_step _ _ _ _ _ _ _ H)
      as [df1 [Hrest [Hcols [Hlen [Hother [Hkeep Hco]]]]]].
    destruct (IH _ _ _ _ Hrest) as [Hcols' [Hlen' [Hout Hin]]].
    split; [congruence|]. split; [congruence|]. split.
    + intros c Hc. simpl in Hc.
      assert (Hne : c <> col) by (intros ->; apply Hc; now left).
      destruct (Hout c) as [Hg Ht]; [tauto|].
      split; [rewrite Hg; now apply Hother|].
      rewrite Ht. now apply dict_get_set_other.
    + intros c [<-|Hc].
      * destruct (Hout col Hnotin) as [Hg Ht]. split.
        { rewrite Ht. apply dict_get_set_same. }
        split.
        { intros Hd. rewrite Hg. now apply Hkeep. }
        { intros s s' Hd Hs Hs'. rewrite Hg. eapply Hco; eassumption. }
      * assert (Hne : c <> col) by (intros ->; contradiction).
        destruct (Hin c Hc) as [Ht [Hk Hc']].
        pose proof (Hother c Hne) as Hsame. split.
        { rewrite Ht. f_equal. now apply inferred_type_ext. }
        split.
        { intros Hd. rewrite (Hk Hd). exact Hsame. }
        { intros s s' Hd Hs Hs'. apply (Hc' s s' Hd); [|exact Hs'].
          now rewrite Hsame. }
Qed.

Lemma infer_loop_keys (dates todo : list string) :
  NoDup todo ->
  forall (df df' : DataFrame scalar) (types types' : dict string),
    (forall c, In c todo -> ~ In c (map fst types)) ->
    infer_loop df dates todo types = Ok (df', types') ->
    map fst types' = map fst types ++ todo.
Proof.
  induction 1 as [|col rest Hnotin Hnd IH]; intros df df' types types' Hfresh H.
  - simpl in H. inv H. now rewrite app_nil_r.
  - destruct (infer_loop_step _ _ _ _ _ _ _ H) as [df1 [Hrest _]].
    rewrite (dict_set_fresh col) in Hrest by (apply Hfresh; now left).
    apply IH in Hrest.
    + rewrite Hrest, map_app. simpl. now rewrite <- app_assoc.
    + intros c Hc. rewrite map_app, in_app_iff. simpl.
      intros [Hin|[<-|[]]]; [|contradiction].
      apply (Hfresh c); [now right|assumption].
Qed.

(** X10.  [_infer_data_types] changes the table only where it coerces: the
    labels and the row count are kept, a column that is not a date column
    is left as it was, and a date column that is a Series is replaced by
    its coerced series when the coercion returns. *)
Theorem infer_data_types_frame
    (df df' : DataFrame scalar) (date_columns : list string) (types : dict string) :
  NoDup (columns df) ->
  _infer_data_types df date_columns = Ok (df', types) ->
  columns df' = columns df
  /\ index_len df' = index_len df
  /\ (forall c, PyStr.mem c date_columns = false -> getitem df' c = getitem df c)
  /\ (forall c s s', PyStr.mem c date_columns = true ->
                     getitem df c = OneSeries s ->
                     to_datetime_coerce s = Some s' ->
                     getitem df' c = OneSeries s').
Proof.
  intros Hnd H. unfold _infer_data_types in H.
  destruct (infer_loop_spec date_columns (columns df) Hnd _ _ _ _ H)
    as [Hcols [Hlen [Hout Hin]]].
  split; [exact Hcols|]. split; [exact Hlen|]. split.
  - intros c Hd. destruct (in_dec string_dec c (columns df)) as [Hc|Hc].
    + now apply (Hin c Hc).
    + now apply (Hout c Hc).
  - intros c s s' Hd Hs Hs'.
    assert (Hc : In c (columns df)).
    { apply getitem_one_In in Hs. unfold columns. apply in_map_iff.
      exists (c, s). auto. }
    destruct (Hin c Hc) as [_ [_ Hco]]. eapply Hco; eassumption.
Qed.

(** X11.  The type map has one entry per column, in table order, and the
    entry of a column is what the loop body gives that column of the
    original table: "datetime" for a date column whose coercion returns,
    "string" when it raises, and the name of the dtype for any other
    column.  Coercing one column does not change the type given to
    another. *)
Theorem infer_data_types_table
    (df df' : DataFrame scalar) (date_columns : list string) (types : dict string) :
  NoDup (columns df) ->
  _infer_data_types df date_columns = Ok (df', types) ->
  map fst types = columns df
  /\ (forall c, In c (columns df) ->
        dict_get c types = Some (inferred_type df date_columns c))
  /\ Forall (fun kv => In (snd kv) ["datetime"; "integer"; "float"; "boolean"; "string"])
            types.
Proof.
  intros Hnd H. unfold _infer_data_types in H.
  pose proof (infer_loop_keys date_columns (columns df) Hnd df df' [] types
                (fun c _ (F : In c (map fst (@nil (string * string)))) => F) H)
    as Hkeys. simpl in Hkeys.
  destruct (infer_loop_spec date_columns (columns df) Hnd _ _ _ _ H)
    as [_ [_ [_ Hin]]].
  split; [exact Hkeys|]. split; [intros c Hc; now apply (Hin c Hc)|].
  apply Forall_forall. intros [k v] Hkv.
  assert (Hk : In k (columns df)).
  { rewrite <- Hkeys. apply in_map_iff. exists (k, v). auto. }
  assert (Hget : dict_get k types = Some v).
  { clear - Hkv Hkeys Hnd. rewrite <- Hkeys in Hnd. clear Hkeys.
    induction types as [|[k0 v0] t IH]; [destruct Hkv|].
    simpl in Hnd. inv Hnd. simpl. destruct Hkv as [Heq|Hin].
    - inv Heq. now rewrite String.eqb_refl.
    - destruct (String.eqb_spec k0 k) as [->|Hne]; [|now apply IH].
      exfalso. apply H1. apply in_map_iff. exists (k, v). auto. }
  destruct (Hin k Hk) as [Ht _]. rewrite Ht in Hget. inv Hget.
  simpl. unfold inferred_type.
  destruct (PyStr.mem k date_columns).
  - destruct (getitem df k) as [s|l|]; [destruct (to_datetime_coerce s)| |]; auto 6.
  - destruct (getitem df k) as [s|l|]; [destruct (dtype s)| |]; simpl; auto 6.
Qed.

End TypeExtras.

Lemma infer_data_types_frame_witness :
  NoDup (columns blank_column_df)
  /\ _infer_data_types blank_column_df ["Spare"]
     = Ok (mkDF 2 [ ("Code", texts ["R001"; "R002"]);
                    ("Spare", mkSeries datetime64 [NaT; NaT]) ],
           [("Code", "string"); ("Spare", "datetime")])
  /\ getitem (mkDF 2 [ ("Code", texts ["R001"; "R002"]);
                       ("Spare", mkSeries datetime64 [NaT; NaT]) ]) "Code"
     = getitem blank_column_df "Code".
Proof.
  assert (Hnd : NoDup (columns blank_column_df)).
  { simpl. repeat constructor; simpl; intuition discriminate. }
  split; [exact Hnd|]. split; [reflexivity|].
  apply (infer_data_types_frame (P := toy) blank_column_df _ ["Spare"]
           [("Code", "string"); ("Spare", "datetime")] Hnd eq_refl).
  reflexivity.
Defined.

Lemma infer_data_types_table_witness :
  NoDup (columns blank_column_df)
  /\ map fst [("Code", "string"); ("Spare", "datetime")] = columns blank_column_df.
Proof.
  assert (Hnd : NoDup (columns blank_column_df)).
  { simpl. repeat constructor; simpl; intuition discriminate. }
  split; [exact Hnd|].
  apply (infer_data_types_table (P := toy) blank_column_df
           (mkDF 2 [ ("Code", texts ["R001"; "R002"]);
                     ("Spare", mkSeries datetime64 [NaT; NaT]) ])
           ["Spare"] [("Code", "string"); ("Spare", "datetime")] Hnd eq_refl).
Defined.

Section SheetExtras.
Context {P : Pandas}.

Lemma infer_loop_columns (dates todo : list string) :
  forall (df df' : DataFrame scalar) (types types' : dict string),
    infer_loop df dates todo types = Ok (df', types') ->
    columns df' = columns df /\ index_len df' = index_len df.
Proof.
  induction todo as [|col rest IH]; intros df df' types types' H.
  - simpl in H. inv H. auto.
  - destruct (infer_loop_step _ _ _ _ _ _ _ H) as [df1 [Hrest [Hcols [Hlen _]]]].
    destruct (IH _ _ _ _ Hrest) as [Hc Hl]. split; congruence.
Qed.

Lemma infer_loop_total (dates todo : list string) :
  forall (df : DataFrame scalar) (types : dict string),
    (forall c, In c todo -> In c (columns df)) ->
    exists r, infer_loop df dates todo types = Ok r.
Proof.
  induction todo as [|col rest IH]; intros df types Hsub; simpl; [eauto|].
  pose proof (getitem_not_missing df col (Hsub col (or_introl eq_refl))) as Hnm.
  assert (Hrest : forall c, In c rest -> In c (columns df))
    by (intros c Hc; apply Hsub; now right).
  destruct (PyStr.mem col dates).
  - destruct (getitem df col) as [s|l|]; [|now apply IH|contradiction].
    destruct (to_datetime_coerce s); [|now apply IH].
    apply IH. intros c Hc. rewrite setitem_columns. now apply Hrest.
  - destruct (getitem df col) as [s|l|]; [now apply IH|now apply IH|contradiction].
Qed.

Lemma sheet_metadata_cases
    (seed : HashSeed) (df : DataFrame scalar) (sheet_name : string) :
  ((exists r, _extract_sheet_metadata seed df sheet_name = Ok r) <-> NoDup (columns df))
  /\ (_extract_sheet_metadata seed df sheet_name = Raise AttributeError
      <-> ~ NoDup (columns df)).
Proof.
  destruct (date_loop_facts df (columns df) ([], []) (fun c H => H))
    as [[marks formats] [Hrun _]].
  unfold _extract_sheet_metadata, _detect_date_columns. rewrite Hrun. simpl.
  set (dc := set_iter seed (pyset_of_list marks)).
  destruct (infer_loop_total dc (columns df) df [] (fun c H => H)) as [[df1 types] Hinf].
  unfold _infer_data_types. rewrite Hinf. simpl.
  destruct (infer_loop_columns _ _ _ _ _ _ Hinf) as [Hcols _].
  rewrite role_columns_closed. rewrite Hcols.
  pose proof (all_series_NoDup df1) as Hall. rewrite Hcols in Hall.
  destruct (forallb (is_series df1) (columns df)) eqn:Hs.
  - assert (Hnd : NoDup (columns df)) by (now apply Hall).
    cbv zeta. simpl.
    set (ids := filter (qualifies_identifier df1) (columns df)).
    set (descs := filter (fun c => negb (PyStr.mem c ids) && populated df1 c) (columns df)).
    assert (Hcand : Forall (fun c => is_series df1 (fst c) = true
                                     /\ is_series df1 (snd c) = true)
                           (columns_to_try df1 ids descs)).
    { apply candidates_are_series.
      - now rewrite Hcols.
      - rewrite Hcols. intros c Hc. unfold ids in Hc. apply filter_In in Hc. tauto.
      - rewrite Hcols. intros c Hc. unfold descs in Hc. apply filter_In in Hc. tauto. }
    destruct (try_pairs_total df1 _ [] Hcand) as [m Hm].
    unfold _extract_metrics. rewrite Hm. simpl.
    split; split; intros H; eauto; try discriminate. contradiction.
  - assert (Hno : ~ NoDup (columns df)) by (intros H; apply Hall in H; discriminate).
    simpl. split; split; intros H; auto; try contradiction.
    destruct H as [r Hr]. discriminate.
Qed.


(** X13.  The profile of a sheet reports the table as it is: its name, its
    labels in order, the number of its rows and of its columns, a header
    flag that is always true, and one type per label in table order.  A
    profile exists only for a table with distinct labels. *)
Theorem sheet_profile_dimensions
    (seed : HashSeed) (df : DataFrame scalar) (sheet_name : string)
    (sheet_info : dict pyval) (metrics : dict string) :
  _extract_sheet_metadata seed df sheet_name = Ok (sheet_info, metrics) ->
  NoDup (columns df)
  /\ getattr sheet_info "name" = Some (VStr sheet_name)
  /\ getattr sheet_info "columns" = Some (str_list (columns df))
  /\ getattr sheet_info "row_count" = Some (VInt (Z.of_nat (index_len df)))
  /\ getattr sheet_info "column_count"
     = Some (VInt (Z.of_nat (List.length (columns df))))
  /\ getattr sheet_info "has_headers" = Some (VBool true)
  /\ exists types,
       getattr sheet_info "data_types" = Some (str_dict types)
       /\ map fst types = columns df.
Proof.
  intros H.
  assert (Hnd : NoDup (columns df)).
  { apply (proj1 (sheet_metadata_cases seed df sheet_name)). eauto. }
  split; [exact Hnd|].
  unfold _extract_sheet_metadata in H.
  destruct (_detect_date_columns seed df) as [dates|]; [|discriminate]. simpl in H.
  destruct (_infer_data_types df (fst dates)) as [[df1 types]|] eqn:Hinf;
    [|discriminate].
  simpl in H.
  destruct (role_columns df1 (fst dates)) as [roles|]; [|discriminate]. simpl in H.
  destruct (_extract_metrics df1 (fst (fst roles)) (snd (fst roles))) as [m|];
    [|discriminate].
  simpl in H. inv H.
  unfold _infer_data_types in Hinf.
  pose proof (infer_loop_keys (fst dates) (columns df) Hnd df df1 [] types
                (fun c _ (F : In c (map fst (@nil (string * string)))) => F) Hinf)
    as Hkeys. simpl in Hkeys.
  destruct (infer_loop_columns _ _ _ _ _ _ Hinf) as [_ Hlen].
  unfold getattr. simpl. rewrite Hlen.
  repeat split. exists types. auto.
Qed.

End SheetExtras.

Lemma sheet_profile_dimensions_witness :
  _extract_sheet_metadata seed_a codes_df "Codes"
  = Ok ([ ("name", VStr "Codes"); ("columns", VList [VStr "Code"; VStr "Label"]);
          ("row_count", VInt 2); ("column_count", VInt 2);
          ("data_types", VDict [("Code", VStr "string"); ("Label", VStr "string")]);
          ("has_headers", VBool true); ("date_columns", VList []);
          ("null_counts", VDict [("Code", VInt 0); ("Label", VInt 0)]);
          ("date_formats", VList []) ],
        [("R001", "Revenue"); ("R002", "Cost")])
  /\ NoDup (columns codes_df).
Proof.
  split; [reflexivity|].
  eapply (sheet_profile_dimensions (P := toy) seed_a codes_df "Codes"). reflexivity.
Defined.

Section ProcessExtras.
Context {P : Pandas}.

Lemma sheet_step_cases (seed : HashSeed) (a : acc) (sheet : string * RawFrame scalar) :
  (NoDup (columns (sanitize (snd sheet))) -> exists a', sheet_step seed a sheet = Ok a')
  /\ (~ NoDup (columns (sanitize (snd sheet))) ->
      sheet_step seed a sheet = Raise AttributeError).
Proof.
  destruct (sheet_metadata_cases seed (sanitize (snd sheet)) (fst sheet)) as [Hok Hbad].
  unfold sheet_step. split; intros H.
  - apply Hok in H. destruct H as [r Hr]. rewrite Hr. simpl. eauto.
  - apply Hbad in H. now rewrite H.
Qed.

Lemma sheet_loop_cases (seed : HashSeed) (sheets : list (string * RawFrame scalar))
    (a : acc) :
  (Forall (fun sh => NoDup (columns (sanitize (snd sh)))) sheets ->
   exists a', sheet_loop seed sheets a = Ok a')
  /\ (~ Forall (fun sh => NoDup (columns (sanitize (snd sh)))) sheets ->
      sheet_loop seed sheets a = Raise AttributeError).
Proof.
  revert a. induction sheets as [|sheet rest IH]; intros a; simpl.
  - split; [eauto|]. intros H. exfalso. apply H. constructor.
  - destruct (sheet_step_cases seed a sheet) as [Hok Hbad].
    destruct (ListDec.NoDup_dec string_dec (columns (sanitize (snd sheet)))) as [Hnd|Hnd].
    + destruct (Hok Hnd) as [a' Ha']. rewrite Ha'. simpl.
      destruct (IH a') as [IHok IHbad]. split; intros H.
      * inv H. now apply IHok.
      * apply IHbad. intros Hrest. apply H. now constructor.
    + rewrite (Hbad Hnd). simpl. split; intros H; [inv H; contradiction|reflexivity].
Qed.

Lemma response_init (sheets payload path config : pyval) :
  model_init SpreadsheetProcessingResponse
    [ ("sheets_metadata", sheets); ("processed_data", payload);
      ("file_path", path); ("config_path", config) ]
  = Ok [ ("sheets_metadata", sheets); ("processed_data", payload);
         ("file_path", path) ].
Proof. reflexivity. Qed.

Lemma with_suffix_cases (p suffix : string) :
  (PyStr.truthy (snd (PyPath.split_name p)) = true ->
   exists c, PyPath.with_suffix p suffix = Ok c)
  /\ (PyStr.truthy (snd (PyPath.split_name p)) = false ->
      PyPath.with_suffix p suffix = Raise ValueError).
Proof.
  unfold PyPath.with_suffix.
  destruct (PyStr.truthy (snd (PyPath.split_name p))); split; intros H;
    eauto; discriminate.
Qed.

Lemma read_excel_cases (fs : storage scalar) (p : string) :
  match read_excel fs p with
  | Ok sheets =>
      dict_get (PyPath.normalize p) fs = Some (Workbook sheets)
      /\ PyPath.names_directory p = false
      /\ exists_ fs (PyPath.normalize p) = true
  | Raise e => e = ReadError
  end.
Proof.
  unfold read_excel, exists_, has_key.
  destruct (PyPath.names_directory p); [reflexivity|].
  destruct (dict_get (PyPath.normalize p) fs) as [[sheets| |doc]|]; auto.
Qed.

(** The outcome of a call, by cases on its input. *)
Lemma process_cases (seed : HashSeed) (fs : storage scalar) (p : string) :
  if exists_ fs (PyPath.normalize p) then
    match read_excel fs p with
    | Raise _ => process_spreadsheet seed fs p = (fs, Raise ReadError)
    | Ok sheets =>
        match sheet_loop seed sheets (mkAcc [] [] []) with
        | Raise e =>
            e = AttributeError
            /\ ~ Forall (fun sh => NoDup (columns (sanitize (snd sh)))) sheets
            /\ process_spreadsheet seed fs p = (fs, Raise AttributeError)
        | Ok a =>
            Forall (fun sh => NoDup (columns (sanitize (snd sh)))) sheets
            /\ match PyPath.with_suffix (PyPath.normalize p) ".yaml" with
               | Raise e =>
                   PyStr.truthy (snd (PyPath.split_name (PyPath.normalize p))) = false
                   /\ process_spreadsheet seed fs p = (fs, Raise ValueError)
               | Ok config_path =>
                   PyStr.truthy (snd (PyPath.split_name (PyPath.normalize p))) = true
                   /\ process_spreadsheet seed fs p
                      = (dict_set config_path (Document (config_data seed a)) fs,
                         Ok [ ("sheets_metadata",
                               VDict (map (fun kv => (fst kv, VDict (snd kv)))
                                          (sheets_metadata a)));
                              ("processed_data", VDict []);
                              ("file_path", VStr (PyPath.normalize p)) ])
               end
        end
    end
  else process_spreadsheet seed fs p = (fs, Raise FileNotFoundError).
Proof.
  unfold process_spreadsheet, build_profile.
  destruct (exists_ fs (PyPath.normalize p)); simpl; [|reflexivity].
  pose proof (read_excel_cases fs p) as Hread.
  destruct (read_excel fs p) as [sheets|e]; simpl; [|now subst e].
  destruct (sheet_loop_cases seed sheets (mkAcc [] [] [])) as [Hok Hbad].
  destruct (List.Forall_dec (fun sh => NoDup (columns (sanitize (snd sh))))
              (fun sh => ListDec.NoDup_dec string_dec (columns (sanitize (snd sh))))
              sheets) as [Hall|Hall].
  - destruct (Hok Hall) as [a Ha]. rewrite Ha. simpl. split; [exact Hall|].
    destruct (with_suffix_cases (PyPath.normalize p) ".yaml") as [Hyes Hno].
    destruct (PyStr.truthy (snd (PyPath.split_name (PyPath.normalize p)))) eqn:Hname.
    + destruct (Hyes eq_refl) as [c Hc]. rewrite Hc. simpl. auto.
    + rewrite (Hno eq_refl). simpl. auto.
  - rewrite (Hbad Hall). simpl. auto.
Qed.

(** X14.  [process_spreadsheet] returns exactly when the reader returns
    the sheets of a workbook for the path, every sheet has pairwise
    distinct labels once they are cleaned, and the path has a final
    component. *)
Theorem process_succeeds_iff (seed : HashSeed) (fs : storage scalar) (p : string) :
  (exists response, snd (process_spreadsheet seed fs p) = Ok response)
  <-> exists sheets,
        read_excel fs p = Ok sheets
        /\ Forall (fun sh => NoDup (columns (sanitize (snd sh)))) sheets
        /\ PyStr.truthy (snd (PyPath.split_name (PyPath.normalize p))) = true.
Proof.
  pose proof (process_cases seed fs p) as H.
  pose proof (read_excel_cases fs p) as Hread.
  destruct (exists_ fs (PyPath.normalize p)) eqn:Hex.
  - destruct (read_excel fs p) as [sheets|e0].
    + destruct (sheet_loop seed sheets (mkAcc [] [] [])) as [a|e].
      * destruct H as [Hall H].
        destruct (PyPath.with_suffix (PyPath.normalize p) ".yaml") as [c|e];
          destruct H as [Hname H]; rewrite H; simpl; split.
        -- intros _. exists sheets. auto.
        -- intros _. eauto.
        -- intros [r Hr]. discriminate.
        -- intros [sh [_ [_ Ht]]]. congruence.
      * destruct H as [_ [Hall H]]. rewrite H. simpl. split.
        -- intros [r Hr]. discriminate.
        -- intros [sh [Heq [Hf _]]]. inv Heq. contradiction.
    + rewrite H. simpl. split; [intros [r Hr]|intros [sh [Heq _]]]; discriminate.
  - rewrite H. simpl. split; [intros [r Hr]; discriminate|].
    intros [sh [Heq _]]. rewrite Heq in Hread. destruct Hread as [_ [_ Ht]].
    discriminate.
Qed.


(** X16.  A call that returns has written one document, at the path of
    the workbook as pathlib prints it with its suffix replaced by
    [.yaml]; every other path of storage holds what it held before; and
    the response carries the path as pathlib prints it, not as it was
    given, and an empty payload. *)
Theorem process_success_frame
    (seed : HashSeed) (fs fs' : storage scalar) (p : string) (response : dict pyval) :
  process_spreadsheet seed fs p = (fs', Ok response) ->
  exists config_path doc,
    PyPath.with_suffix (PyPath.normalize p) ".yaml" = Ok config_path
    /\ dict_get config_path fs' = Some (Document doc)
    /\ lookup_path ["version"] doc = Some (VStr "1.0")
    /\ (forall q, q <> config_path -> dict_get q fs' = dict_get q fs)
    /\ getattr response "file_path" = Some (VStr (PyPath.normalize p))
    /\ getattr response "processed_data" = Some (VDict []).
Proof.
  pose proof (process_cases seed fs p) as H.
  destruct (exists_ fs (PyPath.normalize p)).
  - destruct (read_excel fs p) as [sheets|e0].
    + destruct (sheet_loop seed sheets (mkAcc [] [] [])) as [a|e'].
      * destruct H as [_ H].
        destruct (PyPath.with_suffix (PyPath.normalize p) ".yaml") as [c|e'];
          destruct H as [_ H]; rewrite H; intros He; inv He.
        exists c, (config_data seed a). split; [reflexivity|].
        split; [apply dict_get_set_same|]. split; [reflexivity|].
        split; [intros q Hq; now apply dict_get_set_other|]. split; reflexivity.
      * destruct H as [_ [_ H]]. rewrite H. intros He. inv He.
    + rewrite H. intros He. inv He.
  - rewrite H. intros He. inv He.
Qed.

End ProcessExtras.

Lemma process_succeeds_iff_witness :
  columns (sanitize twin_raw) = ["a"; "a"]
  /\ ~ (exists response,
          snd (process_spreadsheet seed_a twin_fs book_path) = Ok response)
  /\ (exists response,
        snd (process_spreadsheet seed_a book_fs "./data/book.xlsx") = Ok response).
Proof.
  split; [reflexivity|]. split.
  - intros H.
    apply (proj1 (process_succeeds_iff (P := toy) seed_a twin_fs book_path)) in H.
    destruct H as [sheets [Hread [Hall _]]].
    vm_compute in Hread. injection Hread as <-.
    inversion Hall as [|sh rest Hnd _]. subst.
    inversion Hnd as [|x l Hin _]. apply Hin. left. reflexivity.
  - apply (proj2 (process_succeeds_iff (P := toy) seed_a book_fs "./data/book.xlsx")).
    exists [("Codes", codes_raw)]. split; [reflexivity|]. split; [|reflexivity].
    repeat constructor; simpl; intuition discriminate.
Defined.


Lemma process_success_frame_witness :
  exists fs' response,
    process_spreadsheet seed_a book_fs "./data//book.xlsx" = (fs', Ok response)
    /\ exists config_path doc,
         PyPath.with_suffix (PyPath.normalize "./data//book.xlsx") ".yaml"
         = Ok config_path
         /\ dict_get config_path fs' = Some (Document doc)
         /\ lookup_path ["version"] doc = Some (VStr "1.0")
         /\ (forall q, q <> config_path -> dict_get q fs' = dict_get q book_fs)
         /\ getattr response "file_path"
            = Some (VStr (PyPath.normalize "./data//book.xlsx"))
         /\ getattr response "processed_data" = Some (VDict []).
Proof.
  do 2 eexists. split; [reflexivity|].
  apply (process_success_frame (P := toy) seed_a book_fs _ "./data//book.xlsx").
  reflexivity.
Defined.

(** The response and the document use the path as pathlib prints it. *)
Example path_is_normalised :
  PyPath.normalize "./data//book.xlsx" = "data/book.xlsx"
  /\ (exists response,
        snd (process_spreadsheet seed_a book_fs "./data//book.xlsx") = Ok response
        /\ getattr response "file_path" = Some (VStr "data/book.xlsx"))
  /\ document_at (fst (process_spreadsheet seed_a book_fs "./data//book.xlsx"))
       "data/book.yaml" <> None
  /\ read_excel book_fs "data/" = Raise ReadError.
Proof.
  split; [reflexivity|]. split; [eexists; split; reflexivity|].
  split; [discriminate|reflexivity].
Qed.

Section AssemblyExtras.
Context {P : Pandas}.

Lemma sheet_step_inv (seed : HashSeed) (a a' : acc) (sheet : string * RawFrame scalar) :
  sheet_step seed a sheet = Ok a' ->
  exists info m,
    _extract_sheet_metadata seed (sanitize (snd sheet)) (fst sheet) = Ok (info, m)
    /\ sheets_metadata a' = dict_set (fst sheet) info (sheets_metadata a)
    /\ global_date_formats a'
       = pyset_update (global_date_formats a) (strings_of (getattr info "date_formats"))
    /\ metrics_mapping a'
       = if dict_truthy m then dict_set (fst sheet) m (metrics_mapping a)
         else metrics_mapping a.
Proof.
  unfold sheet_step.
  destruct (_extract_sheet_metadata seed (sanitize (snd sheet)) (fst sheet))
    as [[info m]|]; [|discriminate].
  simpl. intros H. inv H. exists info, m. simpl. auto.
Qed.

Lemma sheet_loop_inv (seed : HashSeed) (sheets : list (string * RawFrame scalar)) :
  forall a0 a,
    sheet_loop seed sheets a0 = Ok a ->
    (Forall (fun kv => snd kv <> []) (metrics_mapping a0) ->
     Forall (fun kv => snd kv <> []) (metrics_mapping a))
    /\ (forall n, In n (map fst (metrics_mapping a)) ->
          In n (map fst (metrics_mapping a0)) \/ In n (map fst sheets))
    /\ (forall n, In n (map fst (sheets_metadata a)) <->
          In n (map fst (sheets_metadata a0)) \/ In n (map fst sheets))
    /\ (NoDup (map fst (sheets_metadata a0)) -> NoDup (map fst (sheets_metadata a)))
    /\ (NoDup (global_date_formats a0) -> NoDup (global_date_formats a))
    /\ (forall f, In f (global_date_formats a) <->
          In f (global_date_formats a0)
          \/ exists sheet info m,
               In sheet sheets
               /\ _extract_sheet_metadata seed (sanitize (snd sheet)) (fst sheet)
                  = Ok (info, m)
               /\ In f (strings_of (getattr info "date_formats"))).
Proof.
  induction sheets as [|sheet rest IH]; intros a0 a H; simpl in H.
  - inv H. repeat split; auto; try tauto.
    + intros [Hn|[]]. exact Hn.
    + intros [Hf|[sh [i [m [[] _]]]]]. exact Hf.
  - destruct (sheet_step seed a0 sheet) as [a1|] eqn:Hstep; [|discriminate].
    simpl in H. destruct (sheet_step_inv _ _ _ _ Hstep) as [info [m [Hx [Hs [Hg Hm]]]]].
    destruct (IH _ _ H) as [I1 [I2 [I3 [I4 [I5 I6]]]]].
    split; [|split; [|split; [|split; [|split]]]].
    + intros H0. apply I1. rewrite Hm.
      destruct (dict_truthy m) eqn:Ht; [|exact H0].
      apply dict_set_Forall; [|exact H0]. simpl. intros ->. discriminate.
    + intros n Hn. apply I2 in Hn. simpl. destruct Hn as [Hn|Hn]; [|auto].
      rewrite Hm in Hn. destruct (dict_truthy m); [|auto].
      apply dict_set_keys in Hn. destruct Hn as [->|Hn]; auto.
    + intros n. rewrite I3, Hs, dict_set_keys. simpl. intuition.
    + intros H0. apply I4. rewrite Hs. now apply dict_set_keys_NoDup.
    + intros H0. apply I5. rewrite Hg. now apply pyset_update_NoDup.
    + intros f. rewrite I6, Hg, pyset_update_In. split.
      * intros [[Hf|Hf]|[sh [i [m' [Hin Hrest]]]]].
        -- now left.
        -- right. exists sheet, info, m. simpl. auto.
        -- right. exists sh, i, m'. simpl. auto.
      * intros [Hf|[sh [i [m' [[<-|Hin] [Hrun Hf]]]]]].
        -- left. now left.
        -- rewrite Hx in Hrun. inv Hrun. left. now right.
        -- right. exists sh, i, m'. auto.
Qed.

(** X17.  In the document of a call that returns, the sheets are the
    sheets of the workbook, each once, and the metric section has an entry
    only for sheets of the workbook and never an empty dictionary. *)
Theorem document_sections
    (seed : HashSeed) (fs : storage scalar) (p : string)
    (sheets : list (string * RawFrame scalar)) (response : dict pyval) :
  read_excel fs p = Ok sheets ->
  snd (process_spreadsheet seed fs p) = Ok response ->
  exists a config_path,
    fst (process_spreadsheet seed fs p)
    = dict_set config_path (Document (config_data seed a)) fs
    /\ NoDup (map fst (sheets_metadata a))
    /\ (forall n, In n (map fst (sheets_metadata a)) <-> In n (map fst sheets))
    /\ incl (map fst (metrics_mapping a)) (map fst sheets)
    /\ Forall (fun kv => snd kv <> []) (metrics_mapping a).
Proof.
  intros Hget Hok. pose proof (process_cases seed fs p) as H.
  pose proof (read_excel_cases fs p) as Hread. rewrite Hget in Hread.
  destruct Hread as [_ [_ Hex]]. rewrite Hex, Hget in H.
  destruct (sheet_loop seed sheets (mkAcc [] [] [])) as [a|e] eqn:Hloop.
  - destruct H as [_ H].
    destruct (PyPath.with_suffix (PyPath.normalize p) ".yaml") as [c|e];
      destruct H as [_ H].
    + exists a, c. rewrite H. simpl.
      destruct (sheet_loop_inv _ _ _ _ Hloop) as [I1 [I2 [I3 [I4 _]]]].
      simpl in I1, I2, I3, I4.
      split; [reflexivity|]. split; [apply I4; constructor|]. split.
      * intros n. rewrite I3. tauto.
      * split; [|apply I1; constructor].
        intros n Hn. apply I2 in Hn. tauto.
    + rewrite H in Hok. discriminate.
  - destruct H as [_ [_ H]]. rewrite H in Hok. discriminate.
Qed.

(** X18.  The global date formats of a call that returns are the union of
    the date formats of its sheets: a format is listed, once, exactly when
    the profile of some sheet of the workbook lists it. *)
Theorem global_formats_are_the_union
    (seed : HashSeed) (fs : storage scalar) (p : string)
    (sheets : list (string * RawFrame scalar)) (response : dict pyval) :
  read_excel fs p = Ok sheets ->
  snd (process_spreadsheet seed fs p) = Ok response ->
  exists config_path doc global,
    PyPath.with_suffix (PyPath.normalize p) ".yaml" = Ok config_path
    /\ document_at (fst (process_spreadsheet seed fs p)) config_path = Some doc
    /\ lookup_path ["global"; "date_formats"] doc = Some (str_list global)
    /\ NoDup global
    /\ (forall f, In f global <->
          exists sheet info m,
            In sheet sheets
            /\ _extract_sheet_metadata seed (sanitize (snd sheet)) (fst sheet)
               = Ok (info, m)
            /\ In f (strings_of (getattr info "date_formats"))).
Proof.
  intros Hget Hok. pose proof (process_cases seed fs p) as H.
  pose proof (read_excel_cases fs p) as Hread. rewrite Hget in Hread.
  destruct Hread as [_ [_ Hex]]. rewrite Hex, Hget in H.
  destruct (sheet_loop seed sheets (mkAcc [] [] [])) as [a|e] eqn:Hloop.
  - destruct H as [_ H].
    destruct (PyPath.with_suffix (PyPath.normalize p) ".yaml") as [c|e];
      destruct H as [_ H].
    + exists c, (config_data seed a), (set_iter seed (global_date_formats a)).
      rewrite H. simpl.
      destruct (sheet_loop_inv _ _ _ _ Hloop) as [_ [_ [_ [_ [I5 I6]]]]].
      simpl in I5, I6. specialize (I5 (NoDup_nil _)).
      split; [reflexivity|]. split.
      { unfold document_at. now rewrite dict_get_set_same. }
      split; [reflexivity|]. split; [now apply set_iter_NoDup|].
      intros f. rewrite set_iter_In by exact I5. rewrite I6. split.
      * intros [[]|Hf]. exact Hf.
      * intros Hf. now right.
    + rewrite H in Hok. discriminate.
  - destruct H as [_ [_ H]]. rewrite H in Hok. discriminate.
Qed.

End AssemblyExtras.

Lemma document_sections_witness :
  read_excel grades_fs "./data/book.xlsx" = Ok [("Grades", grades_raw)]
  /\ exists a config_path,
       fst (process_spreadsheet seed_a grades_fs "./data/book.xlsx")
       = dict_set config_path (Document (config_data seed_a a)) grades_fs
       /\ NoDup (map fst (sheets_metadata a))
       /\ (forall n, In n (map fst (sheets_metadata a)) <-> In n ["Grades"])
       /\ incl (map fst (metrics_mapping a)) ["Grades"]
       /\ Forall (fun kv => snd kv <> []) (metrics_mapping a).
Proof.
  split; [reflexivity|].
  eapply (document_sections (P := toy) seed_a grades_fs "./data/book.xlsx"
            [("Grades", grades_raw)]); reflexivity.
Defined.

Lemma global_formats_are_the_union_witness :
  read_excel dated_fs book_path = Ok [("Q1", q1_raw); ("Daily", daily_raw)]
  /\ (exists response,
        snd (process_spreadsheet seed_a dated_fs book_path) = Ok response)
  /\ exists config_path doc global,
       PyPath.with_suffix (PyPath.normalize book_path) ".yaml" = Ok config_path
       /\ document_at (fst (process_spreadsheet seed_a dated_fs book_path))
            config_path
          = Some doc
       /\ lookup_path ["global"; "date_formats"] doc = Some (str_list global)
       /\ global = ["%b-%y"; "%Y-%m-%d"]
       /\ NoDup global
       /\ (forall f, In f global <->
             exists sheet info m,
               In sheet [("Q1", q1_raw); ("Daily", daily_raw)]
               /\ _extract_sheet_metadata seed_a (sanitize (snd sheet)) (fst sheet)
                  = Ok (info, m)
               /\ In f (strings_of (getattr info "date_formats"))).
Proof.
  split; [reflexivity|]. split; [eexists; reflexivity|].
  assert (exists r, snd (process_spreadsheet seed_a dated_fs book_path) = Ok r)
    as [r Hr] by (eexists; reflexivity).
  destruct (global_formats_are_the_union (P := toy) seed_a dated_fs book_path
              [("Q1", q1_raw); ("Daily", daily_raw)] r eq_refl Hr)
    as [c [doc [g [Hc [Hd [Hl [Hnd Hiff]]]]]]].
  exists c, doc, g. repeat split; try assumption.
  - vm_compute in Hc. injection Hc as <-. vm_compute in Hd. injection Hd as <-.
    vm_compute in Hl. injection Hl as Hl.
    destruct g as [|x [|y [|z t]]]; try discriminate Hl.
    now injection Hl as <- <-.
  - now apply Hiff.
  - now apply Hiff.
Defined.

Section ExecuteExtras.
Context {P : Pandas}.

Lemma process_outcome_shape (seed : HashSeed) (fs : storage scalar) (p : string) :
  (exists e, process_spreadsheet seed fs p = (fs, Raise e))
  \/ (exists fs' r, process_spreadsheet seed fs p = (fs', Ok r)).
Proof.
  unfold process_spreadsheet.
  destruct (build_profile seed fs p) as [[a c]|e]; [right|left; eauto].
  rewrite response_init. eauto.
Qed.

(** X19.  [execute] never raises: it yields the update "processing" first
    when streaming was asked for and a path was given, and then exactly
    one last update, which is "completed" with the dump of the response
    when [process_spreadsheet] returned on the given path, and "error"
    otherwise. *)
Theorem execute_updates
    (seed : HashSeed) (fs : storage scalar) (context_variables : dict pyval)
    (stream : bool) :
  exists last,
    snd (execute seed fs context_variables stream)
    = (if stream && match dict_get "spreadsheet_path" context_variables with
                    | Some v => py_truthy v
                    | None => false
                    end
       then [mkUpdate PROCESSING Loading] else [])
      ++ [last]
    /\ status last <> PROCESSING
    /\ (status last = COMPLETED <->
        exists path response,
          dict_get "spreadsheet_path" context_variables = Some (VStr path)
          /\ path <> ""
          /\ process_spreadsheet seed fs path
             = (fst (execute seed fs context_variables stream), Ok response)
          /\ message last = Dump (VDict response)).
Proof.
  unfold execute.
  destruct (dict_get "spreadsheet_path" context_variables) as [v|] eqn:Hget.
  2:{ exists (mkUpdate ERROR (ErrorText ValueError)). rewrite andb_false_r. simpl.
      split; [reflexivity|]. split; [discriminate|].
      split; [discriminate|]. intros [p [r [Hp _]]]. discriminate. }
  destruct (py_truthy v) eqn:Hv; simpl.
  2:{ exists (mkUpdate ERROR (ErrorText ValueError)). rewrite andb_false_r. simpl.
      split; [reflexivity|]. split; [discriminate|].
      split; [discriminate|]. intros [p [r [Hp [Hne _]]]]. inv Hp.
      destruct p; [contradiction|discriminate]. }
  rewrite andb_true_r.
  destruct v as [p|z|b|l|d];
    try (exists (mkUpdate ERROR PathTypeErrorText); simpl;
         split; [reflexivity|]; split; [discriminate|];
         split; [discriminate|]; intros [p' [r [Hp _]]]; discriminate).
  destruct (process_outcome_shape seed fs p) as [[e He]|[fs' [r Hr]]].
  - rewrite He. exists (mkUpdate ERROR (ErrorText e)). simpl.
    split; [reflexivity|]. split; [discriminate|].
    split; [discriminate|]. intros [p' [r [Hp [_ [Hrun _]]]]]. inv Hp.
    rewrite He in Hrun. discriminate.
  - rewrite Hr. exists (mkUpdate COMPLETED (Dump (VDict r))). simpl.
    split; [reflexivity|]. split; [discriminate|].
    split; [|reflexivity]. intros _. exists p, r.
    split; [reflexivity|]. split; [|auto].
    intros ->. discriminate.
Qed.

(** X20.  When the last update of [execute] is an error, storage is what
    it was before the call; and without a path in the context (absent, or
    empty) the only update is the error of the missing path, streaming or
    not, and the pipeline is not started. *)
Theorem execute_error_writes_nothing
    (seed : HashSeed) (fs : storage scalar) (context_variables : dict pyval)
    (stream : bool) :
  (status (last (snd (execute seed fs context_variables stream))
                (mkUpdate PROCESSING Loading)) = ERROR ->
   fst (execute seed fs context_variables stream) = fs)
  /\ (match dict_get "spreadsheet_path" context_variables with
      | Some v => py_truthy v
      | None => false
      end = false ->
      execute seed fs context_variables stream
      = (fs, [mkUpdate ERROR (ErrorText ValueError)])).
Proof.
  unfold execute.
  destruct (dict_get "spreadsheet_path" context_variables) as [v|] eqn:Hget;
    [|split; reflexivity].
  destruct (py_truthy v) eqn:Hv; simpl; [|split; reflexivity].
  split; [|discriminate].
  destruct v as [p|z|b|l|d]; try reflexivity.
  destruct (process_outcome_shape seed fs p) as [[e He]|[fs' [r Hr]]].
  - rewrite He. reflexivity.
  - rewrite Hr. simpl. rewrite last_last. simpl. discriminate.
Qed.

End ExecuteExtras.
